(** * Surface detection service (godel_surface_detection)

    A shallow embedding of
    [godel_surface_detection/src/services/surface_detection_service.cpp]:
    the class [SurfaceDetectionService], its three service callbacks, the
    scan and find sub-procedures, initialization and the periodic publisher.

    The service is a state-passing program over a record holding the class
    members.  The three stage objects ([robot_scan_], [surface_detection_],
    [surface_server_]) and the message types are declared in headers that
    are not part of this file; they enter the development as interfaces
    (type classes), so the results below hold for every implementation of
    the stages; the one assumption made on them, [StagesKeepParams], is a
    hypothesis of the results that need it. *)

From Stdlib Require Import List ZArith String Bool Lia.
Import ListNotations.
Open Scope string_scope.
Open Scope list_scope.

Set Implicit Arguments.

(** ** Message payloads *)

(** The payload types of the ROS messages the service moves around.  Only
    what the service itself does with them is exposed: a default-constructed
    value where the code builds one ([T()]), and the emptiness test on the
    [data] member of a point cloud. *)
Class Messages : Type := {
  RobotScanParameters : Type;          (* godel_msgs::RobotScanParameters *)
  SurfaceDetectionParameters : Type;   (* godel_msgs::SurfaceDetectionParameters *)
  Marker : Type;                       (* visualization_msgs::Marker *)
  PoseArray : Type;                    (* geometry_msgs::PoseArray *)
  PointCloud2 : Type;                  (* sensor_msgs::PointCloud2 *)
  PolygonMesh : Type;                  (* pcl::PolygonMesh *)
  Cloud : Type;                        (* argument of scan::RobotScan::ScanCallback *)
  double : Type;                       (* C++ double *)
  RobotScanParameters_new : RobotScanParameters;
  SurfaceDetectionParameters_new : SurfaceDetectionParameters;
  PoseArray_new : PoseArray;
  PointCloud2_new : PointCloud2;
  double_zero : double;
  data_empty : PointCloud2 -> bool     (* msg.data.empty() *)
}.

(** visualization_msgs::MarkerArray: a vector of markers. *)
Record MarkerArray `{Messages} : Type := { markers : list Marker }.

(** godel_msgs::BlendingPlanParameters: the nine fields read by
    [load_blending_parameters]. *)
Record BlendingPlanParameters `{Messages} : Type := {
  tool_radius : double;
  margin : double;
  overlap : double;
  approach_spd : double;
  blending_spd : double;
  retract_spd : double;
  traverse_spd : double;
  discretization : double;
  safe_traverse_height : double
}.

(** godel_msgs::SelectedSurfacesChanged *)
Record SelectedSurfacesChanged : Type := { selected_surfaces : list string }.

(** godel_msgs::SurfaceDetection: the actions of [switch(req.action)].  The
    switch has no default label; [OTHER_ACTION] stands for every value of
    [req.action] that matches none of its case labels. *)
Inductive Action : Type :=
| GET_CURRENT_PARAMETERS
| GET_DEFAULT_PARAMETERS
| PUBLISH_SCAN_PATH
| SCAN_AND_FIND_ONLY
| SCAN_FIND_AND_RETURN
| FIND_ONLY
| FIND_AND_RETURN
| RETURN_LATEST_RESULTS
| OTHER_ACTION.

(** godel_msgs::SurfaceDetection::Request *)
Module Req.
Record t `{Messages} : Type := {
  action : Action;
  use_default_parameters : bool;
  robot_scan : RobotScanParameters;
  surface_detection : SurfaceDetectionParameters
}.
End Req.

(** godel_msgs::SurfaceDetection::Response *)
Module Res.
Record t `{Messages} : Type := {
  surfaces_found : bool;
  surfaces : MarkerArray;
  robot_scan : RobotScanParameters;
  surface_detection : SurfaceDetectionParameters;
  robot_scan_poses : PoseArray
}.
End Res.

(** godel_msgs::SelectSurface::Request *)
Inductive SelectAction : Type :=
| SELECT | DESELECT | SELECT_ALL | DESELECT_ALL | HIDE_ALL | SHOW_ALL
| OTHER_SELECT_ACTION.

Module SelReq.
Record t : Type := {
  action : SelectAction;
  select_surfaces : list string
}.
End SelReq.

(** godel_msgs::SurfaceBlendingParameters *)
Inductive ParamAction : Type :=
| PARAM_GET_CURRENT_PARAMETERS | PARAM_GET_DEFAULT_PARAMETERS | OTHER_PARAM_ACTION.

Module BlendRes.
Record t `{Messages} : Type := {
  surface_detection : SurfaceDetectionParameters;
  robot_scan : RobotScanParameters;
  blending_plan : BlendingPlanParameters
}.
End BlendRes.

(** ** The stage objects *)

(** [scan::RobotScan] and [detection::SurfaceDetection] expose their
    parameters as the public member [params_], which the service assigns
    directly; everything else they hold is private to them. *)
Module scan.
Record RobotScan `{Messages} (Priv : Type) : Type := {
  params_ : RobotScanParameters;
  priv : Priv
}.
End scan.

Module detection.
Record SurfaceDetection `{Messages} (Priv : Type) : Type := {
  params_ : SurfaceDetectionParameters;
  priv : Priv
}.
End detection.

(** The methods of the three stage classes, the ROS parameter server and
    the objects the stage constructors build.  A method that mutates its
    object is a function to the new object, paired with the value it
    returns.  An accessor that fills an output argument ([get_meshes],
    [get_latest_scan_poses], ...) takes the argument's old value and gives
    the new one.

    Callbacks.  [RobotScan::scan] hands every cloud it acquires to the
    registered [ScanCallback]; the callback the service registers is
    [SurfaceDetection::add_cloud] bound to [surface_detection_], so [scan]
    returns the clouds it delivered and the service applies [add_cloud] to
    each.  The selection server runs the registered [SelectionCallback]
    from inside its mutators; each mutator returns, with the final server,
    the server as it was at each invocation of the callback (oldest
    first). *)
Class Collaborators `{Messages} : Type := {
  RobotScanPriv : Type;
  SurfaceDetectionPriv : Type;
  InteractiveSurfaceServer : Type;
  RobotScan_new : scan.RobotScan RobotScanPriv;
  SurfaceDetection_new : detection.SurfaceDetection SurfaceDetectionPriv;
  InteractiveSurfaceServer_new : InteractiveSurfaceServer;
  (* ros::NodeHandle(ns).getParam(key, out): [None] when the key is unset *)
  getParam_bool : string -> string -> option bool;
  getParam_double : string -> string -> option double;
  (* scan::RobotScan *)
  RobotScan_load_parameters :
    string -> scan.RobotScan RobotScanPriv -> bool * scan.RobotScan RobotScanPriv;
  RobotScan_init : scan.RobotScan RobotScanPriv -> bool * scan.RobotScan RobotScanPriv;
  RobotScan_add_scan_callback : scan.RobotScan RobotScanPriv -> scan.RobotScan RobotScanPriv;
  RobotScan_publish_scan_poses :
    string -> scan.RobotScan RobotScanPriv -> scan.RobotScan RobotScanPriv;
  RobotScan_scan :
    bool -> scan.RobotScan RobotScanPriv -> Z * list Cloud * scan.RobotScan RobotScanPriv;
  RobotScan_get_latest_scan_poses : scan.RobotScan RobotScanPriv -> PoseArray -> PoseArray;
  (* detection::SurfaceDetection *)
  SurfaceDetection_load_parameters :
    string -> detection.SurfaceDetection SurfaceDetectionPriv ->
    bool * detection.SurfaceDetection SurfaceDetectionPriv;
  SurfaceDetection_init :
    detection.SurfaceDetection SurfaceDetectionPriv ->
    bool * detection.SurfaceDetection SurfaceDetectionPriv;
  SurfaceDetection_add_cloud :
    Cloud -> detection.SurfaceDetection SurfaceDetectionPriv ->
    detection.SurfaceDetection SurfaceDetectionPriv;
  SurfaceDetection_clear_results :
    detection.SurfaceDetection SurfaceDetectionPriv ->
    detection.SurfaceDetection SurfaceDetectionPriv;
  SurfaceDetection_find_surfaces :
    detection.SurfaceDetection SurfaceDetectionPriv ->
    bool * detection.SurfaceDetection SurfaceDetectionPriv;
  SurfaceDetection_get_meshes :
    detection.SurfaceDetection SurfaceDetectionPriv -> list PolygonMesh -> list PolygonMesh;
  SurfaceDetection_get_surface_markers :
    detection.SurfaceDetection SurfaceDetectionPriv -> MarkerArray;
  SurfaceDetection_get_region_colored_cloud :
    detection.SurfaceDetection SurfaceDetectionPriv -> PointCloud2 -> PointCloud2;
  (* interactive::InteractiveSurfaceServer *)
  InteractiveSurfaceServer_load_parameters :
    InteractiveSurfaceServer -> bool * InteractiveSurfaceServer;
  InteractiveSurfaceServer_init :
    InteractiveSurfaceServer -> bool * InteractiveSurfaceServer;
  InteractiveSurfaceServer_add_selection_callback :
    InteractiveSurfaceServer -> InteractiveSurfaceServer;
  InteractiveSurfaceServer_run :
    InteractiveSurfaceServer -> InteractiveSurfaceServer * list InteractiveSurfaceServer;
  InteractiveSurfaceServer_get_selected_list :
    InteractiveSurfaceServer -> list string -> list string;
  InteractiveSurfaceServer_remove_all_surfaces :
    InteractiveSurfaceServer -> InteractiveSurfaceServer * list InteractiveSurfaceServer;
  InteractiveSurfaceServer_add_surface :
    PolygonMesh -> InteractiveSurfaceServer ->
    InteractiveSurfaceServer * list InteractiveSurfaceServer;
  InteractiveSurfaceServer_set_selection_flag :
    string -> bool -> InteractiveSurfaceServer ->
    InteractiveSurfaceServer * list InteractiveSurfaceServer;
  InteractiveSurfaceServer_select_all :
    bool -> InteractiveSurfaceServer ->
    InteractiveSurfaceServer * list InteractiveSurfaceServer;
  InteractiveSurfaceServer_show_all :
    bool -> InteractiveSurfaceServer ->
    InteractiveSurfaceServer * list InteractiveSurfaceServer
}.

Definition INT_MAX : Z := 2147483647.

(** ** The service *)

Definition SELECTED_SURFACES_CHANGED_TOPIC := "selected_surfaces_changed".
Definition ROBOT_SCAN_PATH_PREVIEW_TOPIC := "robot_scan_path_preview".
Definition PUBLISH_REGION_POINT_CLOUD := "publish_region_point_cloud".
Definition REGION_POINT_CLOUD_TOPIC := "region_colored_cloud".

Section Service.
Context {M : Messages} {C : Collaborators}.

#[local] Abbreviation RobotScan := (scan.RobotScan RobotScanPriv).
#[local] Abbreviation SurfaceDetection := (detection.SurfaceDetection SurfaceDetectionPriv).

(** What the service does to the outside, in order: the stage methods it
    calls (with the value each returned, recorded when the call returns)
    and the messages it publishes. *)
Inductive Event : Type :=
| E_publish_scan_poses (topic : string)
| E_clear_results
| E_scan (move_only : bool) (scans_completed : Z)
| E_add_cloud (c : Cloud)
| E_find_surfaces (found : bool)
| E_remove_all_surfaces
| E_add_surface (m : PolygonMesh)
| E_set_selection_flag (name : string) (flag : bool)
| E_select_all (flag : bool)
| E_show_all (flag : bool)
| E_publish (topic : string) (msg : SelectedSurfacesChanged)
| E_publish_cloud (topic : string) (msg : PointCloud2).

(** The data members of [SurfaceDetectionService].  The ROS handles
    (servers, publishers, the client) and the unused [mesh_importer_] carry
    no state of the service; what goes through the publishers is recorded
    in [trace], which is not a member of the class. *)
Record SurfaceDetectionService : Type := {
  robot_scan_ : RobotScan;
  surface_detection_ : SurfaceDetection;
  surface_server_ : InteractiveSurfaceServer;
  default_robot_scan_params__ : RobotScanParameters;
  default_surf_detection_params_ : SurfaceDetectionParameters;
  default_blending_plan_params_ : BlendingPlanParameters;
  blending_plan_params_ : BlendingPlanParameters;
  latest_surface_detection_results_ : Res.t;
  publish_region_point_cloud_ : bool;
  region_cloud_msg_ : PointCloud2;
  trace : list Event
}.

(** How a call ends.  [Undefined s] is C++ undefined behaviour (an index
    past the end of a vector, a signed overflow), reached with the service
    at [s]; [OutOfFuel] is a run cut off by the step bound of the model. *)
Inductive Outcome (A : Type) : Type :=
| Returns (a : A)
| Undefined (s : SurfaceDetectionService)
| OutOfFuel.
Arguments Undefined {A} s.
Arguments OutOfFuel {A}.

(** Member assignment. *)
Definition set_robot_scan_ (x : RobotScan) (s : SurfaceDetectionService) :=
  {| robot_scan_ := x;
     surface_detection_ := surface_detection_ s;
     surface_server_ := surface_server_ s;
     default_robot_scan_params__ := default_robot_scan_params__ s;
     default_surf_detection_params_ := default_surf_detection_params_ s;
     default_blending_plan_params_ := default_blending_plan_params_ s;
     blending_plan_params_ := blending_plan_params_ s;
     latest_surface_detection_results_ := latest_surface_detection_results_ s;
     publish_region_point_cloud_ := publish_region_point_cloud_ s;
     region_cloud_msg_ := region_cloud_msg_ s;
     trace := trace s |}.

Definition set_surface_detection_ (x : SurfaceDetection) (s : SurfaceDetectionService) :=
  {| robot_scan_ := robot_scan_ s;
     surface_detection_ := x;
     surface_server_ := surface_server_ s;
     default_robot_scan_params__ := default_robot_scan_params__ s;
     default_surf_detection_params_ := default_surf_detection_params_ s;
     default_blending_plan_params_ := default_blending_plan_params_ s;
     blending_plan_params_ := blending_plan_params_ s;
     latest_surface_detection_results_ := latest_surface_detection_results_ s;
     publish_region_point_cloud_ := publish_region_point_cloud_ s;
     region_cloud_msg_ := region_cloud_msg_ s;
     trace := trace s |}.

Definition set_surface_server_ (x : InteractiveSurfaceServer) (s : SurfaceDetectionService) :=
  {| robot_scan_ := robot_scan_ s;
     surface_detection_ := surface_detection_ s;
     surface_server_ := x;
     default_robot_scan_params__ := default_robot_scan_params__ s;
     default_surf_detection_params_ := default_surf_detection_params_ s;
     default_blending_plan_params_ := default_blending_plan_params_ s;
     blending_plan_params_ := blending_plan_params_ s;
     latest_surface_detection_results_ := latest_surface_detection_results_ s;
     publish_region_point_cloud_ := publish_region_point_cloud_ s;
     region_cloud_msg_ := region_cloud_msg_ s;
     trace := trace s |}.

Definition set_defaults (rs : RobotScanParameters) (sd : SurfaceDetectionParameters)
    (bp : BlendingPlanParameters) (s : SurfaceDetectionService) :=
  {| robot_scan_ := robot_scan_ s;
     surface_detection_ := surface_detection_ s;
     surface_server_ := surface_server_ s;
     default_robot_scan_params__ := rs;
     default_surf_detection_params_ := sd;
     default_blending_plan_params_ := bp;
     blending_plan_params_ := blending_plan_params_ s;
     latest_surface_detection_results_ := latest_surface_detection_results_ s;
     publish_region_point_cloud_ := publish_region_point_cloud_ s;
     region_cloud_msg_ := region_cloud_msg_ s;
     trace := trace s |}.

Definition set_blending_plan_params_ (x : BlendingPlanParameters)
    (s : SurfaceDetectionService) :=
  {| robot_scan_ := robot_scan_ s;
     surface_detection_ := surface_detection_ s;
     surface_server_ := surface_server_ s;
     default_robot_scan_params__ := default_robot_scan_params__ s;
     default_surf_detection_params_ := default_surf_detection_params_ s;
     default_blending_plan_params_ := default_blending_plan_params_ s;
     blending_plan_params_ := x;
     latest_surface_detection_results_ := latest_surface_detection_results_ s;
     publish_region_point_cloud_ := publish_region_point_cloud_ s;
     region_cloud_msg_ := region_cloud_msg_ s;
     trace := trace s |}.

Definition set_latest_surface_detection_results_ (x : Res.t)
    (s : SurfaceDetectionService) :=
  {| robot_scan_ := robot_scan_ s;
     surface_detection_ := surface_detection_ s;
     surface_server_ := surface_server_ s;
     default_robot_scan_params__ := default_robot_scan_params__ s;
     default_surf_detection_params_ := default_surf_detection_params_ s;
     default_blending_plan_params_ := default_blending_plan_params_ s;
     blending_plan_params_ := blending_plan_params_ s;
     latest_surface_detection_results_ := x;
     publish_region_point_cloud_ := publish_region_point_cloud_ s;
     region_cloud_msg_ := region_cloud_msg_ s;
     trace := trace s |}.

Definition set_publish_region_point_cloud_ (x : bool) (s : SurfaceDetectionService) :=
  {| robot_scan_ := robot_scan_ s;
     surface_detection_ := surface_detection_ s;
     surface_server_ := surface_server_ s;
     default_robot_scan_params__ := default_robot_scan_params__ s;
     default_surf_detection_params_ := default_surf_detection_params_ s;
     default_blending_plan_params_ := default_blending_plan_params_ s;
     blending_plan_params_ := blending_plan_params_ s;
     latest_surface_detection_results_ := latest_surface_detection_results_ s;
     publish_region_point_cloud_ := x;
     region_cloud_msg_ := region_cloud_msg_ s;
     trace := trace s |}.

Definition set_region_cloud_msg_ (x : PointCloud2) (s : SurfaceDetectionService) :=
  {| robot_scan_ := robot_scan_ s;
     surface_detection_ := surface_detection_ s;
     surface_server_ := surface_server_ s;
     default_robot_scan_params__ := default_robot_scan_params__ s;
     default_surf_detection_params_ := default_surf_detection_params_ s;
     default_blending_plan_params_ := default_blending_plan_params_ s;
     blending_plan_params_ := blending_plan_params_ s;
     latest_surface_detection_results_ := latest_surface_detection_results_ s;
     publish_region_point_cloud_ := publish_region_point_cloud_ s;
     region_cloud_msg_ := x;
     trace := trace s |}.

(** Appends one event to the trace. *)
Definition emit (e : Event) (s : SurfaceDetectionService) :=
  {| robot_scan_ := robot_scan_ s;
     surface_detection_ := surface_detection_ s;
     surface_server_ := surface_server_ s;
     default_robot_scan_params__ := default_robot_scan_params__ s;
     default_surf_detection_params_ := default_surf_detection_params_ s;
     default_blending_plan_params_ := default_blending_plan_params_ s;
     blending_plan_params_ := blending_plan_params_ s;
     latest_surface_detection_results_ := latest_surface_detection_results_ s;
     publish_region_point_cloud_ := publish_region_point_cloud_ s;
     region_cloud_msg_ := region_cloud_msg_ s;
     trace := trace s ++ [e] |}.

(** [robot_scan_.params_ = p] and [surface_detection_.params_ = p]. *)
Definition assign_robot_scan_params (p : RobotScanParameters)
    (s : SurfaceDetectionService) :=
  set_robot_scan_
    {| scan.params_ := p; scan.priv := scan.priv (robot_scan_ s) |} s.

Definition assign_surface_detection_params (p : SurfaceDetectionParameters)
    (s : SurfaceDetectionService) :=
  set_surface_detection_
    {| detection.params_ := p;
       detection.priv := detection.priv (surface_detection_ s) |} s.

(** *** Construction and initialization *)

(** A default-constructed response message. *)
Definition Response_new : Res.t :=
  {| Res.surfaces_found := false;
     Res.surfaces := {| markers := [] |};
     Res.robot_scan := RobotScanParameters_new;
     Res.surface_detection := SurfaceDetectionParameters_new;
     Res.robot_scan_poses := PoseArray_new |}.

Definition BlendingPlanParameters_new : BlendingPlanParameters :=
  {| tool_radius := double_zero; margin := double_zero; overlap := double_zero;
     approach_spd := double_zero; blending_spd := double_zero;
     retract_spd := double_zero; traverse_spd := double_zero;
     discretization := double_zero; safe_traverse_height := double_zero |}.

(** [SurfaceDetectionService()]: every member default-constructed,
    [publish_region_point_cloud_(false)]. *)
Definition SurfaceDetectionService_new : SurfaceDetectionService :=
  {| robot_scan_ := RobotScan_new;
     surface_detection_ := SurfaceDetection_new;
     surface_server_ := InteractiveSurfaceServer_new;
     default_robot_scan_params__ := RobotScanParameters_new;
     default_surf_detection_params_ := SurfaceDetectionParameters_new;
     default_blending_plan_params_ := BlendingPlanParameters_new;
     blending_plan_params_ := BlendingPlanParameters_new;
     latest_surface_detection_results_ := Response_new;
     publish_region_point_cloud_ := false;
     region_cloud_msg_ := PointCloud2_new;
     trace := [] |}.

(** The keys read by [load_blending_parameters], in the order of its [&&]
    chain, each with the assignment to the field it names. *)
Definition blending_plan_keys :
    list (string * (double -> BlendingPlanParameters -> BlendingPlanParameters)) :=
  [ ("tool_radius", fun v p =>
       {| tool_radius := v; margin := margin p; overlap := overlap p;
          approach_spd := approach_spd p; blending_spd := blending_spd p;
          retract_spd := retract_spd p; traverse_spd := traverse_spd p;
          discretization := discretization p;
          safe_traverse_height := safe_traverse_height p |});
    ("margin", fun v p =>
       {| tool_radius := tool_radius p; margin := v; overlap := overlap p;
          approach_spd := approach_spd p; blending_spd := blending_spd p;
          retract_spd := retract_spd p; traverse_spd := traverse_spd p;
          discretization := discretization p;
          safe_traverse_height := safe_traverse_height p |});
    ("overlap", fun v p =>
       {| tool_radius := tool_radius p; margin := margin p; overlap := v;
          approach_spd := approach_spd p; blending_spd := blending_spd p;
          retract_spd := retract_spd p; traverse_spd := traverse_spd p;
          discretization := discretization p;
          safe_traverse_height := safe_traverse_height p |});
    ("approach_spd", fun v p =>
       {| tool_radius := tool_radius p; margin := margin p; overlap := overlap p;
          approach_spd := v; blending_spd := blending_spd p;
          retract_spd := retract_spd p; traverse_spd := traverse_spd p;
          discretization := discretization p;
          safe_traverse_height := safe_traverse_height p |});
    ("blending_spd", fun v p =>
       {| tool_radius := tool_radius p; margin := margin p; overlap := overlap p;
          approach_spd := approach_spd p; blending_spd := v;
          retract_spd := retract_spd p; traverse_spd := traverse_spd p;
          discretization := discretization p;
          safe_traverse_height := safe_traverse_height p |});
    ("retract_spd", fun v p =>
       {| tool_radius := tool_radius p; margin := margin p; overlap := overlap p;
          approach_spd := approach_spd p; blending_spd := blending_spd p;
          retract_spd := v; traverse_spd := traverse_spd p;
          discretization := discretization p;
          safe_traverse_height := safe_traverse_height p |});
    ("traverse_spd", fun v p =>
       {| tool_radius := tool_radius p; margin := margin p; overlap := overlap p;
          approach_spd := approach_spd p; blending_spd := blending_spd p;
          retract_spd := retract_spd p; traverse_spd := v;
          discretization := discretization p;
          safe_traverse_height := safe_traverse_height p |});
    ("discretization", fun v p =>
       {| tool_radius := tool_radius p; margin := margin p; overlap := overlap p;
          approach_spd := approach_spd p; blending_spd := blending_spd p;
          retract_spd := retract_spd p; traverse_spd := traverse_spd p;
          discretization := v;
          safe_traverse_height := safe_traverse_height p |});
    ("safe_traverse_height", fun v p =>
       {| tool_radius := tool_radius p; margin := margin p; overlap := overlap p;
          approach_spd := approach_spd p; blending_spd := blending_spd p;
          retract_spd := retract_spd p; traverse_spd := traverse_spd p;
          discretization := discretization p;
          safe_traverse_height := v |}) ].

(** [nh.getParam(k1, params.f1) && nh.getParam(k2, params.f2) && ...]: the
    chain stops at the first key that is not set, keeping the fields
    already read. *)
Fixpoint getParam_chain (ns : string)
    (keys : list (string * (double -> BlendingPlanParameters -> BlendingPlanParameters)))
    (params : BlendingPlanParameters) : bool * BlendingPlanParameters :=
  match keys with
  | [] => (true, params)
  | (key, assign) :: keys =>
      match getParam_double ns key with
      | None => (false, params)
      | Some v => getParam_chain ns keys (assign v params)
      end
  end.

Definition load_blending_parameters (ns : string) (params : BlendingPlanParameters)
    : bool * BlendingPlanParameters :=
  getParam_chain ns blending_plan_keys params.

(** The member of [params] each key of [load_blending_parameters] is read
    into, in the order of the chain. *)
Definition blending_plan_fields : list (string * (BlendingPlanParameters -> double)) :=
  [ ("tool_radius", tool_radius); ("margin", margin); ("overlap", overlap);
    ("approach_spd", approach_spd); ("blending_spd", blending_spd);
    ("retract_spd", retract_spd); ("traverse_spd", traverse_spd);
    ("discretization", discretization);
    ("safe_traverse_height", safe_traverse_height) ].

(** The condition of the first [if] of [init]: four loads joined by [&&]. *)
Definition load_all_parameters (s : SurfaceDetectionService)
    : bool * SurfaceDetectionService :=
  let '(ok, sd) :=
    SurfaceDetection_load_parameters "~/surface_detection" (surface_detection_ s) in
  let s := set_surface_detection_ sd s in
  if negb ok then (false, s) else
  let '(ok, rs) := RobotScan_load_parameters "~/robot_scan" (robot_scan_ s) in
  let s := set_robot_scan_ rs s in
  if negb ok then (false, s) else
  let '(ok, bp) := load_blending_parameters "~/blending_plan" (blending_plan_params_ s) in
  let s := set_blending_plan_params_ bp s in
  if negb ok then (false, s) else
  let '(ok, srv) := InteractiveSurfaceServer_load_parameters (surface_server_ s) in
  (ok, set_surface_server_ srv s).

(** The condition of the second [if] of [init]. *)
Definition init_all_stages (s : SurfaceDetectionService)
    : bool * SurfaceDetectionService :=
  let '(ok, sd) := SurfaceDetection_init (surface_detection_ s) in
  let s := set_surface_detection_ sd s in
  if negb ok then (false, s) else
  let '(ok, rs) := RobotScan_init (robot_scan_ s) in
  let s := set_robot_scan_ rs s in
  if negb ok then (false, s) else
  let '(ok, srv) := InteractiveSurfaceServer_init (surface_server_ s) in
  (ok, set_surface_server_ srv s).

(** [ph.getParam(PUBLISH_REGION_POINT_CLOUD, publish_region_point_cloud_)] *)
Definition load_publish_flag (s : SurfaceDetectionService) : SurfaceDetectionService :=
  match getParam_bool "~" PUBLISH_REGION_POINT_CLOUD with
  | Some b => set_publish_region_point_cloud_ b s
  | None => s
  end.

(** [init()].  The defaults are saved when, and only when, all four loads
    succeed; the selection callback is registered and [true] is returned
    in every case. *)
Definition init (s : SurfaceDetectionService) : bool * SurfaceDetectionService :=
  let s := load_publish_flag s in
  let '(loaded, s) := load_all_parameters s in
  let s :=
    if loaded then
      (* save default parameters *)
      let s := set_defaults (scan.params_ (robot_scan_ s))
                            (detection.params_ (surface_detection_ s))
                            (blending_plan_params_ s) s in
      let '(ok, s) := init_all_stages s in
      if ok then set_robot_scan_ (RobotScan_add_scan_callback (robot_scan_ s)) s
      else s
    else s in
  let s := set_surface_server_
             (InteractiveSurfaceServer_add_selection_callback (surface_server_ s)) s in
  (true, s).

(** *** Callbacks registered with the stages *)

(** [publish_selected_surfaces_changed()], the [SelectionCallback]. *)
Definition publish_selected_surfaces_changed (s : SurfaceDetectionService)
    : SurfaceDetectionService :=
  let msg := {| selected_surfaces := [] |} in
  let msg := {| selected_surfaces :=
                  InteractiveSurfaceServer_get_selected_list
                    (surface_server_ s) (selected_surfaces msg) |} in
  emit (E_publish SELECTED_SURFACES_CHANGED_TOPIC msg) s.

(** A call of a mutator of [surface_server_]: the selection callback runs
    on each server the mutator passed through, then the member holds the
    final server. *)
Definition surface_server_call
    (r : InteractiveSurfaceServer * list InteractiveSurfaceServer)
    (s : SurfaceDetectionService) : SurfaceDetectionService :=
  let s := fold_left
             (fun s during => publish_selected_surfaces_changed (set_surface_server_ during s))
             (snd r) s in
  set_surface_server_ (fst r) s.

(** The [ScanCallback]: [surface_detection_.add_cloud(cloud)]. *)
Definition scan_callback (c : Cloud) (s : SurfaceDetectionService)
    : SurfaceDetectionService :=
  emit (E_add_cloud c)
       (set_surface_detection_ (SurfaceDetection_add_cloud c (surface_detection_ s)) s).

(** *** Response fields *)

Definition Res_set_surfaces_found (b : bool) (r : Res.t) : Res.t :=
  {| Res.surfaces_found := b; Res.surfaces := Res.surfaces r;
     Res.robot_scan := Res.robot_scan r;
     Res.surface_detection := Res.surface_detection r;
     Res.robot_scan_poses := Res.robot_scan_poses r |}.

Definition Res_set_surfaces (m : MarkerArray) (r : Res.t) : Res.t :=
  {| Res.surfaces_found := Res.surfaces_found r; Res.surfaces := m;
     Res.robot_scan := Res.robot_scan r;
     Res.surface_detection := Res.surface_detection r;
     Res.robot_scan_poses := Res.robot_scan_poses r |}.

Definition Res_set_robot_scan (p : RobotScanParameters) (r : Res.t) : Res.t :=
  {| Res.surfaces_found := Res.surfaces_found r; Res.surfaces := Res.surfaces r;
     Res.robot_scan := p;
     Res.surface_detection := Res.surface_detection r;
     Res.robot_scan_poses := Res.robot_scan_poses r |}.

Definition Res_set_surface_detection (p : SurfaceDetectionParameters) (r : Res.t) : Res.t :=
  {| Res.surfaces_found := Res.surfaces_found r; Res.surfaces := Res.surfaces r;
     Res.robot_scan := Res.robot_scan r;
     Res.surface_detection := p;
     Res.robot_scan_poses := Res.robot_scan_poses r |}.

Definition Res_set_robot_scan_poses (p : PoseArray) (r : Res.t) : Res.t :=
  {| Res.surfaces_found := Res.surfaces_found r; Res.surfaces := Res.surfaces r;
     Res.robot_scan := Res.robot_scan r;
     Res.surface_detection := Res.surface_detection r;
     Res.robot_scan_poses := p |}.

(** *** The find and scan sub-procedures *)

(** [surface_server_.add_surface(meshes[i])], one turn of the loop over
    [meshes]. *)
Definition add_surface_call (m : PolygonMesh) (s : SurfaceDetectionService)
    : SurfaceDetectionService :=
  emit (E_add_surface m)
       (surface_server_call (InteractiveSurfaceServer_add_surface m (surface_server_ s)) s).

(** [find_surfaces(surfaces)]: [surfaces] is passed by reference, so the
    result carries its new value next to the returned flag. *)
Definition find_surfaces (surfaces : MarkerArray) (s : SurfaceDetectionService)
    : bool * MarkerArray * SurfaceDetectionService :=
  let '(found, sd) := SurfaceDetection_find_surfaces (surface_detection_ s) in
  let s := emit (E_find_surfaces found) (set_surface_detection_ sd s) in
  if found then
    (* clear current surfaces *)
    let s := emit E_remove_all_surfaces
               (surface_server_call
                  (InteractiveSurfaceServer_remove_all_surfaces (surface_server_ s)) s) in
    (* adding meshes to server *)
    let meshes := SurfaceDetection_get_meshes (surface_detection_ s) [] in
    let s := fold_left (fun s m => add_surface_call m s) meshes s in
    (* copying to surface markers to output argument *)
    let markers_msg := SurfaceDetection_get_surface_markers (surface_detection_ s) in
    let surfaces := {| markers := markers markers_msg ++ markers surfaces |} in
    (* saving latest successful results *)
    let s := set_latest_surface_detection_results_
               (Res_set_surface_detection (detection.params_ (surface_detection_ s))
                  (latest_surface_detection_results_ s)) s in
    let s := set_latest_surface_detection_results_
               (Res_set_surfaces_found true (latest_surface_detection_results_ s)) s in
    let s := set_latest_surface_detection_results_
               (Res_set_surfaces surfaces (latest_surface_detection_results_ s)) s in
    let s := set_latest_surface_detection_results_
               (Res_set_robot_scan_poses
                  (RobotScan_get_latest_scan_poses (robot_scan_ s)
                     (Res.robot_scan_poses (latest_surface_detection_results_ s)))
                  (latest_surface_detection_results_ s)) s in
    (* saving region colored point cloud *)
    let s := set_region_cloud_msg_ PointCloud2_new s in
    let s := set_region_cloud_msg_
               (SurfaceDetection_get_region_colored_cloud (surface_detection_ s)
                  (region_cloud_msg_ s)) s in
    (true, surfaces, s)
  else
    let s := set_region_cloud_msg_ PointCloud2_new s in
    (false, surfaces, s).

(** [run_robot_scan(surfaces)].  The clouds [scan] delivers go through the
    scan callback before [scan] returns. *)
Definition run_robot_scan (surfaces : MarkerArray) (s : SurfaceDetectionService)
    : bool * MarkerArray * SurfaceDetectionService :=
  (* publishing scan path preview *)
  let s := emit (E_publish_scan_poses ROBOT_SCAN_PATH_PREVIEW_TOPIC)
             (set_robot_scan_
                (RobotScan_publish_scan_poses ROBOT_SCAN_PATH_PREVIEW_TOPIC (robot_scan_ s))
                s) in
  (* clear all results *)
  let s := emit E_clear_results
             (set_surface_detection_
                (SurfaceDetection_clear_results (surface_detection_ s)) s) in
  let '(scans_completed, clouds, rs) := RobotScan_scan false (robot_scan_ s) in
  let s := fold_left (fun s c => scan_callback c s) clouds s in
  let s := emit (E_scan false scans_completed) (set_robot_scan_ rs s) in
  if (scans_completed >? 0)%Z then find_surfaces surfaces s
  else (false, surfaces, s).

(** *** The service callbacks *)

(** The parameter assignments at the head of a case of the switch. *)
Definition resolve_robot_scan_params (req : Req.t) (s : SurfaceDetectionService) :=
  if Req.use_default_parameters req
  then assign_robot_scan_params (default_robot_scan_params__ s) s
  else assign_robot_scan_params (Req.robot_scan req) s.

Definition resolve_surface_detection_params (req : Req.t) (s : SurfaceDetectionService) :=
  if Req.use_default_parameters req
  then assign_surface_detection_params (default_surf_detection_params_ s) s
  else assign_surface_detection_params (Req.surface_detection req) s.

(** [surface_detection_server_callback(req, res)]; [res] is passed by
    reference. *)
Definition surface_detection_server_callback (req : Req.t) (res : Res.t)
    (s : SurfaceDetectionService) : bool * Res.t * SurfaceDetectionService :=
  let res := Res_set_surfaces_found false res in
  let res := Res_set_surfaces {| markers := [] |} res in
  match Req.action req with
  | GET_CURRENT_PARAMETERS =>
      let res := Res_set_robot_scan (scan.params_ (robot_scan_ s)) res in
      let res := Res_set_surface_detection (detection.params_ (surface_detection_ s)) res in
      (true, res, s)
  | GET_DEFAULT_PARAMETERS =>
      let res := Res_set_robot_scan (default_robot_scan_params__ s) res in
      let res := Res_set_surface_detection (default_surf_detection_params_ s) res in
      (true, res, s)
  | PUBLISH_SCAN_PATH =>
      let s := resolve_robot_scan_params req s in
      let s := emit (E_publish_scan_poses ROBOT_SCAN_PATH_PREVIEW_TOPIC)
                 (set_robot_scan_
                    (RobotScan_publish_scan_poses ROBOT_SCAN_PATH_PREVIEW_TOPIC
                       (robot_scan_ s)) s) in
      (true, res, s)
  | SCAN_AND_FIND_ONLY =>
      let s := resolve_robot_scan_params req s in
      let s := resolve_surface_detection_params req s in
      let '(found, surfaces, s) := run_robot_scan (Res.surfaces res) s in
      let res := Res_set_surfaces_found found (Res_set_surfaces surfaces res) in
      let res := Res_set_surfaces {| markers := [] |} res in
      (true, res, s)
  | SCAN_FIND_AND_RETURN =>
      let s := resolve_robot_scan_params req s in
      let s := resolve_surface_detection_params req s in
      let '(found, surfaces, s) := run_robot_scan (Res.surfaces res) s in
      let res := Res_set_surfaces_found found (Res_set_surfaces surfaces res) in
      (true, res, s)
  | FIND_ONLY =>
      let s := resolve_surface_detection_params req s in
      let '(found, surfaces, s) := find_surfaces (Res.surfaces res) s in
      let res := Res_set_surfaces_found found (Res_set_surfaces surfaces res) in
      let res := Res_set_surfaces {| markers := [] |} res in
      (true, res, s)
  | FIND_AND_RETURN =>
      let s := resolve_surface_detection_params req s in
      let '(found, surfaces, s) := find_surfaces (Res.surfaces res) s in
      let res := Res_set_surfaces_found found (Res_set_surfaces surfaces res) in
      (true, res, s)
  | RETURN_LATEST_RESULTS =>
      (true, latest_surface_detection_results_ s, s)
  | OTHER_ACTION => (true, res, s)
  end.

(** The service layer hands the callback a default-constructed response. *)
Definition handle (req : Req.t) (s : SurfaceDetectionService)
    : Res.t * SurfaceDetectionService :=
  let '(_, res, s) := surface_detection_server_callback req Response_new s in
  (res, s).

(** [surface_server_.set_selection_flag(name, flag)]. *)
Definition set_selection_flag_call (name : string) (flag : bool)
    (s : SurfaceDetectionService) : SurfaceDetectionService :=
  emit (E_set_selection_flag name flag)
       (surface_server_call
          (InteractiveSurfaceServer_set_selection_flag name flag (surface_server_ s)) s).

(** The loop of the [SELECT] and [DESELECT] cases,

      [for(int i = 0; req.select_surfaces.size(); i++)]
      [  surface_server_.set_selection_flag(req.select_surfaces[i], flag);]

    from the test of its condition with the counter at [i].  The condition
    is the size of the vector, converted to [bool]: it does not mention
    [i].  Reading [req.select_surfaces[i]] with [i] at or past the size and
    incrementing [i] at [INT_MAX] are undefined. *)
Fixpoint select_loop (fuel : nat) (flag : bool) (select_surfaces : list string)
    (i : Z) (s : SurfaceDetectionService) : Outcome SurfaceDetectionService :=
  match fuel with
  | O => OutOfFuel
  | S fuel =>
      if (Z.of_nat (List.length select_surfaces) =? 0)%Z then Returns s
      else
        match nth_error select_surfaces (Z.to_nat i) with
        | None => Undefined s
        | Some name =>
            let s := set_selection_flag_call name flag s in
            if (i =? INT_MAX)%Z then Undefined s
            else select_loop fuel flag select_surfaces (i + 1)%Z s
        end
  end.

(** [select_surface_server_callback(req, res)]; the response has no
    field. *)
Definition select_surface_server_callback (fuel : nat) (req : SelReq.t)
    (s : SurfaceDetectionService) : Outcome (bool * SurfaceDetectionService) :=
  match SelReq.action req with
  | SELECT =>
      match select_loop fuel true (SelReq.select_surfaces req) 0%Z s with
      | Returns s => Returns (true, s)
      | Undefined s => Undefined s
      | OutOfFuel => OutOfFuel
      end
  | DESELECT =>
      match select_loop fuel false (SelReq.select_surfaces req) 0%Z s with
      | Returns s => Returns (true, s)
      | Undefined s => Undefined s
      | OutOfFuel => OutOfFuel
      end
  | SELECT_ALL =>
      Returns (true, emit (E_select_all true)
                 (surface_server_call
                    (InteractiveSurfaceServer_select_all true (surface_server_ s)) s))
  | DESELECT_ALL =>
      Returns (true, emit (E_select_all false)
                 (surface_server_call
                    (InteractiveSurfaceServer_select_all false (surface_server_ s)) s))
  | HIDE_ALL =>
      Returns (true, emit (E_show_all false)
                 (surface_server_call
                    (InteractiveSurfaceServer_show_all false (surface_server_ s)) s))
  | SHOW_ALL =>
      Returns (true, emit (E_show_all true)
                 (surface_server_call
                    (InteractiveSurfaceServer_show_all true (surface_server_ s)) s))
  | OTHER_SELECT_ACTION => Returns (true, s)
  end.

(** [surface_blend_parameters_server_callback(req, res)]. *)
Definition surface_blend_parameters_server_callback (action : ParamAction)
    (res : BlendRes.t) (s : SurfaceDetectionService)
    : bool * BlendRes.t * SurfaceDetectionService :=
  match action with
  | PARAM_GET_CURRENT_PARAMETERS =>
      (true,
       {| BlendRes.surface_detection := detection.params_ (surface_detection_ s);
          BlendRes.robot_scan := scan.params_ (robot_scan_ s);
          BlendRes.blending_plan := blending_plan_params_ s |}, s)
  | PARAM_GET_DEFAULT_PARAMETERS =>
      (true,
       {| BlendRes.surface_detection := default_surf_detection_params_ s;
          BlendRes.robot_scan := default_robot_scan_params__ s;
          BlendRes.blending_plan := default_blending_plan_params_ s |}, s)
  | OTHER_PARAM_ACTION => (true, res, s)
  end.

(** *** The periodic publisher *)

(** One turn of the loop of [run()]. *)
Definition run_tick (s : SurfaceDetectionService) : SurfaceDetectionService :=
  if negb (data_empty (region_cloud_msg_ s))
  then emit (E_publish_cloud REGION_POINT_CLOUD_TOPIC (region_cloud_msg_ s)) s
  else s.

(** [while(ros::ok() && publish_region_point_cloud_)], with [ros::ok()]
    true for [ticks] tests and false afterwards. *)
Fixpoint run_loop (ticks : nat) (s : SurfaceDetectionService) : SurfaceDetectionService :=
  match ticks with
  | O => s
  | S ticks => if publish_region_point_cloud_ s then run_loop ticks (run_tick s) else s
  end.

Definition run (ticks : nat) (s : SurfaceDetectionService) : SurfaceDetectionService :=
  run_loop ticks (surface_server_call (InteractiveSurfaceServer_run (surface_server_ s)) s).

(** [main], on its own thread: the service is constructed, [init()] is
    called and, when it returns true, [run()].  ([ros::init], the spinner
    and [ros::waitForShutdown] hold no member of the service.) *)
Definition main (ticks : nat) : SurfaceDetectionService :=
  let '(ok, s) := init SurfaceDetectionService_new in
  if ok then run ticks s else s.

(** *** Sequences of requests *)

(** A call of one of the three advertised services.
    ([process_path_server_callback] is never advertised.) *)
Inductive Request : Type :=
| DetectionRequest (req : Req.t)
| SelectRequest (req : SelReq.t)
| ParametersRequest (action : ParamAction).

(** Serves one request; the response is dropped. *)
Definition serve (fuel : nat) (r : Request) (s : SurfaceDetectionService)
    : Outcome SurfaceDetectionService :=
  match r with
  | DetectionRequest req => Returns (snd (handle req s))
  | SelectRequest req =>
      match select_surface_server_callback fuel req s with
      | Returns (_, s) => Returns s
      | Undefined s => Undefined s
      | OutOfFuel => OutOfFuel
      end
  | ParametersRequest a =>
      Returns (snd (surface_blend_parameters_server_callback a
                      {| BlendRes.surface_detection := SurfaceDetectionParameters_new;
                         BlendRes.robot_scan := RobotScanParameters_new;
                         BlendRes.blending_plan := BlendingPlanParameters_new |} s))
  end.

(** Serves the requests one after the other; a later request is served
    only once the earlier ones have returned. *)
Fixpoint serve_all (fuel : nat) (rs : list Request) (s : SurfaceDetectionService)
    : Outcome SurfaceDetectionService :=
  match rs with
  | [] => Returns s
  | r :: rs =>
      match serve fuel r s with
      | Returns s => serve_all fuel rs s
      | Undefined s => Undefined s
      | OutOfFuel => OutOfFuel
      end
  end.

(** *** Assumption on the stages *)

(** The stage methods the callbacks invoke do not write the public member
    [params_] of their object. *)
Record StagesKeepParams : Prop := {
  publish_scan_poses_keeps_params : forall topic rs,
    scan.params_ (RobotScan_publish_scan_poses topic rs) = scan.params_ rs;
  scan_keeps_params : forall move_only rs,
    scan.params_ (snd (RobotScan_scan move_only rs)) = scan.params_ rs;
  add_cloud_keeps_params : forall c sd,
    detection.params_ (SurfaceDetection_add_cloud c sd) = detection.params_ sd;
  clear_results_keeps_params : forall sd,
    detection.params_ (SurfaceDetection_clear_results sd) = detection.params_ sd;
  find_surfaces_keeps_params : forall sd,
    detection.params_ (snd (SurfaceDetection_find_surfaces sd)) = detection.params_ sd
}.

(** *** The defaults as the specification describes them *)

(** The specification has the defaults snapshotted at startup: [s] holds
    as defaults the parameters the loads of [init()] on [s0] left in the
    stages and in [blending_plan_params_]. *)
Definition defaults_snapshotted_at_startup (s0 s : SurfaceDetectionService) : Prop :=
  let loaded := snd (load_all_parameters (load_publish_flag s0)) in
  default_robot_scan_params__ s = scan.params_ (robot_scan_ loaded) /\
  default_surf_detection_params_ s = detection.params_ (surface_detection_ loaded) /\
  default_blending_plan_params_ s = blending_plan_params_ loaded.

(** *** The action table of the specification *)

(** The parameter groups an action resolves, as the specification's table
    lists them. *)
Definition touches_scan (a : Action) : bool :=
  match a with
  | PUBLISH_SCAN_PATH | SCAN_AND_FIND_ONLY | SCAN_FIND_AND_RETURN => true
  | _ => false
  end.

Definition touches_detection (a : Action) : bool :=
  match a with
  | SCAN_AND_FIND_ONLY | SCAN_FIND_AND_RETURN | FIND_ONLY | FIND_AND_RETURN => true
  | _ => false
  end.

(** The actions whose stage calls include Scan, and those whose response
    keeps the surfaces payload. *)
Definition scan_bearing (a : Action) : bool :=
  match a with
  | SCAN_AND_FIND_ONLY | SCAN_FIND_AND_RETURN => true
  | _ => false
  end.

Definition flag_only (a : Action) : bool :=
  match a with
  | SCAN_AND_FIND_ONLY | FIND_ONLY => true
  | _ => false
  end.

Definition returns_surfaces (a : Action) : bool :=
  match a with
  | SCAN_FIND_AND_RETURN | FIND_AND_RETURN => true
  | _ => false
  end.

(** The selection server after [remove_all_surfaces()] and one
    [add_surface] per mesh. *)
Definition server_after_find (meshes : list PolygonMesh)
    (srv : InteractiveSurfaceServer) : InteractiveSurfaceServer :=
  fold_left (fun srv m => fst (InteractiveSurfaceServer_add_surface m srv)) meshes
            (fst (InteractiveSurfaceServer_remove_all_surfaces srv)).

(** The calls of [remove_all_surfaces] and [add_surface] in a trace. *)
Definition surface_set_calls (t : list Event) : list Event :=
  filter (fun e => match e with
                   | E_remove_all_surfaces | E_add_surface _ => true
                   | _ => false
                   end) t.

(** The calls of [set_selection_flag] in a trace. *)
Definition selection_flag_calls (t : list Event) : list (string * bool) :=
  flat_map (fun e => match e with
                     | E_set_selection_flag name flag => [(name, flag)]
                     | _ => []
                     end) t.

(** *** The events of the selection server *)

(** The messages the selection callback publishes, one per server it is
    run on. *)
Definition selection_publications (during : list InteractiveSurfaceServer) : list Event :=
  map (fun srv =>
         E_publish SELECTED_SURFACES_CHANGED_TOPIC
           {| selected_surfaces := InteractiveSurfaceServer_get_selected_list srv [] |})
      during.

(** The events of the loop over [meshes], from the server [srv]. *)
Fixpoint add_surfaces_events (meshes : list PolygonMesh) (srv : InteractiveSurfaceServer)
    : list Event :=
  match meshes with
  | [] => []
  | m :: meshes =>
      selection_publications (snd (InteractiveSurfaceServer_add_surface m srv))
      ++ E_add_surface m
      :: add_surfaces_events meshes (fst (InteractiveSurfaceServer_add_surface m srv))
  end.

(** The events of the selection server during a successful find. *)
Definition find_server_events (meshes : list PolygonMesh) (srv : InteractiveSurfaceServer)
    : list Event :=
  selection_publications (snd (InteractiveSurfaceServer_remove_all_surfaces srv))
  ++ E_remove_all_surfaces
  :: add_surfaces_events meshes (fst (InteractiveSurfaceServer_remove_all_surfaces srv)).

(** The events that come from calls on the selection server. *)
Definition from_surface_server (e : Event) : bool :=
  match e with
  | E_publish _ _ | E_remove_all_surfaces | E_add_surface _
  | E_set_selection_flag _ _ | E_select_all _ | E_show_all _ => true
  | _ => false
  end.

(** The events a successful find adds after the call of the detection:
    publications of the selection callback, [remove_all_surfaces] and
    [add_surface]. *)
Definition surface_set_event (e : Event) : bool :=
  match e with
  | E_publish _ _ | E_remove_all_surfaces | E_add_surface _ => true
  | _ => false
  end.

(** [s] with another selection server and more events. *)
Definition with_server_and_events (srv : InteractiveSurfaceServer) (new : list Event)
    (s : SurfaceDetectionService) : SurfaceDetectionService :=
  {| robot_scan_ := robot_scan_ s;
     surface_detection_ := surface_detection_ s;
     surface_server_ := srv;
     default_robot_scan_params__ := default_robot_scan_params__ s;
     default_surf_detection_params_ := default_surf_detection_params_ s;
     default_blending_plan_params_ := default_blending_plan_params_ s;
     blending_plan_params_ := blending_plan_params_ s;
     latest_surface_detection_results_ := latest_surface_detection_results_ s;
     publish_region_point_cloud_ := publish_region_point_cloud_ s;
     region_cloud_msg_ := region_cloud_msg_ s;
     trace := trace s ++ new |}.

(** The cached result a successful find leaves: detection [sd] has run,
    the scanner is [rs], [surfaces] is the output argument as passed in and
    [latest] the cache before. *)
Definition result_of_find (sd : SurfaceDetection) (rs : RobotScan)
    (surfaces : MarkerArray) (latest : Res.t) : Res.t :=
  {| Res.surfaces_found := true;
     Res.surfaces :=
       {| markers := markers (SurfaceDetection_get_surface_markers sd) ++ markers surfaces |};
     Res.robot_scan := Res.robot_scan latest;
     Res.surface_detection := detection.params_ sd;
     Res.robot_scan_poses :=
       RobotScan_get_latest_scan_poses rs (Res.robot_scan_poses latest) |}.

(** The service a successful find leaves. *)
Definition after_find (sd : SurfaceDetection) (surfaces : MarkerArray)
    (s : SurfaceDetectionService) : SurfaceDetectionService :=
  {| robot_scan_ := robot_scan_ s;
     surface_detection_ := sd;
     surface_server_ :=
       server_after_find (SurfaceDetection_get_meshes sd []) (surface_server_ s);
     default_robot_scan_params__ := default_robot_scan_params__ s;
     default_surf_detection_params_ := default_surf_detection_params_ s;
     default_blending_plan_params_ := default_blending_plan_params_ s;
     blending_plan_params_ := blending_plan_params_ s;
     latest_surface_detection_results_ :=
       result_of_find sd (robot_scan_ s) surfaces (latest_surface_detection_results_ s);
     publish_region_point_cloud_ := publish_region_point_cloud_ s;
     region_cloud_msg_ := SurfaceDetection_get_region_colored_cloud sd PointCloud2_new;
     trace := trace s ++ E_find_surfaces true
              :: find_server_events (SurfaceDetection_get_meshes sd []) (surface_server_ s) |}.

(** The service a failed find leaves. *)
Definition after_failed_find (sd : SurfaceDetection) (s : SurfaceDetectionService)
    : SurfaceDetectionService :=
  {| robot_scan_ := robot_scan_ s;
     surface_detection_ := sd;
     surface_server_ := surface_server_ s;
     default_robot_scan_params__ := default_robot_scan_params__ s;
     default_surf_detection_params_ := default_surf_detection_params_ s;
     default_blending_plan_params_ := default_blending_plan_params_ s;
     blending_plan_params_ := blending_plan_params_ s;
     latest_surface_detection_results_ := latest_surface_detection_results_ s;
     publish_region_point_cloud_ := publish_region_point_cloud_ s;
     region_cloud_msg_ := PointCloud2_new;
     trace := trace s ++ [E_find_surfaces false] |}.

(** The service at the point where [run_robot_scan] tests
    [scans_completed]. *)
Definition after_scan (s : SurfaceDetectionService) : SurfaceDetectionService :=
  let rs := RobotScan_publish_scan_poses ROBOT_SCAN_PATH_PREVIEW_TOPIC (robot_scan_ s) in
  let '(scans_completed, clouds, rs') := RobotScan_scan false rs in
  {| robot_scan_ := rs';
     surface_detection_ :=
       fold_left (fun sd c => SurfaceDetection_add_cloud c sd) clouds
                 (SurfaceDetection_clear_results (surface_detection_ s));
     surface_server_ := surface_server_ s;
     default_robot_scan_params__ := default_robot_scan_params__ s;
     default_surf_detection_params_ := default_surf_detection_params_ s;
     default_blending_plan_params_ := default_blending_plan_params_ s;
     blending_plan_params_ := blending_plan_params_ s;
     latest_surface_detection_results_ := latest_surface_detection_results_ s;
     publish_region_point_cloud_ := publish_region_point_cloud_ s;
     region_cloud_msg_ := region_cloud_msg_ s;
     trace := trace s
              ++ E_publish_scan_poses ROBOT_SCAN_PATH_PREVIEW_TOPIC :: E_clear_results
              :: map E_add_cloud clouds ++ [E_scan false scans_completed] |}.

(** The value [scan] returns in [run_robot_scan] from [s]. *)
Definition scans_completed_from (s : SurfaceDetectionService) : Z :=
  fst (fst (RobotScan_scan false
              (RobotScan_publish_scan_poses ROBOT_SCAN_PATH_PREVIEW_TOPIC (robot_scan_ s)))).

(** *** Concurrent dispatch: [find_surfaces] statement by statement *)

(** [main] starts [ros::AsyncSpinner spinner(4)]: four threads run the
    service callbacks, and the thread of [main] runs the loop of [run()].
    The file takes no lock anywhere.  To follow what the threads can see of
    each other, [find_surfaces] is run one statement at a time; a program
    point is named after the source line of the statement to run next. *)
Inductive FindPc : Type :=
| L198 | L201 | L205 | L206 | L212 | L213
| L216 | L217 | L218 | L219 | L222 | L223
| L227 | L228 | L231.

(** The activation record of [find_surfaces]: the program point, the
    reference argument and the locals. *)
Record FindFrame : Type := {
  fr_pc : FindPc;
  fr_surfaces : MarkerArray;
  fr_succeeded : bool;
  fr_meshes : list PolygonMesh;
  fr_i : nat;
  fr_markers_msg : MarkerArray
}.

Definition find_entry (surfaces : MarkerArray) : FindFrame :=
  {| fr_pc := L198; fr_surfaces := surfaces; fr_succeeded := true;
     fr_meshes := []; fr_i := 0; fr_markers_msg := {| markers := [] |} |}.

Definition goto (pc : FindPc) (f : FindFrame) : FindFrame :=
  {| fr_pc := pc; fr_surfaces := fr_surfaces f; fr_succeeded := fr_succeeded f;
     fr_meshes := fr_meshes f; fr_i := fr_i f; fr_markers_msg := fr_markers_msg f |}.

(** One statement of [find_surfaces], by the thread whose frame is [f], on
    the service object [s] all threads share. *)
Definition find_step (f : FindFrame) (s : SurfaceDetectionService)
    : FindFrame * SurfaceDetectionService :=
  match fr_pc f with
  | L198 =>
      let '(found, sd) := SurfaceDetection_find_surfaces (surface_detection_ s) in
      (goto (if found then L201 else L227) f,
       emit (E_find_surfaces found) (set_surface_detection_ sd s))
  | L201 =>
      (goto L205 f,
       emit E_remove_all_surfaces
         (surface_server_call
            (InteractiveSurfaceServer_remove_all_surfaces (surface_server_ s)) s))
  | L205 =>
      ({| fr_pc := L206; fr_surfaces := fr_surfaces f; fr_succeeded := fr_succeeded f;
          fr_meshes := SurfaceDetection_get_meshes (surface_detection_ s) (fr_meshes f);
          fr_i := 0; fr_markers_msg := fr_markers_msg f |}, s)
  | L206 =>
      match nth_error (fr_meshes f) (fr_i f) with
      | Some m =>
          ({| fr_pc := L206; fr_surfaces := fr_surfaces f;
              fr_succeeded := fr_succeeded f; fr_meshes := fr_meshes f;
              fr_i := S (fr_i f); fr_markers_msg := fr_markers_msg f |},
           add_surface_call m s)
      | None => (goto L212 f, s)
      end
  | L212 =>
      ({| fr_pc := L213; fr_surfaces := fr_surfaces f; fr_succeeded := fr_succeeded f;
          fr_meshes := fr_meshes f; fr_i := fr_i f;
          fr_markers_msg := SurfaceDetection_get_surface_markers (surface_detection_ s) |},
       s)
  | L213 =>
      ({| fr_pc := L216;
          fr_surfaces := {| markers := markers (fr_markers_msg f) ++ markers (fr_surfaces f) |};
          fr_succeeded := fr_succeeded f; fr_meshes := fr_meshes f; fr_i := fr_i f;
          fr_markers_msg := fr_markers_msg f |}, s)
  | L216 =>
      (goto L217 f,
       set_latest_surface_detection_results_
         (Res_set_surface_detection (detection.params_ (surface_detection_ s))
            (latest_surface_detection_results_ s)) s)
  | L217 =>
      (goto L218 f,
       set_latest_surface_detection_results_
         (Res_set_surfaces_found true (latest_surface_detection_results_ s)) s)
  | L218 =>
      (goto L219 f,
       set_latest_surface_detection_results_
         (Res_set_surfaces (fr_surfaces f) (latest_surface_detection_results_ s)) s)
  | L219 =>
      (goto L222 f,
       set_latest_surface_detection_results_
         (Res_set_robot_scan_poses
            (RobotScan_get_latest_scan_poses (robot_scan_ s)
               (Res.robot_scan_poses (latest_surface_detection_results_ s)))
            (latest_surface_detection_results_ s)) s)
  | L222 => (goto L223 f, set_region_cloud_msg_ PointCloud2_new s)
  | L223 =>
      (goto L231 f,
       set_region_cloud_msg_
         (SurfaceDetection_get_region_colored_cloud (surface_detection_ s)
            (region_cloud_msg_ s)) s)
  | L227 =>
      ({| fr_pc := L228; fr_surfaces := fr_surfaces f; fr_succeeded := false;
          fr_meshes := fr_meshes f; fr_i := fr_i f;
          fr_markers_msg := fr_markers_msg f |}, s)
  | L228 => (goto L231 f, set_region_cloud_msg_ PointCloud2_new s)
  | L231 => (f, s)
  end.

(** [n] statements of one thread with no other thread in between. *)
Fixpoint find_steps (n : nat) (f : FindFrame) (s : SurfaceDetectionService)
    : FindFrame * SurfaceDetectionService :=
  match n with
  | O => (f, s)
  | S n => let '(f, s) := find_step f s in find_steps n f s
  end.

(** The service object and the frames of the dispatch threads that are
    inside [find_surfaces]. *)
Record Config : Type := {
  shared : SurfaceDetectionService;
  workers : list FindFrame
}.

Fixpoint set_nth {A : Type} (k : nat) (x : A) (l : list A) : list A :=
  match l, k with
  | [], _ => []
  | _ :: l, O => x :: l
  | y :: l, S k => y :: set_nth k x l
  end.

(** Thread [k] runs its next statement. *)
Definition worker_step (k : nat) (c : Config) : Config :=
  match nth_error (workers c) k with
  | None => c
  | Some f =>
      let '(f, s) := find_step f (shared c) in
      {| shared := s; workers := set_nth k f (workers c) |}
  end.

(** A schedule names the thread that moves at each step. *)
Definition run_schedule (schedule : list nat) (c : Config) : Config :=
  fold_left (fun c k => worker_step k c) schedule c.

(** The number of statements [find_surfaces] runs from [s] up to its
    [return], and up to the first statement that writes the region cloud
    when the detection succeeds. *)
Definition find_statements (s : SurfaceDetectionService) : nat :=
  let '(found, sd) := SurfaceDetection_find_surfaces (surface_detection_ s) in
  if found then List.length (SurfaceDetection_get_meshes sd []) + 12 else 3.

Definition statements_before_cloud (s : SurfaceDetectionService) : nat :=
  List.length
    (SurfaceDetection_get_meshes
       (snd (SurfaceDetection_find_surfaces (surface_detection_ s))) []) + 10.

(** A thread is inside the find sub-procedure once it has run its first
    statement and until it reaches the [return]. *)
Definition in_flight (f : FindFrame) : bool :=
  match fr_pc f with
  | L198 | L231 => false
  | _ => true
  end.

Definition finds_in_flight (c : Config) : nat :=
  List.length (filter in_flight (workers c)).

(** What a reader scheduled at this point gets: a [RETURN_LATEST_RESULTS]
    callback reads the cached result, a turn of the publisher loop reads
    the region cloud. *)
Definition observe (c : Config) : Res.t * PointCloud2 :=
  (latest_surface_detection_results_ (shared c), region_cloud_msg_ (shared c)).

(** The two requirements of the specification on concurrent dispatch,
    over the threads of [c]: whatever the schedule, at most one thread is
    inside the find sub-procedure; and whatever the schedule, a reader
    finds the cached result changed exactly when it finds the region cloud
    changed. *)
Definition at_most_one_find_in_flight (c : Config) : Prop :=
  forall schedule, finds_in_flight (run_schedule schedule c) <= 1.

Definition cache_and_cloud_replaced_together (c : Config) : Prop :=
  forall schedule,
    fst (observe (run_schedule schedule c)) <> fst (observe c) <->
    snd (observe (run_schedule schedule c)) <> snd (observe c).

End Service.

Arguments Undefined {M C A} s.
Arguments OutOfFuel {M C A}.

(** ** A small implementation of the stages

    Scan poses, clouds, meshes and markers are names.  A scan reaches one
    pose per entry of its parameters and delivers one cloud per pose;
    detection succeeds when it holds at least one cloud and finds one
    surface per cloud; the selection server keeps [(name, (selected,
    visible))] and runs the selection callback once at the end of
    [set_selection_flag] and of [select_all]. *)
Module Demo.

Definition messages : Messages :=
  {| RobotScanParameters := list string;
     SurfaceDetectionParameters := Z;
     Marker := string;
     PoseArray := list string;
     PointCloud2 := list string;
     PolygonMesh := string;
     Cloud := string;
     double := Z;
     RobotScanParameters_new := [];
     SurfaceDetectionParameters_new := 0%Z;
     PoseArray_new := [];
     PointCloud2_new := [];
     double_zero := 0%Z;
     data_empty := fun c => match c with [] => true | _ => false end |}.

Definition Server : Type := list (string * (bool * bool)).

Definition set_flag (name : string) (flag : bool) (srv : Server) : Server :=
  map (fun e => if String.eqb (fst e) name then (fst e, (flag, snd (snd e))) else e) srv.

Definition collaborators : @Collaborators messages :=
  {| RobotScanPriv := list string;
     SurfaceDetectionPriv := list string * list string;
     InteractiveSurfaceServer := Server;
     RobotScan_new := @scan.Build_RobotScan messages _ [] [];
     SurfaceDetection_new := @detection.Build_SurfaceDetection messages _ 0%Z ([], []);
     InteractiveSurfaceServer_new := [];
     getParam_bool := fun _ key =>
       if String.eqb key PUBLISH_REGION_POINT_CLOUD then Some true else None;
     getParam_double := fun _ key => Some (Z.of_nat (String.length key));
     RobotScan_load_parameters := fun _ rs =>
       (true, @scan.Build_RobotScan messages _ ["pose_a"; "pose_b"] (scan.priv rs));
     RobotScan_init := fun rs => (true, rs);
     RobotScan_add_scan_callback := fun rs => rs;
     RobotScan_publish_scan_poses := fun _ rs => rs;
     RobotScan_scan := fun _ rs =>
       (Z.of_nat (List.length (scan.params_ rs)), scan.params_ rs,
        @scan.Build_RobotScan messages _ (scan.params_ rs) (scan.params_ rs));
     RobotScan_get_latest_scan_poses := fun rs _ => scan.priv rs;
     SurfaceDetection_load_parameters := fun _ sd =>
       (true, @detection.Build_SurfaceDetection messages _ 3%Z (detection.priv sd));
     SurfaceDetection_init := fun sd => (true, sd);
     SurfaceDetection_add_cloud := fun c sd =>
       @detection.Build_SurfaceDetection messages _ (detection.params_ sd)
         (fst (detection.priv sd) ++ [c], snd (detection.priv sd));
     SurfaceDetection_clear_results := fun sd =>
       @detection.Build_SurfaceDetection messages _ (detection.params_ sd) ([], []);
     SurfaceDetection_find_surfaces := fun sd =>
       match fst (detection.priv sd) with
       | [] => (false, sd)
       | clouds =>
           (true, @detection.Build_SurfaceDetection messages _ (detection.params_ sd)
                    (clouds, clouds))
       end;
     SurfaceDetection_get_meshes := fun sd out => out ++ snd (detection.priv sd);
     SurfaceDetection_get_surface_markers := fun sd =>
       @Build_MarkerArray messages (snd (detection.priv sd));
     SurfaceDetection_get_region_colored_cloud := fun sd _ => snd (detection.priv sd);
     InteractiveSurfaceServer_load_parameters := fun srv => (true, srv);
     InteractiveSurfaceServer_init := fun srv => (true, srv);
     InteractiveSurfaceServer_add_selection_callback := fun srv => srv;
     InteractiveSurfaceServer_run := fun srv => (srv, []);
     InteractiveSurfaceServer_get_selected_list := fun srv out =>
       out ++ map fst (filter (fun e => fst (snd e)) srv);
     InteractiveSurfaceServer_remove_all_surfaces := fun _ => ([], []);
     InteractiveSurfaceServer_add_surface := fun m srv => (srv ++ [(m, (false, true))], []);
     InteractiveSurfaceServer_set_selection_flag := fun name flag srv =>
       (set_flag name flag srv, [set_flag name flag srv]);
     InteractiveSurfaceServer_select_all := fun flag srv =>
       (map (fun e => (fst e, (flag, snd (snd e)))) srv,
        [map (fun e => (fst e, (flag, snd (snd e)))) srv]);
     InteractiveSurfaceServer_show_all := fun flag srv =>
       (map (fun e => (fst e, (fst (snd e), flag))) srv, [])
  |}.

#[local] Existing Instance messages.
#[local] Existing Instance collaborators.

(** The service after construction and [init()]. *)
Definition started : @SurfaceDetectionService messages collaborators :=
  snd (init SurfaceDetectionService_new).

(** Requests over [messages]. *)
Definition request (a : Action) (use_default : bool) (poses : list string) (threshold : Z)
    : @Req.t messages :=
  @Req.Build_t messages a use_default poses threshold.

(** The service after a scan of two poses and a successful detection. *)
Definition scanned : @SurfaceDetectionService messages collaborators :=
  snd (handle (request SCAN_AND_FIND_ONLY true [] 0%Z) started).

(** The same service once one more cloud has reached the detection: the
    next find gives three surfaces where the cached result has two. *)
Definition rescanned : @SurfaceDetectionService messages collaborators :=
  set_surface_detection_
    (SurfaceDetection_add_cloud "pose_c" (surface_detection_ scanned)) scanned.

(** Two dispatch threads, each about to run [find_surfaces] for a
    [FIND_AND_RETURN] request. *)
Definition two_finds : @Config messages collaborators :=
  {| shared := rescanned;
     workers := [find_entry {| markers := [] |}; find_entry {| markers := [] |}] |}.

(** One dispatch thread about to run [find_surfaces]. *)
Definition one_find : @Config messages collaborators :=
  {| shared := rescanned; workers := [find_entry {| markers := [] |}] |}.

(** The callback on a default-constructed response. *)
Definition detect (req : @Req.t messages)
    (s : @SurfaceDetectionService messages collaborators) :=
  surface_detection_server_callback req Response_new s.

(** The service after four requests served in turn. *)
Definition session : list (@Request messages) :=
  [ DetectionRequest (request SCAN_FIND_AND_RETURN false ["pose_c"] 9%Z);
    SelectRequest {| SelReq.action := SELECT_ALL; SelReq.select_surfaces := [] |};
    ParametersRequest PARAM_GET_CURRENT_PARAMETERS;
    DetectionRequest (request FIND_ONLY false [] 7%Z) ].

Definition served : @SurfaceDetectionService messages collaborators :=
  match serve_all 1 session started with
  | Returns s => s
  | _ => started
  end.

(** The same stages over another parameter server and with loads of the
    detection and of the scanner that succeed or fail as told. *)
Definition with_params (param_bool : string -> string -> option bool)
    (param_double : string -> string -> option Z) (detection_loads scan_loads : bool)
    : @Collaborators messages :=
  {| RobotScanPriv := list string;
     SurfaceDetectionPriv := list string * list string;
     InteractiveSurfaceServer := Server;
     RobotScan_new := @RobotScan_new messages collaborators;
     SurfaceDetection_new := @SurfaceDetection_new messages collaborators;
     InteractiveSurfaceServer_new := [];
     getParam_bool := param_bool;
     getParam_double := param_double;
     RobotScan_load_parameters := fun ns rs =>
       (scan_loads, snd (@RobotScan_load_parameters messages collaborators ns rs));
     RobotScan_init := @RobotScan_init messages collaborators;
     RobotScan_add_scan_callback := @RobotScan_add_scan_callback messages collaborators;
     RobotScan_publish_scan_poses := @RobotScan_publish_scan_poses messages collaborators;
     RobotScan_scan := @RobotScan_scan messages collaborators;
     RobotScan_get_latest_scan_poses :=
       @RobotScan_get_latest_scan_poses messages collaborators;
     SurfaceDetection_load_parameters := fun ns sd =>
       (detection_loads,
        snd (@SurfaceDetection_load_parameters messages collaborators ns sd));
     SurfaceDetection_init := @SurfaceDetection_init messages collaborators;
     SurfaceDetection_add_cloud := @SurfaceDetection_add_cloud messages collaborators;
     SurfaceDetection_clear_results :=
       @SurfaceDetection_clear_results messages collaborators;
     SurfaceDetection_find_surfaces :=
       @SurfaceDetection_find_surfaces messages collaborators;
     SurfaceDetection_get_meshes := @SurfaceDetection_get_meshes messages collaborators;
     SurfaceDetection_get_surface_markers :=
       @SurfaceDetection_get_surface_markers messages collaborators;
     SurfaceDetection_get_region_colored_cloud :=
       @SurfaceDetection_get_region_colored_cloud messages collaborators;
     InteractiveSurfaceServer_load_parameters :=
       @InteractiveSurfaceServer_load_parameters messages collaborators;
     InteractiveSurfaceServer_init :=
       @InteractiveSurfaceServer_init messages collaborators;
     InteractiveSurfaceServer_add_selection_callback :=
       @InteractiveSurfaceServer_add_selection_callback messages collaborators;
     InteractiveSurfaceServer_run := @InteractiveSurfaceServer_run messages collaborators;
     InteractiveSurfaceServer_get_selected_list :=
       @InteractiveSurfaceServer_get_selected_list messages collaborators;
     InteractiveSurfaceServer_remove_all_surfaces :=
       @InteractiveSurfaceServer_remove_all_surfaces messages collaborators;
     InteractiveSurfaceServer_add_surface :=
       @InteractiveSurfaceServer_add_surface messages collaborators;
     InteractiveSurfaceServer_set_selection_flag :=
       @InteractiveSurfaceServer_set_selection_flag messages collaborators;
     InteractiveSurfaceServer_select_all :=
       @InteractiveSurfaceServer_select_all messages collaborators;
     InteractiveSurfaceServer_show_all :=
       @InteractiveSurfaceServer_show_all messages collaborators
  |}.

(** A parameter server on which [overlap] is the one blending key not
    set, and no publish flag is set. *)
Definition without_overlap : @Collaborators messages :=
  with_params (fun _ _ => None)
    (fun _ key => if String.eqb key "overlap" then None
                  else Some (Z.of_nat (String.length key)))
    true true.

(** Stages whose detection fails to load its parameters. *)
Definition without_detection : @Collaborators messages :=
  with_params (fun _ _ => None) (fun _ key => Some (Z.of_nat (String.length key)))
    false true.

(** Blending-plan parameters with every member at seven. *)
Definition sevens : @BlendingPlanParameters messages :=
  {| tool_radius := 7%Z; margin := 7%Z; overlap := 7%Z; approach_spd := 7%Z;
     blending_spd := 7%Z; retract_spd := 7%Z; traverse_spd := 7%Z;
     discretization := 7%Z; safe_traverse_height := 7%Z |}.

(** The four requests of [session] on a service whose blending parameters
    failed to load. *)
Definition served_unloaded : @SurfaceDetectionService messages without_overlap :=
  match @serve_all messages without_overlap 1 session
          (snd (@init messages without_overlap SurfaceDetectionService_new)) with
  | Returns s => s
  | _ => SurfaceDetectionService_new
  end.

(** The scanned service after a scan over no pose: the selection server
    still shows two surfaces and the detection holds no cloud. *)
Definition cleared : @SurfaceDetectionService messages collaborators :=
  snd (handle (request SCAN_AND_FIND_ONLY false [] 0%Z) scanned).

(** The scanned service after [SELECT_ALL]. *)
Definition all_selected : @SurfaceDetectionService messages collaborators :=
  match select_surface_server_callback 0
          {| SelReq.action := SELECT_ALL; SelReq.select_surfaces := [] |} scanned with
  | Returns (_, s) => s
  | _ => scanned
  end.

End Demo.

(** ** Properties *)

Section Properties.
Context {M : Messages} {C : Collaborators}.

#[local] Abbreviation RobotScan := (scan.RobotScan RobotScanPriv).
#[local] Abbreviation SurfaceDetection := (detection.SurfaceDetection SurfaceDetectionPriv).

(** Two services with the same members and the same trace are equal. *)
Lemma service_ext (s s' : SurfaceDetectionService) :
  robot_scan_ s = robot_scan_ s' ->
  surface_detection_ s = surface_detection_ s' ->
  surface_server_ s = surface_server_ s' ->
  default_robot_scan_params__ s = default_robot_scan_params__ s' ->
  default_surf_detection_params_ s = default_surf_detection_params_ s' ->
  default_blending_plan_params_ s = default_blending_plan_params_ s' ->
  blending_plan_params_ s = blending_plan_params_ s' ->
  latest_surface_detection_results_ s = latest_surface_detection_results_ s' ->
  publish_region_point_cloud_ s = publish_region_point_cloud_ s' ->
  region_cloud_msg_ s = region_cloud_msg_ s' ->
  trace s = trace s' ->
  s = s'.
Proof.
  destruct s, s'; cbn; intros; subst; reflexivity.
Qed.

(** *** Calls on the selection server *)

Lemma with_server_and_events_nil (s : SurfaceDetectionService) :
  with_server_and_events (surface_server_ s) [] s = s.
Proof.
  destruct s; unfold with_server_and_events; cbn.
  now rewrite app_nil_r.
Qed.

Lemma with_server_and_events_twice srv1 srv2 e1 e2 (s : SurfaceDetectionService) :
  with_server_and_events srv2 e2 (with_server_and_events srv1 e1 s)
  = with_server_and_events srv2 (e1 ++ e2) s.
Proof.
  unfold with_server_and_events; cbn.
  now rewrite app_assoc.
Qed.

Lemma surface_server_call_eq r (s : SurfaceDetectionService) :
  surface_server_call r s
  = with_server_and_events (fst r) (selection_publications (snd r)) s.
Proof.
  destruct r as [srv during]; unfold surface_server_call; cbn [fst snd].
  revert s; induction during as [|d during IH]; intro s; cbn [fold_left].
  - unfold with_server_and_events, set_surface_server_; cbn.
    now rewrite app_nil_r.
  - rewrite IH.
    unfold with_server_and_events, publish_selected_surfaces_changed, emit,
      set_surface_server_; cbn.
    now rewrite <- app_assoc.
Qed.

Lemma add_surface_call_eq m (s : SurfaceDetectionService) :
  add_surface_call m s
  = with_server_and_events
      (fst (InteractiveSurfaceServer_add_surface m (surface_server_ s)))
      (selection_publications (snd (InteractiveSurfaceServer_add_surface m (surface_server_ s)))
       ++ [E_add_surface m]) s.
Proof.
  unfold add_surface_call; rewrite surface_server_call_eq.
  unfold emit, with_server_and_events; cbn.
  now rewrite app_assoc.
Qed.

Lemma add_surfaces_eq meshes (s : SurfaceDetectionService) :
  fold_left (fun s m => add_surface_call m s) meshes s
  = with_server_and_events
      (fold_left (fun srv m => fst (InteractiveSurfaceServer_add_surface m srv)) meshes
                 (surface_server_ s))
      (add_surfaces_events meshes (surface_server_ s)) s.
Proof.
  revert s; induction meshes as [|m meshes IH]; intro s; cbn [fold_left add_surfaces_events].
  - now rewrite with_server_and_events_nil.
  - rewrite IH, add_surface_call_eq, with_server_and_events_twice.
    cbn [with_server_and_events surface_server_].
    now rewrite <- app_assoc.
Qed.

Lemma set_selection_flag_call_eq name flag (s : SurfaceDetectionService) :
  set_selection_flag_call name flag s
  = with_server_and_events
      (fst (InteractiveSurfaceServer_set_selection_flag name flag (surface_server_ s)))
      (selection_publications
         (snd (InteractiveSurfaceServer_set_selection_flag name flag (surface_server_ s)))
       ++ [E_set_selection_flag name flag]) s.
Proof.
  unfold set_selection_flag_call; rewrite surface_server_call_eq.
  unfold emit, with_server_and_events; cbn.
  now rewrite app_assoc.
Qed.

(** *** The find sub-procedure in closed form *)

Lemma find_surfaces_found surfaces (s : SurfaceDetectionService) sd :
  SurfaceDetection_find_surfaces (surface_detection_ s) = (true, sd) ->
  find_surfaces surfaces s
  = (true,
     {| markers := markers (SurfaceDetection_get_surface_markers sd) ++ markers surfaces |},
     after_find sd surfaces s).
Proof.
  intro Hfind. unfold find_surfaces. rewrite Hfind.
  rewrite surface_server_call_eq, add_surfaces_eq.
  f_equal.
  apply service_ext; cbn; try reflexivity.
  unfold find_server_events. now rewrite <- !app_assoc.
Qed.

Lemma find_surfaces_failed surfaces (s : SurfaceDetectionService) sd :
  SurfaceDetection_find_surfaces (surface_detection_ s) = (false, sd) ->
  find_surfaces surfaces s = (false, surfaces, after_failed_find sd s).
Proof.
  intro Hfind. unfold find_surfaces. rewrite Hfind. reflexivity.
Qed.

(** *** The scan sub-procedure in closed form *)

Lemma scan_callbacks_eq clouds (s : SurfaceDetectionService) :
  fold_left (fun s c => scan_callback c s) clouds s
  = {| robot_scan_ := robot_scan_ s;
       surface_detection_ :=
         fold_left (fun sd c => SurfaceDetection_add_cloud c sd) clouds (surface_detection_ s);
       surface_server_ := surface_server_ s;
       default_robot_scan_params__ := default_robot_scan_params__ s;
       default_surf_detection_params_ := default_surf_detection_params_ s;
       default_blending_plan_params_ := default_blending_plan_params_ s;
       blending_plan_params_ := blending_plan_params_ s;
       latest_surface_detection_results_ := latest_surface_detection_results_ s;
       publish_region_point_cloud_ := publish_region_point_cloud_ s;
       region_cloud_msg_ := region_cloud_msg_ s;
       trace := trace s ++ map E_add_cloud clouds |}.
Proof.
  revert s; induction clouds as [|c clouds IH]; intro s; cbn [fold_left map].
  - destruct s; cbn. now rewrite app_nil_r.
  - rewrite IH. apply service_ext; cbn; try reflexivity.
    now rewrite <- app_assoc.
Qed.

Lemma run_robot_scan_eq surfaces (s : SurfaceDetectionService) :
  run_robot_scan surfaces s
  = if (scans_completed_from s >? 0)%Z
    then find_surfaces surfaces (after_scan s)
    else (false, surfaces, after_scan s).
Proof.
  unfold run_robot_scan, after_scan, scans_completed_from.
  cbn [robot_scan_ emit set_robot_scan_ set_surface_detection_].
  destruct (RobotScan_scan false
              (RobotScan_publish_scan_poses ROBOT_SCAN_PATH_PREVIEW_TOPIC (robot_scan_ s)))
    as [[n clouds] rs'].
  cbn [fst].
  rewrite scan_callbacks_eq.
  match goal with
  | |- (if _ then find_surfaces _ ?a else (_, _, ?a)) = (if _ then _ else (_, _, ?b)) =>
      assert (Heq : a = b)
  end.
  { apply service_ext; cbn; try reflexivity.
    rewrite <- !app_assoc. reflexivity. }
  rewrite Heq. reflexivity.
Qed.

(** *** What the selection server contributes to a trace *)

Lemma selection_publications_from_server during e :
  In e (selection_publications during) -> from_surface_server e = true.
Proof.
  unfold selection_publications; rewrite in_map_iff.
  intros (srv & <- & _); reflexivity.
Qed.

Lemma add_surfaces_events_from_server meshes srv e :
  In e (add_surfaces_events meshes srv) -> from_surface_server e = true.
Proof.
  revert srv; induction meshes as [|m meshes IH]; intro srv; cbn [add_surfaces_events].
  - intros [].
  - rewrite in_app_iff; cbn [In].
    intros [Hin | [<- | Hin]];
      eauto using selection_publications_from_server.
Qed.

Lemma find_server_events_from_server meshes srv e :
  In e (find_server_events meshes srv) -> from_surface_server e = true.
Proof.
  unfold find_server_events; rewrite in_app_iff; cbn [In].
  intros [Hin | [<- | Hin]];
    eauto using selection_publications_from_server, add_surfaces_events_from_server.
Qed.

Lemma surface_set_calls_app t1 t2 :
  surface_set_calls (t1 ++ t2) = surface_set_calls t1 ++ surface_set_calls t2.
Proof. apply filter_app. Qed.

Lemma surface_set_calls_publications during :
  surface_set_calls (selection_publications during) = [].
Proof. induction during; cbn; auto. Qed.

Lemma surface_set_calls_add_surfaces meshes srv :
  surface_set_calls (add_surfaces_events meshes srv) = map E_add_surface meshes.
Proof.
  revert srv; induction meshes as [|m meshes IH]; intro srv;
    cbn [add_surfaces_events map]; [reflexivity|].
  rewrite surface_set_calls_app, surface_set_calls_publications.
  change (surface_set_calls (E_add_surface m :: ?l))
    with (E_add_surface m :: surface_set_calls l).
  cbn [app]. now rewrite IH.
Qed.

Lemma surface_set_calls_find meshes srv :
  surface_set_calls (find_server_events meshes srv)
  = E_remove_all_surfaces :: map E_add_surface meshes.
Proof.
  unfold find_server_events.
  rewrite surface_set_calls_app, surface_set_calls_publications.
  change (surface_set_calls (E_remove_all_surfaces :: ?l))
    with (E_remove_all_surfaces :: surface_set_calls l).
  cbn [app]. now rewrite surface_set_calls_add_surfaces.
Qed.

(** *** The detection callback, case by case *)

Lemma resolve_robot_scan_params_eq req (s : SurfaceDetectionService) :
  resolve_robot_scan_params req s
  = assign_robot_scan_params
      (if Req.use_default_parameters req
       then default_robot_scan_params__ s else Req.robot_scan req) s.
Proof. unfold resolve_robot_scan_params; now destruct (Req.use_default_parameters req). Qed.

Lemma resolve_surface_detection_params_eq req (s : SurfaceDetectionService) :
  resolve_surface_detection_params req s
  = assign_surface_detection_params
      (if Req.use_default_parameters req
       then default_surf_detection_params_ s else Req.surface_detection req) s.
Proof.
  unfold resolve_surface_detection_params; now destruct (Req.use_default_parameters req).
Qed.

(** Splits on the result of the detection stage at a call of
    [find_surfaces] in [H] and replaces the call by its closed form. *)
Ltac find_cases H :=
  match type of H with
  | context [find_surfaces ?surf ?st] =>
      let sd := fresh "sd" in
      let Hfind := fresh "Hfind" in
      destruct (SurfaceDetection_find_surfaces (surface_detection_ st))
        as [[|] sd] eqn:Hfind;
      [ rewrite (find_surfaces_found surf st Hfind) in H
      | rewrite (find_surfaces_failed surf st Hfind) in H ]
  end.

(** Replaces a call of [run_robot_scan] in [H] by its closed form and
    splits on the number of poses the scan reached. *)
Ltac scan_cases H :=
  rewrite run_robot_scan_eq in H;
  unfold scans_completed_from, after_scan in H;
  match type of H with
  | context [RobotScan_scan false ?rs] =>
      let n := fresh "n" in
      let clouds := fresh "clouds" in
      let rs' := fresh "rs'" in
      let Hscan := fresh "Hscan" in
      let Hn := fresh "Hn" in
      destruct (RobotScan_scan false rs) as [[n clouds] rs'] eqn:Hscan;
      cbn [fst snd] in H;
      destruct (Z.gtb_spec n 0) as [Hn | Hn]
  end.

Lemma surface_set_calls_add_cloud (clouds : list Cloud) :
  surface_set_calls (map E_add_cloud clouds) = [].
Proof. induction clouds; cbn; auto. Qed.

(** Takes a membership in a trace apart, down to the events it can be. *)
Ltac in_cases :=
  repeat match goal with
  | H : In _ (_ ++ _) |- _ => apply in_app_or in H; destruct H as [H | H]
  | H : In _ (_ :: _) |- _ => destruct H as [H | H]
  | H : In _ [] |- _ => destruct H
  | H : In _ (map _ _) |- _ =>
      apply in_map_iff in H; destruct H as (? & H & _)
  | H : In _ (find_server_events _ _) |- _ =>
      apply find_server_events_from_server in H
  | H : from_surface_server _ = true |- _ => discriminate H
  | H : @eq Event _ _ |- _ => first [discriminate H | injection H as H; subst]
  end.

Lemma surface_set_calls_scan_find topic (clouds : list Cloud) n meshes srv :
  surface_set_calls
    ((E_publish_scan_poses topic :: E_clear_results
      :: map E_add_cloud clouds ++ [E_scan false n])
     ++ E_find_surfaces true :: find_server_events meshes srv)
  = E_remove_all_surfaces :: map E_add_surface meshes.
Proof.
  rewrite surface_set_calls_app.
  change (surface_set_calls (E_find_surfaces true :: ?l)) with (surface_set_calls l).
  change (surface_set_calls (E_publish_scan_poses topic :: E_clear_results :: ?l))
    with (surface_set_calls l).
  rewrite surface_set_calls_app, surface_set_calls_add_cloud, surface_set_calls_find.
  reflexivity.
Qed.

Lemma surface_set_calls_find_only meshes srv :
  surface_set_calls (E_find_surfaces true :: find_server_events meshes srv)
  = E_remove_all_surfaces :: map E_add_surface meshes.
Proof. exact (surface_set_calls_find meshes srv). Qed.

(** Settles the facts about one outcome of the detection callback. *)
Ltac outcome_facts :=
  repeat match goal with |- _ /\ _ => split end;
  first
    [ reflexivity
    | apply in_elt
    | apply in_eq
    | apply surface_set_calls_scan_find
    | apply surface_set_calls_find_only
    | intros Hne; first [ now contradiction Hne | split; reflexivity ]
    | intros ? Hin; in_cases; lia
    | intros Hin; in_cases ].

Lemma callback_outcomes req res (s : SurfaceDetectionService) ok res' s' :
  surface_detection_server_callback req res s = (ok, res', s') ->
  exists new,
    trace s' = trace s ++ new /\
    ( ((forall found, ~ In (E_find_surfaces found) new) /\
       (forall n, In (E_scan false n) new -> (n <= 0)%Z) /\
       latest_surface_detection_results_ s' = latest_surface_detection_results_ s /\
       region_cloud_msg_ s' = region_cloud_msg_ s /\
       surface_server_ s' = surface_server_ s /\
       (Req.action req <> RETURN_LATEST_RESULTS ->
        Res.surfaces_found res' = false /\ markers (Res.surfaces res') = []))
   \/ (touches_detection (Req.action req) = true /\
       In (E_find_surfaces false) new /\ ~ In (E_find_surfaces true) new /\
       (forall n, In (E_scan false n) new -> (0 < n)%Z) /\
       latest_surface_detection_results_ s' = latest_surface_detection_results_ s /\
       region_cloud_msg_ s' = PointCloud2_new /\
       surface_server_ s' = surface_server_ s /\
       Res.surfaces_found res' = false /\ markers (Res.surfaces res') = [])
   \/ (touches_detection (Req.action req) = true /\
       In (E_find_surfaces true) new /\ ~ In (E_find_surfaces false) new /\
       (forall n, In (E_scan false n) new -> (0 < n)%Z) /\
       latest_surface_detection_results_ s'
       = result_of_find (surface_detection_ s') (robot_scan_ s') {| markers := [] |}
           (latest_surface_detection_results_ s) /\
       region_cloud_msg_ s'
       = SurfaceDetection_get_region_colored_cloud (surface_detection_ s') PointCloud2_new /\
       surface_server_ s'
       = server_after_find (SurfaceDetection_get_meshes (surface_detection_ s') [])
           (surface_server_ s) /\
       surface_set_calls new
       = E_remove_all_surfaces
         :: map E_add_surface (SurfaceDetection_get_meshes (surface_detection_ s') []) /\
       Res.surfaces_found res' = true /\
       markers (Res.surfaces res')
       = if flag_only (Req.action req) then []
         else markers (SurfaceDetection_get_surface_markers (surface_detection_ s')) ++ []) ).
Proof.
  unfold surface_detection_server_callback.
  rewrite ?resolve_robot_scan_params_eq, ?resolve_surface_detection_params_eq.
  intro H.
  destruct (Req.action req) eqn:Hact.
  all: rewrite ?resolve_robot_scan_params_eq, ?resolve_surface_detection_params_eq in H.
  all: try scan_cases H.
  all: try find_cases H.
  all: injection H as <- <- <-.
  all: cbn.
  all: match goal with
       | |- exists new, (trace ?s ++ ?A) ++ ?B = trace ?s ++ new /\ _ =>
           exists (A ++ B); split; [symmetry; apply app_assoc|]
       | |- exists new, trace ?s ++ ?A = trace ?s ++ new /\ _ =>
           exists A; split; [reflexivity|]
       | |- exists new, trace ?s = trace ?s ++ new /\ _ =>
           exists []; split; [symmetry; apply app_nil_r|]
       end.
  all: first [ left; solve [outcome_facts]
             | right; left; solve [outcome_facts]
             | right; right; solve [outcome_facts] ].
Qed.
(** *** Parameters across the detection callback *)

Lemma add_clouds_keep_params (Hk : StagesKeepParams) (clouds : list Cloud)
    (sd : SurfaceDetection) :
  detection.params_ (fold_left (fun sd c => SurfaceDetection_add_cloud c sd) clouds sd)
  = detection.params_ sd.
Proof.
  revert sd; induction clouds as [|c clouds IH]; intro sd; cbn [fold_left].
  - reflexivity.
  - now rewrite IH, (add_cloud_keeps_params Hk).
Qed.

Lemma callback_params (Hk : StagesKeepParams) req res (s : SurfaceDetectionService)
    ok res' s' :
  surface_detection_server_callback req res s = (ok, res', s') ->
  scan.params_ (robot_scan_ s')
  = (if touches_scan (Req.action req)
     then if Req.use_default_parameters req
          then default_robot_scan_params__ s else Req.robot_scan req
     else scan.params_ (robot_scan_ s)) /\
  detection.params_ (surface_detection_ s')
  = (if touches_detection (Req.action req)
     then if Req.use_default_parameters req
          then default_surf_detection_params_ s else Req.surface_detection req
     else detection.params_ (surface_detection_ s)) /\
  blending_plan_params_ s' = blending_plan_params_ s.
Proof.
  unfold surface_detection_server_callback.
  rewrite ?resolve_robot_scan_params_eq, ?resolve_surface_detection_params_eq.
  intro H.
  destruct (Req.action req) eqn:Hact.
  all: rewrite ?resolve_robot_scan_params_eq, ?resolve_surface_detection_params_eq in H.
  all: try scan_cases H.
  all: try find_cases H.
  all: injection H as <- <- <-.
  all: repeat match goal with
       | Hfind : SurfaceDetection_find_surfaces ?x = (_, _) |- _ =>
           let Hp := fresh "Hp" in
           pose proof (find_surfaces_keeps_params Hk x) as Hp;
           rewrite Hfind in Hp; cbn [snd] in Hp; clear Hfind
       | Hscan : RobotScan_scan _ ?x = (_, _, _) |- _ =>
           let Hp := fresh "Hp" in
           pose proof (scan_keeps_params Hk false x) as Hp;
           rewrite Hscan in Hp; cbn [snd] in Hp; clear Hscan
       end.
  all: cbn in *.
  all: rewrite ?Hp, ?Hp0, ?(add_clouds_keep_params Hk), ?(clear_results_keeps_params Hk),
         ?(publish_scan_poses_keeps_params Hk).
  all: cbn.
  all: auto.
Qed.
Lemma callback_defaults req res (s : SurfaceDetectionService) ok res' s' :
  surface_detection_server_callback req res s = (ok, res', s') ->
  default_robot_scan_params__ s' = default_robot_scan_params__ s /\
  default_surf_detection_params_ s' = default_surf_detection_params_ s /\
  default_blending_plan_params_ s' = default_blending_plan_params_ s /\
  blending_plan_params_ s' = blending_plan_params_ s /\
  publish_region_point_cloud_ s' = publish_region_point_cloud_ s.
Proof.
  unfold surface_detection_server_callback.
  rewrite ?resolve_robot_scan_params_eq, ?resolve_surface_detection_params_eq.
  intro H.
  destruct (Req.action req) eqn:Hact.
  all: rewrite ?resolve_robot_scan_params_eq, ?resolve_surface_detection_params_eq in H.
  all: try scan_cases H.
  all: try find_cases H.
  all: injection H as <- <- <-.
  all: cbn; auto.
Qed.

(** *** Parameter resolution *)

(** C1.  After the detection callback returns, a parameter group the
    action touches holds the default when [use_default_parameters] is set
    and the request's value otherwise; a group the action does not touch,
    and the blending-plan group under every action, holds the value it had
    before the call.  The stage methods are assumed not to write
    [params_]. *)
Theorem parameter_resolution (Hk : StagesKeepParams) req res
    (s : SurfaceDetectionService) ok res' s' :
  surface_detection_server_callback req res s = (ok, res', s') ->
  scan.params_ (robot_scan_ s')
  = (if touches_scan (Req.action req)
     then if Req.use_default_parameters req
          then default_robot_scan_params__ s' else Req.robot_scan req
     else scan.params_ (robot_scan_ s)) /\
  detection.params_ (surface_detection_ s')
  = (if touches_detection (Req.action req)
     then if Req.use_default_parameters req
          then default_surf_detection_params_ s' else Req.surface_detection req
     else detection.params_ (surface_detection_ s)) /\
  blending_plan_params_ s' = blending_plan_params_ s.
Proof.
  intro H.
  destruct (callback_defaults _ _ _ H) as (-> & -> & _).
  exact (callback_params Hk _ _ _ H).
Qed.

(** *** Failures *)

(** C2.  When a scan-bearing action's scan reaches zero poses, the trace
    of the call holds no call of the detection stage's [find_surfaces]
    (the first statement of the find sub-procedure, so the sub-procedure
    was not entered), the cached result is what it was before the call and
    the response has [surfaces_found = false]. *)
Theorem scan_failure_skips_find req res (s : SurfaceDetectionService) ok res' s' new :
  scan_bearing (Req.action req) = true ->
  surface_detection_server_callback req res s = (ok, res', s') ->
  trace s' = trace s ++ new ->
  In (E_scan false 0) new ->
  (forall found, ~ In (E_find_surfaces found) new) /\
  latest_surface_detection_results_ s' = latest_surface_detection_results_ s /\
  Res.surfaces_found res' = false.
Proof.
  intros Hact H Htrace Hscan.
  destruct (callback_outcomes _ _ _ H) as (new0 & Ht & Hcases).
  rewrite Ht in Htrace; apply app_inv_head in Htrace; subst new0.
  destruct Hcases as [(Hnofind & _ & Hlatest & _ & _ & Hres)
                     | [(_ & _ & _ & Hpos & _) | (_ & _ & _ & Hpos & _)]].
  - repeat split; auto.
    apply Hres. intro Heq; rewrite Heq in Hact; discriminate.
  - apply Hpos in Hscan; lia.
  - apply Hpos in Hscan; lia.
Qed.


(** *** A successful find *)


(** *** The surfaces payload of the response *)

(** C6.  For the four actions that run a detection, the response is
    given by what the stages return.  The find is reached at once by
    [FIND_ONLY] and [FIND_AND_RETURN], and after a scan that reached a pose
    by the scan-bearing actions; it runs on the detection with the
    parameters the request resolved to (after the scan: cleared, then
    holding the clouds the scan delivered).  [surfaces_found] is true
    exactly when the find is reached and the detection stage reports
    success, for the flag-only actions as for the others.  The surfaces
    payload of [SCAN_AND_FIND_ONLY] and [FIND_ONLY] is empty whatever was
    found; that of [SCAN_FIND_AND_RETURN] and [FIND_AND_RETURN] is the
    whole list of markers of the detection that succeeded, and empty when
    nothing was found. *)
Theorem response_surfaces_payload req res (s : SurfaceDetectionService) ok res' s' new :
  surface_detection_server_callback req res s = (ok, res', s') ->
  trace s' = trace s ++ new ->
  touches_detection (Req.action req) = true ->
  let a := Req.action req in
  let s1 := resolve_surface_detection_params req
              (if scan_bearing a then resolve_robot_scan_params req s else s) in
  let reached := if scan_bearing a then (scans_completed_from s1 >? 0)%Z else true in
  let entry := if scan_bearing a then after_scan s1 else s1 in
  let detected := SurfaceDetection_find_surfaces (surface_detection_ entry) in
  let found := (reached && fst detected)%bool in
  Res.surfaces_found res' = found /\
  (In (E_find_surfaces true) new <-> found = true) /\
  (found = true -> surface_detection_ s' = snd detected) /\
  (flag_only a = true -> markers (Res.surfaces res') = []) /\
  (returns_surfaces a = true ->
   markers (Res.surfaces res')
   = if found then markers (SurfaceDetection_get_surface_markers (snd detected)) else []).
Proof.
  intros H Htrace Hact.
  unfold scans_completed_from, after_scan.
  revert H.
  unfold surface_detection_server_callback.
  rewrite ?resolve_robot_scan_params_eq, ?resolve_surface_detection_params_eq.
  intro H.
  destruct (Req.action req) eqn:Ha; try discriminate Hact; cbv zeta;
    cbn [scan_bearing flag_only returns_surfaces].
  all: rewrite ?resolve_robot_scan_params_eq, ?resolve_surface_detection_params_eq in H.
  all: rewrite ?resolve_robot_scan_params_eq, ?resolve_surface_detection_params_eq.
  all: try scan_cases H.
  all: try find_cases H.
  all: injection H as <- <- <-.
  all: cbn [trace after_find after_failed_find] in Htrace.
  all: rewrite <- ?app_assoc in Htrace; apply app_inv_head in Htrace; subst new.
  all: cbn [fst snd surface_detection_ after_find after_failed_find
            Res.surfaces_found Res.surfaces Res_set_surfaces_found Res_set_surfaces
            markers andb].
  all: try match goal with
       | Hfind : SurfaceDetection_find_surfaces ?x = _
         |- context [SurfaceDetection_find_surfaces ?y] =>
           change y with x; rewrite Hfind
       end.
  all: cbn [fst snd andb].
  all: rewrite ?app_nil_r.
  all: try match goal with
       | |- context [(?k >? 0)%Z] => destruct (Z.gtb_spec k 0); try lia
       end.
  all: cbn [andb].
  all: repeat match goal with
       | |- _ /\ _ => split
       | |- _ <-> _ => split
       end.
  all: intros.
  all: try reflexivity.
  all: try congruence.
  all: try solve [apply in_elt | apply in_eq | in_cases].
Qed.

(** C10.  After a [SCAN_AND_FIND_ONLY] or [FIND_ONLY] whose find
    succeeded, the response of the action has an empty surfaces payload,
    and the response of a [RETURN_LATEST_RESULTS] served next has
    [surfaces_found = true] and all the markers of the detection. *)
Theorem cache_keeps_markers_of_flag_only_actions req res (s : SurfaceDetectionService)
    ok res' s' new req2 res2 :
  flag_only (Req.action req) = true ->
  surface_detection_server_callback req res s = (ok, res', s') ->
  trace s' = trace s ++ new ->
  In (E_find_surfaces true) new ->
  Req.action req2 = RETURN_LATEST_RESULTS ->
  let latest := snd (fst (surface_detection_server_callback req2 res2 s')) in
  markers (Res.surfaces res') = [] /\
  Res.surfaces_found latest = true /\
  markers (Res.surfaces latest)
  = markers (SurfaceDetection_get_surface_markers (surface_detection_ s')).
Proof.
  intros Hact H Htrace Hfound Hact2 latest; subst latest.
  assert (Hlast : surface_detection_server_callback req2 res2 s'
                  = (true, latest_surface_detection_results_ s', s'))
    by (unfold surface_detection_server_callback; now rewrite Hact2).
  rewrite Hlast; cbn [fst snd]; clear Hlast.
  destruct (callback_outcomes _ _ _ H) as (new0 & Ht & Hcases).
  rewrite Ht in Htrace; apply app_inv_head in Htrace; subst new0.
  destruct Hcases as [(Hnofind & _)
                     | [(_ & _ & Hnofound & _)
                       | (_ & _ & _ & _ & Hlatest & _ & _ & _ & _ & Hmarkers)]].
  - now apply Hnofind in Hfound.
  - contradiction.
  - rewrite Hact in Hmarkers. rewrite Hlatest.
    cbn [result_of_find Res.surfaces_found Res.surfaces markers].
    rewrite app_nil_r. auto.
Qed.

(** *** The selection callback *)

(** The loop of [SELECT] and [DESELECT] leaves through its condition only,
    and the condition is false only for an empty vector. *)
Lemma select_loop_returns fuel flag targets i (s s' : SurfaceDetectionService) :
  select_loop fuel flag targets i s = Returns s' -> targets = [] /\ s' = s.
Proof.
  revert i s; induction fuel as [|fuel IH]; intros i s; cbn [select_loop].
  - discriminate.
  - destruct targets as [|t targets]; cbn [List.length Nat.add].
    + cbn. intros [= <-]. auto.
    + replace (Z.of_nat (S (List.length targets)) =? 0)%Z with false
        by (symmetry; apply Z.eqb_neq; lia).
      destruct (nth_error (t :: targets) (Z.to_nat i)) as [name|]; [|discriminate].
      destruct (i =? INT_MAX)%Z; [discriminate|].
      intro H. apply IH in H. destruct H as [H _]. discriminate H.
Qed.

(** With a vector that is not empty the loop sets the flag of every
    target, one after the other, and then reads past the end of the
    vector. *)
Lemma select_loop_runs_off_the_end flag targets rest done fuel
    (s : SurfaceDetectionService) :
  targets = done ++ rest ->
  targets <> [] ->
  (Z.of_nat (List.length targets) <= INT_MAX)%Z ->
  List.length rest < fuel ->
  select_loop fuel flag targets (Z.of_nat (List.length done)) s
  = Undefined (fold_left (fun s name => set_selection_flag_call name flag s) rest s).
Proof.
  intros Htargets Hne Hmax. revert done s fuel Htargets.
  induction rest as [|name rest IH]; intros done s fuel Htargets Hfuel;
    (destruct fuel as [|fuel]; [cbn in Hfuel; lia|]); cbn [select_loop fold_left].
  all: replace (Z.of_nat (List.length targets) =? 0)%Z with false
         by (symmetry; apply Z.eqb_neq; destruct targets; [congruence | cbn; lia]).
  all: rewrite Nat2Z.id, Htargets.
  - rewrite app_nil_r.
    replace (nth_error done (List.length done)) with (@None string)
      by (symmetry; apply nth_error_None; lia).
    reflexivity.
  - rewrite nth_error_app2, Nat.sub_diag by lia. cbn [nth_error].
    assert (Hlen : List.length targets = List.length done + S (List.length rest))
      by (rewrite Htargets, length_app; reflexivity).
    replace (Z.of_nat (List.length done) =? INT_MAX)%Z with false
      by (symmetry; apply Z.eqb_neq; lia).
    replace (Z.of_nat (List.length done) + 1)%Z
      with (Z.of_nat (List.length (done ++ [name])))
      by (rewrite length_app; cbn; lia).
    rewrite <- Htargets.
    apply IH; [now rewrite Htargets, <- app_assoc | cbn in Hfuel; lia].
Qed.

Lemma selection_flag_calls_publications during :
  selection_flag_calls (selection_publications during) = [].
Proof. induction during; cbn; auto. Qed.

(** The calls of [set_selection_flag] made for a list of targets: one per
    target, in the order of the list. *)
Lemma set_selection_flags_trace flag targets (s : SurfaceDetectionService) :
  exists new,
    trace (fold_left (fun s name => set_selection_flag_call name flag s) targets s)
    = trace s ++ new /\
    selection_flag_calls new = map (fun name => (name, flag)) targets.
Proof.
  revert s; induction targets as [|name targets IH]; intro s; cbn [fold_left map].
  - exists []. split; [now rewrite app_nil_r | reflexivity].
  - destruct (IH (set_selection_flag_call name flag s)) as (new & Ht & Hcalls).
    rewrite Ht, set_selection_flag_call_eq. cbn [trace with_server_and_events].
    eexists. split; [now rewrite <- app_assoc|].
    unfold selection_flag_calls in *.
    rewrite !flat_map_app. cbn [flat_map app].
    fold (selection_flag_calls
            (selection_publications
               (snd (InteractiveSurfaceServer_set_selection_flag name flag
                       (surface_server_ s))))).
    now rewrite selection_flag_calls_publications, Hcalls.
Qed.

Lemma select_callback_returns fuel req (s : SurfaceDetectionService) ok s' :
  select_surface_server_callback fuel req s = Returns (ok, s') ->
  exists srv new,
    s' = with_server_and_events srv new s /\
    forall e, In e new -> from_surface_server e = true.
Proof.
  unfold select_surface_server_callback.
  destruct (SelReq.action req).
  1,2: match goal with
       | |- context [select_loop ?f ?b ?l ?i ?s] =>
           destruct (select_loop f b l i s) as [s1| |] eqn:Hloop; try discriminate;
           apply select_loop_returns in Hloop; destruct Hloop as [_ ->];
           intros [= <- <-];
           exists (surface_server_ s), [];
           rewrite with_server_and_events_nil; split; [reflexivity | intros e []]
       end.
  1-4: intros [= <- <-]; rewrite surface_server_call_eq;
       eexists _, (_ ++ [_]); split;
       [ unfold emit, with_server_and_events; cbn; now rewrite app_assoc
       | intros e Hin; apply in_app_or in Hin; destruct Hin as [Hin | [<- | []]];
         [ eapply selection_publications_from_server; eassumption | reflexivity ] ].
  intros [= <- <-]. exists (surface_server_ s), [].
  rewrite with_server_and_events_nil; split; [reflexivity | intros e []].
Qed.

(** *** Sequences of requests *)

Lemma serve_outcome fuel r (s s' : SurfaceDetectionService) :
  serve fuel r s = Returns s' ->
  default_robot_scan_params__ s' = default_robot_scan_params__ s /\
  default_surf_detection_params_ s' = default_surf_detection_params_ s /\
  default_blending_plan_params_ s' = default_blending_plan_params_ s /\
  exists new,
    trace s' = trace s ++ new /\
    (~ In (E_find_surfaces true) new ->
     latest_surface_detection_results_ s' = latest_surface_detection_results_ s).
Proof.
  destruct r as [req | req | a]; cbn [serve].
  - unfold handle.
    destruct (surface_detection_server_callback req Response_new s)
      as [[ok res'] s1] eqn:H.
    cbn [snd]. intros [= <-].
    destruct (callback_defaults _ _ _ H) as (-> & -> & -> & _).
    repeat split.
    destruct (callback_outcomes _ _ _ H) as (new & Ht & Hcases).
    exists new; split; [assumption|].
    destruct Hcases as [(_ & _ & Hlatest & _) | [(_ & _ & _ & _ & Hlatest & _)
                                                | (_ & Hfound & _)]];
      [auto | auto | contradiction].
  - destruct (select_surface_server_callback fuel req s) as [[ok s1]| |] eqn:H;
      try discriminate.
    intros [= <-].
    destruct (select_callback_returns _ _ _ H) as (srv & new & -> & Hnew).
    cbn. repeat split. exists new. split; reflexivity.
  - destruct a; cbn; intros [= <-]; repeat split;
      exists []; (split; [now rewrite app_nil_r | reflexivity]).
Qed.

Lemma serve_all_outcome fuel rs (s s' : SurfaceDetectionService) :
  serve_all fuel rs s = Returns s' ->
  default_robot_scan_params__ s' = default_robot_scan_params__ s /\
  default_surf_detection_params_ s' = default_surf_detection_params_ s /\
  default_blending_plan_params_ s' = default_blending_plan_params_ s /\
  exists new,
    trace s' = trace s ++ new /\
    (~ In (E_find_surfaces true) new ->
     latest_surface_detection_results_ s' = latest_surface_detection_results_ s).
Proof.
  revert s; induction rs as [|r rs IH]; intro s; cbn [serve_all].
  - intros [= <-]. repeat split. exists []. split; [now rewrite app_nil_r | reflexivity].
  - destruct (serve fuel r s) as [s1| |] eqn:H; try discriminate.
    intro Hrest.
    destruct (serve_outcome _ _ _ H) as (Hd1 & Hd2 & Hd3 & new1 & Ht1 & Hl1).
    destruct (IH _ Hrest) as (Hd1' & Hd2' & Hd3' & new2 & Ht2 & Hl2).
    repeat split; try congruence.
    exists (new1 ++ new2). split.
    + now rewrite Ht2, Ht1, app_assoc.
    + intro Hno. rewrite Hl2, Hl1; auto; intro Hin; apply Hno, in_or_app; auto.
Qed.

(** *** Initialization *)

(** Splits on the result of every stage call under a [let] of the goal. *)
Ltac stage_results :=
  repeat match goal with
  | |- context [let '(_, _) := ?x in _] => destruct x as [[|] ?]; cbn [negb]
  end.

Lemma load_all_parameters_frame (s : SurfaceDetectionService) :
  let s' := snd (load_all_parameters s) in
  default_robot_scan_params__ s' = default_robot_scan_params__ s /\
  default_surf_detection_params_ s' = default_surf_detection_params_ s /\
  default_blending_plan_params_ s' = default_blending_plan_params_ s /\
  latest_surface_detection_results_ s' = latest_surface_detection_results_ s /\
  trace s' = trace s.
Proof.
  unfold load_all_parameters. stage_results; cbn; auto.
Qed.

Lemma init_all_stages_frame (s : SurfaceDetectionService) :
  let s' := snd (init_all_stages s) in
  default_robot_scan_params__ s' = default_robot_scan_params__ s /\
  default_surf_detection_params_ s' = default_surf_detection_params_ s /\
  default_blending_plan_params_ s' = default_blending_plan_params_ s /\
  latest_surface_detection_results_ s' = latest_surface_detection_results_ s /\
  trace s' = trace s.
Proof.
  unfold init_all_stages. stage_results; cbn; auto.
Qed.

Lemma load_publish_flag_frame (s : SurfaceDetectionService) :
  let s' := load_publish_flag s in
  default_robot_scan_params__ s' = default_robot_scan_params__ s /\
  default_surf_detection_params_ s' = default_surf_detection_params_ s /\
  default_blending_plan_params_ s' = default_blending_plan_params_ s /\
  latest_surface_detection_results_ s' = latest_surface_detection_results_ s /\
  trace s' = trace s.
Proof.
  unfold load_publish_flag. destruct (getParam_bool _ _); cbn; auto.
Qed.

(** [init] saves as defaults the parameters the stages hold once the four
    loads have succeeded, and leaves the defaults alone when a load fails;
    it touches neither the cached result nor the trace. *)
Lemma init_outcome (s : SurfaceDetectionService) :
  let loaded := load_all_parameters (load_publish_flag s) in
  let s' := snd (init s) in
  (if fst loaded
   then default_robot_scan_params__ s' = scan.params_ (robot_scan_ (snd loaded)) /\
        default_surf_detection_params_ s'
        = detection.params_ (surface_detection_ (snd loaded)) /\
        default_blending_plan_params_ s' = blending_plan_params_ (snd loaded)
   else default_robot_scan_params__ s' = default_robot_scan_params__ s /\
        default_surf_detection_params_ s' = default_surf_detection_params_ s /\
        default_blending_plan_params_ s' = default_blending_plan_params_ s) /\
  latest_surface_detection_results_ s' = latest_surface_detection_results_ s /\
  trace s' = trace s.
Proof.
  cbv zeta. unfold init.
  pose proof (load_all_parameters_frame (load_publish_flag s)) as Hload.
  pose proof (load_publish_flag_frame s) as Hflag.
  destruct (load_all_parameters (load_publish_flag s)) as [[|] sl]; cbn [fst snd] in *.
  - match goal with
    | |- context [init_all_stages ?x] =>
        pose proof (init_all_stages_frame x) as Hinit;
        destruct (init_all_stages x) as [[|] si]
    end; cbn in *; intuition congruence.
  - cbn. intuition congruence.
Qed.

(** *** The cached result *)

(** C5.  [RETURN_LATEST_RESULTS] answers with the cached result as it is
    and leaves the service as it was.  After any requests served in
    between, none of them with a successful find, it gives the same
    response again; and when no find has succeeded since construction and
    [init()], the response is the default-constructed one. *)
Theorem return_latest_results_idempotent req res (s : SurfaceDetectionService) :
  Req.action req = RETURN_LATEST_RESULTS ->
  surface_detection_server_callback req res s
  = (true, latest_surface_detection_results_ s, s) /\
  (forall fuel between s' new req2 res2,
     serve_all fuel between s = Returns s' ->
     trace s' = trace s ++ new ->
     ~ In (E_find_surfaces true) new ->
     Req.action req2 = RETURN_LATEST_RESULTS ->
     snd (fst (surface_detection_server_callback req2 res2 s'))
     = snd (fst (surface_detection_server_callback req res s))) /\
  (forall fuel before,
     serve_all fuel before (snd (init SurfaceDetectionService_new)) = Returns s ->
     ~ In (E_find_surfaces true) (trace s) ->
     snd (fst (surface_detection_server_callback req res s)) = Response_new).
Proof.
  intro Hact.
  assert (Hlast : forall req res (s : SurfaceDetectionService),
             Req.action req = RETURN_LATEST_RESULTS ->
             surface_detection_server_callback req res s
             = (true, latest_surface_detection_results_ s, s))
    by (intros ? ? ? Ha; unfold surface_detection_server_callback; now rewrite Ha).
  split; [auto|]. split.
  - intros fuel between s' new req2 res2 Hserve Htrace Hno Hact2.
    rewrite !Hlast by assumption. cbn [fst snd].
    destruct (serve_all_outcome _ _ _ Hserve) as (_ & _ & _ & new0 & Ht & Hlatest).
    rewrite Ht in Htrace; apply app_inv_head in Htrace; subst new0. auto.
  - intros fuel before Hserve Hno.
    rewrite Hlast by assumption. cbn [fst snd].
    destruct (serve_all_outcome _ _ _ Hserve) as (_ & _ & _ & new & Ht & Hlatest).
    destruct (init_outcome SurfaceDetectionService_new) as (_ & Hl0 & Ht0).
    cbv zeta in Hl0, Ht0. rewrite Ht0 in Ht. cbn [trace SurfaceDetectionService_new app] in Ht.
    rewrite Hlatest, Hl0 by (now rewrite <- Ht). reflexivity.
Qed.

(** *** The default parameters *)

(** C7.  [init()] saves the three default groups from the parameters the
    loads left, once the four loads have succeeded; when a load fails it
    assigns none of them and they stay as constructed.  That is the only
    assignment in both cases: after any sequence of requests that have
    been served the defaults are those [init()] left, and
    [GET_DEFAULT_PARAMETERS] answers with them on both services that offer
    it. *)
Theorem defaults_never_mutated (s0 : SurfaceDetectionService) fuel rs s' :
  serve_all fuel rs (snd (init s0)) = Returns s' ->
  let loaded := load_all_parameters (load_publish_flag s0) in
  let s1 := snd (init s0) in
  (fst loaded = true -> defaults_snapshotted_at_startup s0 s1) /\
  (fst loaded = false ->
   default_robot_scan_params__ s1 = default_robot_scan_params__ s0 /\
   default_surf_detection_params_ s1 = default_surf_detection_params_ s0 /\
   default_blending_plan_params_ s1 = default_blending_plan_params_ s0) /\
  (default_robot_scan_params__ s' = default_robot_scan_params__ s1 /\
   default_surf_detection_params_ s' = default_surf_detection_params_ s1 /\
   default_blending_plan_params_ s' = default_blending_plan_params_ s1) /\
  (forall req res,
     Req.action req = GET_DEFAULT_PARAMETERS ->
     let r := snd (fst (surface_detection_server_callback req res s')) in
     Res.robot_scan r = default_robot_scan_params__ s1 /\
     Res.surface_detection r = default_surf_detection_params_ s1) /\
  (forall res,
     surface_blend_parameters_server_callback PARAM_GET_DEFAULT_PARAMETERS res s'
     = (true,
        {| BlendRes.surface_detection := default_surf_detection_params_ s1;
           BlendRes.robot_scan := default_robot_scan_params__ s1;
           BlendRes.blending_plan := default_blending_plan_params_ s1 |},
        s')).
Proof.
  intros Hserve loaded s1; subst loaded s1.
  destruct (serve_all_outcome _ _ _ Hserve) as (Hd1 & Hd2 & Hd3 & _).
  destruct (init_outcome s0) as (Hinit & _). cbv zeta in Hinit.
  split; [|split; [|split; [|split]]].
  - intro Hloaded. now rewrite Hloaded in Hinit.
  - intro Hfailed. now rewrite Hfailed in Hinit.
  - auto.
  - intros req res Hact.
    unfold surface_detection_server_callback. rewrite Hact. cbn. auto.
  - intro res. cbn. now rewrite Hd1, Hd2, Hd3.
Qed.

(** *** Selection by id *)

(** C8.  A [SELECT] or [DESELECT] request with at least one target does
    not return: the loop condition is the size of the target vector, so it
    never turns false.  The loop sets the selection flag once for each
    listed id, in order, and then reads the vector past its end, which is
    undefined behaviour. *)
Theorem select_with_targets_never_returns fuel req (s : SurfaceDetectionService) :
  SelReq.action req = SELECT \/ SelReq.action req = DESELECT ->
  SelReq.select_surfaces req <> [] ->
  let targets := SelReq.select_surfaces req in
  let flag := match SelReq.action req with SELECT => true | _ => false end in
  let s' := fold_left (fun s name => set_selection_flag_call name flag s) targets s in
  (forall r, select_surface_server_callback fuel req s <> Returns r) /\
  ((Z.of_nat (List.length targets) <= INT_MAX)%Z ->
   List.length targets < fuel ->
   select_surface_server_callback fuel req s = Undefined s' /\
   exists new,
     trace s' = trace s ++ new /\
     selection_flag_calls new = map (fun name => (name, flag)) targets).
Proof.
  intros Hact Hne targets flag s'; subst targets flag s'. split.
  - intros r H.
    unfold select_surface_server_callback in H.
    destruct Hact as [Hact | Hact]; rewrite Hact in H;
      match type of H with
      | context [select_loop ?f ?b ?l ?i ?s] =>
          destruct (select_loop f b l i s) as [s1| |] eqn:Hloop; try discriminate;
          apply select_loop_returns in Hloop; destruct Hloop as [Hnil _];
          contradiction
      end.
  - intros Hmax Hfuel. split; [|apply set_selection_flags_trace].
    unfold select_surface_server_callback.
    destruct Hact as [Hact | Hact]; rewrite Hact;
      rewrite (@select_loop_runs_off_the_end _ (SelReq.select_surfaces req)
                 (SelReq.select_surfaces req) [] fuel s eq_refl Hne Hmax Hfuel);
      reflexivity.
Qed.

(** *** One thread alone in [find_surfaces] *)

Lemma find_steps_add a b f (s : SurfaceDetectionService) :
  find_steps (a + b) f s = find_steps b (fst (find_steps a f s)) (snd (find_steps a f s)).
Proof.
  revert f s; induction a as [|a IH]; intros f s; cbn [find_steps Nat.add fst snd].
  - reflexivity.
  - destruct (find_step f s) as [f1 s1]. apply IH.
Qed.

Lemma find_steps_returned n f (s : SurfaceDetectionService) :
  fr_pc f = L231 -> find_steps n f s = (f, s).
Proof.
  intro Hpc; induction n as [|n IH]; cbn [find_steps]; [reflexivity|].
  unfold find_step; rewrite Hpc; exact IH.
Qed.

(** The loop over [meshes], from the turn with [i] meshes done. *)
Lemma find_steps_loop rest done f (s : SurfaceDetectionService) :
  fr_pc f = L206 ->
  fr_meshes f = done ++ rest ->
  fr_i f = List.length done ->
  find_steps (List.length rest + 1) f s
  = ({| fr_pc := L212; fr_surfaces := fr_surfaces f; fr_succeeded := fr_succeeded f;
        fr_meshes := fr_meshes f; fr_i := List.length (fr_meshes f);
        fr_markers_msg := fr_markers_msg f |},
     fold_left (fun s m => add_surface_call m s) rest s).
Proof.
  revert done f s; induction rest as [|m rest IH]; intros done f s Hpc Hmeshes Hi.
  - cbn [List.length Nat.add find_steps fold_left].
    unfold find_step. rewrite Hpc, Hmeshes, Hi, app_nil_r.
    replace (nth_error done (List.length done)) with (@None PolygonMesh)
      by (symmetry; apply nth_error_None; lia).
    unfold goto. now rewrite Hmeshes, Hi, app_nil_r.
  - cbn [List.length Nat.add find_steps fold_left].
    unfold find_step at 1. rewrite Hpc, Hmeshes, Hi.
    rewrite nth_error_app2, Nat.sub_diag by lia. cbn [nth_error].
    rewrite (IH (done ++ [m])); cbn [fr_pc fr_meshes fr_i fr_surfaces fr_succeeded
                                      fr_markers_msg].
    + rewrite ?Hmeshes; reflexivity.
    + reflexivity.
    + rewrite ?Hmeshes, <- app_assoc. reflexivity.
    + rewrite length_app. cbn. lia.
Qed.

(** Run alone from the entry of [find_surfaces], a thread reaches the
    [return] with the result and the service of the sequential
    [find_surfaces]. *)
Lemma find_steps_seq a b f (s : SurfaceDetectionService) f1 s1 :
  find_steps a f s = (f1, s1) -> find_steps (a + b) f s = find_steps b f1 s1.
Proof. intro H. now rewrite find_steps_add, H. Qed.

(** Runs the statement at the head of a chain of [find_step]. *)
Ltac step_find :=
  unfold find_step at 1;
  cbn [goto find_entry fr_pc fr_surfaces fr_succeeded fr_meshes fr_i fr_markers_msg
       fst snd].

Lemma find_steps_complete surfaces (s : SurfaceDetectionService) n :
  find_statements s <= n ->
  let '(ok, out, s') := find_surfaces surfaces s in
  let '(f, s'') := find_steps n (find_entry surfaces) s in
  fr_pc f = L231 /\ fr_succeeded f = ok /\ fr_surfaces f = out /\ s'' = s'.
Proof.
  unfold find_statements.
  destruct (SurfaceDetection_find_surfaces (surface_detection_ s)) as [[|] sd] eqn:Hfind;
    intro Hn.
  - rewrite (find_surfaces_found surfaces s Hfind).
    replace n with (3 + ((List.length (SurfaceDetection_get_meshes sd []) + 1)
                         + (8 + (n - (List.length (SurfaceDetection_get_meshes sd []) + 12)))))
      by lia.
    erewrite (@find_steps_seq 3); cycle 1.
    { cbn [find_steps]. unfold find_step at 1. cbn [find_entry fr_pc]. rewrite Hfind.
      do 2 step_find. rewrite surface_server_call_eq.
      cbn [surface_detection_ emit with_server_and_events set_surface_detection_].
      reflexivity. }
    erewrite (@find_steps_seq (List.length (SurfaceDetection_get_meshes sd []) + 1));
      cycle 1.
    { apply (find_steps_loop _ []); reflexivity. }
    erewrite (@find_steps_seq 8); cycle 1.
    { cbn [find_steps]. do 8 step_find. reflexivity. }
    rewrite find_steps_returned by reflexivity.
    rewrite add_surfaces_eq.
    split; [reflexivity|]. split; [reflexivity|]. split; [reflexivity|].
    apply service_ext; cbn; try reflexivity.
    unfold find_server_events. now rewrite <- !app_assoc.
  - rewrite (find_surfaces_failed surfaces s Hfind).
    replace n with (3 + (n - 3)) by lia.
    erewrite (@find_steps_seq 3); cycle 1.
    { cbn [find_steps]. unfold find_step at 1. cbn [find_entry fr_pc]. rewrite Hfind.
      do 2 step_find. reflexivity. }
    rewrite find_steps_returned by reflexivity.
    repeat split; reflexivity.
Qed.

(** When the detection succeeds, the thread has written the whole cached
    result before it first writes the region cloud. *)
Lemma find_steps_before_cloud surfaces (s : SurfaceDetectionService) sd :
  SurfaceDetection_find_surfaces (surface_detection_ s) = (true, sd) ->
  let '(f, s') := find_steps (statements_before_cloud s) (find_entry surfaces) s in
  fr_pc f = L222 /\
  latest_surface_detection_results_ s'
  = result_of_find sd (robot_scan_ s) surfaces (latest_surface_detection_results_ s) /\
  region_cloud_msg_ s' = region_cloud_msg_ s.
Proof.
  intro Hfind. unfold statements_before_cloud. rewrite Hfind. cbn [snd].
  replace (List.length (SurfaceDetection_get_meshes sd []) + 10)
    with (3 + ((List.length (SurfaceDetection_get_meshes sd []) + 1) + 6)) by lia.
  erewrite (@find_steps_seq 3); cycle 1.
  { cbn [find_steps]. unfold find_step at 1. cbn [find_entry fr_pc]. rewrite Hfind.
    do 2 step_find. rewrite surface_server_call_eq.
    cbn [surface_detection_ emit with_server_and_events set_surface_detection_].
    reflexivity. }
  erewrite (@find_steps_seq (List.length (SurfaceDetection_get_meshes sd []) + 1));
    cycle 1.
  { apply (find_steps_loop _ []); reflexivity. }
  cbn [find_steps]. do 6 step_find.
  rewrite add_surfaces_eq.
  split; [reflexivity|]. split; reflexivity.
Qed.

(** *** Schedules *)

Lemma set_nth_same {A : Type} k (x : A) l :
  nth_error l k = Some x -> set_nth k x l = l.
Proof.
  revert k; induction l as [|y l IH]; intros [|k]; cbn; try discriminate.
  - now intros [= ->].
  - intro H. now rewrite IH.
Qed.

Lemma set_nth_twice {A : Type} k (x y : A) l :
  set_nth k y (set_nth k x l) = set_nth k y l.
Proof.
  revert k; induction l as [|z l IH]; intros [|k]; cbn; try reflexivity.
  now rewrite IH.
Qed.

Lemma nth_error_set_nth {A : Type} k (x y : A) l :
  nth_error l k = Some y -> nth_error (set_nth k x l) k = Some x.
Proof.
  revert k; induction l as [|z l IH]; intros [|k]; cbn; try discriminate; auto.
Qed.

(** A schedule that moves thread [k] only runs the statements of that
    thread in a row. *)
Lemma run_schedule_alone n k (c : Config) f :
  nth_error (workers c) k = Some f ->
  run_schedule (repeat k n) c
  = {| shared := snd (find_steps n f (shared c));
       workers := set_nth k (fst (find_steps n f (shared c))) (workers c) |}.
Proof.
  revert c f; induction n as [|n IH]; intros c f Hk.
  - cbn. rewrite (set_nth_same _ _ Hk). now destruct c.
  - cbn [repeat run_schedule fold_left find_steps].
    change (fold_left (fun c k => worker_step k c) (repeat k n) ?c0)
      with (run_schedule (repeat k n) c0).
    unfold worker_step at 1. rewrite Hk.
    destruct (find_step f (shared c)) as [f1 s1].
    rewrite (IH _ f1) by (cbn; eapply nth_error_set_nth; eassumption).
    cbn [shared workers]. now rewrite set_nth_twice.
Qed.

(** C9, as the code has it.  The source has no mutual-exclusion region,
    so nothing keeps two threads out of [find_surfaces] at once.  What
    holds is the sequential fact: a thread that runs [find_surfaces] with
    no statement of another thread in between reaches the [return] with
    the service in the state of the sequential [find_surfaces], so a
    successful find has then replaced both the cached result and the region
    cloud.  The two are written by separate statements, the cached result
    first: at the statement that resets the region cloud, the cached result
    is already the new one and the region cloud still the old one. *)
Theorem find_alone_replaces_cache_and_cloud k (c : Config) surfaces n :
  nth_error (workers c) k = Some (find_entry surfaces) ->
  find_statements (shared c) <= n ->
  let s := shared c in
  let c' := run_schedule (repeat k n) c in
  shared c' = snd (find_surfaces surfaces s) /\
  (exists f, nth_error (workers c') k = Some f /\ in_flight f = false /\
             fr_succeeded f = fst (fst (find_surfaces surfaces s)) /\
             fr_surfaces f = snd (fst (find_surfaces surfaces s))) /\
  (forall sd,
     SurfaceDetection_find_surfaces (surface_detection_ s) = (true, sd) ->
     observe c'
     = (result_of_find sd (robot_scan_ s) surfaces (latest_surface_detection_results_ s),
        SurfaceDetection_get_region_colored_cloud sd PointCloud2_new) /\
     observe (run_schedule (repeat k (statements_before_cloud s)) c)
     = (result_of_find sd (robot_scan_ s) surfaces (latest_surface_detection_results_ s),
        region_cloud_msg_ s)).
Proof.
  intros Hk Hn s c'; subst s c'.
  rewrite (run_schedule_alone _ _ _ Hk).
  pose proof (find_steps_complete surfaces (shared c) Hn) as Hrun.
  destruct (find_surfaces surfaces (shared c)) as [[ok out] s'] eqn:Hbig.
  destruct (find_steps n (find_entry surfaces) (shared c)) as [f s''] eqn:Hsmall.
  destruct Hrun as (Hpc & Hok & Hout & ->).
  cbn [shared workers fst snd].
  split; [reflexivity|]. split.
  - exists f. split; [eapply nth_error_set_nth; eassumption|].
    unfold in_flight. rewrite Hpc. auto.
  - intros sd Hfind.
    rewrite (find_surfaces_found surfaces (shared c) Hfind) in Hbig.
    injection Hbig as _ _ <-.
    split; [reflexivity|].
    rewrite (run_schedule_alone _ _ _ Hk).
    pose proof (find_steps_before_cloud surfaces (shared c) Hfind) as Hmid.
    destruct (find_steps (statements_before_cloud (shared c)) (find_entry surfaces)
                (shared c)) as [fm sm].
    destruct Hmid as (_ & Hlatest & Hcloud).
    unfold observe. cbn [shared snd]. now rewrite Hlatest, Hcloud.
Qed.

(** ** Further properties of the service *)

(** *** Loading the blending parameters *)

(** A chain of [getParam] that returns true has found every key. *)
Lemma getParam_chain_true ns keys params :
  fst (getParam_chain ns keys params) = true ->
  forall key assign, In (key, assign) keys -> getParam_double ns key <> None.
Proof.
  revert params; induction keys as [|[k a] keys IH]; intros params Hok key assign Hin.
  - destruct Hin.
  - cbn [getParam_chain] in Hok.
    destruct (getParam_double ns k) as [v|] eqn:Hk; [|discriminate].
    destruct Hin as [[= <- <-] | Hin]; [congruence | eauto].
Qed.

(** A chain stops at the first key that is not set, with the members of
    the keys before it assigned and nothing else done. *)
Lemma getParam_chain_stops ns value before key assign after params :
  (forall k a, In (k, a) before -> getParam_double ns k = Some (value k)) ->
  getParam_double ns key = None ->
  getParam_chain ns (before ++ (key, assign) :: after) params
  = (false, fold_left (fun p ka => snd ka (value (fst ka)) p) before params).
Proof.
  intros Hset Hkey. revert params.
  induction before as [|[k a] before IH]; intro params; cbn [app getParam_chain fold_left].
  - now rewrite Hkey.
  - cbn [fst snd]. rewrite (Hset k a) by now left.
    apply IH. intros k' a' Hin. apply (Hset k' a'). now right.
Qed.

(** A chain whose keys are all set assigns every member. *)
Lemma getParam_chain_all ns value keys params :
  (forall k a, In (k, a) keys -> getParam_double ns k = Some (value k)) ->
  getParam_chain ns keys params
  = (true, fold_left (fun p ka => snd ka (value (fst ka)) p) keys params).
Proof.
  revert params; induction keys as [|[k a] keys IH]; intros params Hset;
    cbn [getParam_chain fold_left]; [reflexivity|].
  cbn [fst snd]. rewrite (Hset k a) by now left.
  apply IH. intros k' a' Hin. apply (Hset k' a'). now right.
Qed.

(** Keys that are set have a value. *)
Lemma getParam_values ns (keys : list string) :
  (forall key, In key keys -> getParam_double ns key <> None) ->
  exists value, forall key, In key keys -> getParam_double ns key = Some (value key).
Proof.
  intro Hset.
  exists (fun key => match getParam_double ns key with
                     | Some v => v
                     | None => double_zero
                     end).
  intros key Hin. specialize (Hset key Hin).
  destruct (getParam_double ns key); congruence.
Qed.

(** X1.  [load_blending_parameters] returns true exactly when the nine
    keys are all set on the parameter server, and then every member of
    [params] holds the value of its key. *)
Theorem load_blending_parameters_complete ns params :
  let r := load_blending_parameters ns params in
  (fst r = true <->
   forall key, In key (map fst blending_plan_fields) -> getParam_double ns key <> None) /\
  (fst r = true ->
   forall key member, In (key, member) blending_plan_fields ->
                      getParam_double ns key = Some (member (snd r))).
Proof.
  cbv zeta. unfold load_blending_parameters.
  assert (Htrue : fst (getParam_chain ns blending_plan_keys params) = true ->
                  forall key, In key (map fst blending_plan_fields) ->
                              getParam_double ns key <> None).
  { intros Hok key Hin.
    change (map fst blending_plan_fields) with (map fst blending_plan_keys) in Hin.
    apply in_map_iff in Hin. destruct Hin as ([k a] & <- & Hin).
    exact (getParam_chain_true _ _ _ Hok _ _ Hin). }
  assert (Hall : (forall key, In key (map fst blending_plan_fields) ->
                              getParam_double ns key <> None) ->
                 exists value,
                   (forall key, In key (map fst blending_plan_fields) ->
                                getParam_double ns key = Some (value key)) /\
                   getParam_chain ns blending_plan_keys params
                   = (true, fold_left (fun p ka => snd ka (value (fst ka)) p)
                                      blending_plan_keys params)).
  { intro Hset. destruct (getParam_values ns _ Hset) as (value & Hvalue).
    exists value. split; [exact Hvalue|].
    apply getParam_chain_all. intros k a Hin. apply Hvalue.
    change (map fst blending_plan_fields) with (map fst blending_plan_keys).
    apply in_map_iff. now exists (k, a). }
  split.
  - split; [exact Htrue|].
    intro Hset. destruct (Hall Hset) as (value & _ & ->). reflexivity.
  - intros Hok key member Hin.
    destruct (Hall (Htrue Hok)) as (value & Hvalue & ->). cbn [snd].
    rewrite (Hvalue key) by (apply in_map_iff; now exists (key, member)).
    f_equal.
    unfold blending_plan_fields in Hin. cbn [In] in Hin.
    repeat (destruct Hin as [Heq | Hin];
            [ injection Heq as <- <-; reflexivity |]).
    destruct Hin.
Qed.

(** Takes the split [fields = before ++ (key, member) :: after] of a
    concrete table apart, one case per position of [key]. *)
Ltac peel before H tac :=
  let k := fresh "k" in
  let m := fresh "m" in
  let b := fresh "before" in
  destruct before as [|[k m] b]; cbn [app] in H;
  [ first [ discriminate H | injection H as ? ? ?; subst; tac ]
  | first [ discriminate H | injection H as ? ? H; subst k m; peel b H tac ] ].

(** Settles one position of the first key that is not set. *)
Ltac first_missing_case ns params Hset Hkey :=
  idtac;
  match type of Hset with
  | forall k m, In (k, m) ?pre -> _ =>
      let i := eval cbv in (List.length pre) in
      let value := fresh "value" in
      let Hvalue := fresh "Hvalue" in
      let Hstop := fresh "Hstop" in
      destruct (getParam_values ns (map fst pre)) as (value & Hvalue);
      [ let Hin := fresh "Hin" in
        intros ? Hin; apply in_map_iff in Hin;
        destruct Hin as ([? ?] & <- & Hin); exact (Hset _ _ Hin)
      | assert (Hstop : getParam_chain ns blending_plan_keys params
                        = (false,
                           fold_left (fun p ka => snd ka (value (fst ka)) p)
                                     (firstn i blending_plan_keys) params))
          by (apply (getParam_chain_stops ns value (firstn i blending_plan_keys)
                       _ _ (skipn (S i) blending_plan_keys));
              [ let Hin := fresh "Hin" in
                intros ? ? Hin; apply Hvalue; exact (in_map fst _ _ Hin)
              | exact Hkey ]);
        rewrite Hstop; cbn [fst snd];
        split; [reflexivity|]; split;
        [ let Hin := fresh "Hin" in
          let Heq := fresh "Heq" in
          intros k0 m0 Hin;
          rewrite (Hvalue k0) by (exact (in_map fst _ _ Hin));
          f_equal; cbn [In] in Hin;
          repeat (destruct Hin as [Heq | Hin];
                  [ injection Heq as <- <-; reflexivity |]);
          destruct Hin
        | let Hin := fresh "Hin" in
          let Heq := fresh "Heq" in
          intros k0 m0 Hin; cbn [In] in Hin;
          repeat (destruct Hin as [Heq | Hin];
                  [ injection Heq as <- <-; reflexivity |]);
          destruct Hin ] ]
  end.

(** X2.  When a blending key is not set, [load_blending_parameters]
    returns false; the members of the keys before the first key that is
    not set have been overwritten with the values of their keys, and the
    member of that key and of every key after it is as it was. *)
Theorem load_blending_parameters_first_missing ns params before key member after :
  blending_plan_fields = before ++ (key, member) :: after ->
  (forall k m, In (k, m) before -> getParam_double ns k <> None) ->
  getParam_double ns key = None ->
  let r := load_blending_parameters ns params in
  fst r = false /\
  (forall k m, In (k, m) before -> getParam_double ns k = Some (m (snd r))) /\
  (forall k m, In (k, m) ((key, member) :: after) -> m (snd r) = m params).
Proof.
  intros Hsplit Hset Hkey. cbv zeta. unfold load_blending_parameters.
  unfold blending_plan_fields in Hsplit.
  peel before Hsplit ltac:(first_missing_case ns params Hset Hkey).
Qed.

(** *** Initialization and [main] *)

Lemma load_all_parameters_failed (s : SurfaceDetectionService) :
  fst (SurfaceDetection_load_parameters "~/surface_detection" (surface_detection_ s))
  = false ->
  load_all_parameters s
  = (false,
     set_surface_detection_
       (snd (SurfaceDetection_load_parameters "~/surface_detection"
               (surface_detection_ s))) s).
Proof.
  unfold load_all_parameters.
  destruct (SurfaceDetection_load_parameters _ _) as [[|] sd]; cbn [fst snd negb];
    [discriminate | reflexivity].
Qed.

Lemma init_returns_true (s : SurfaceDetectionService) : fst (init s) = true.
Proof.
  unfold init.
  destruct (load_all_parameters (load_publish_flag s)) as [[|] sl]; [|reflexivity].
  destruct (init_all_stages _) as [[|] si]; reflexivity.
Qed.

(** What [init] does after a failed load: it registers the selection
    callback and nothing else. *)
Lemma init_after_failed_load (s : SurfaceDetectionService) sl :
  load_all_parameters (load_publish_flag s) = (false, sl) ->
  snd (init s)
  = set_surface_server_
      (InteractiveSurfaceServer_add_selection_callback (surface_server_ sl)) sl.
Proof. intro Hload. unfold init. now rewrite Hload. Qed.

(** X3.  [init()] returns true whatever the loads do, so [main] always
    goes on to [run()].  When a load fails on the freshly constructed
    service, the defaults are never saved: after any requests that have
    been served, the three default groups are still default-constructed. *)
Theorem failed_load_leaves_constructed_defaults ticks fuel rs s' :
  fst (load_all_parameters (load_publish_flag SurfaceDetectionService_new)) = false ->
  serve_all fuel rs (snd (init SurfaceDetectionService_new)) = Returns s' ->
  fst (init SurfaceDetectionService_new) = true /\
  main ticks = run ticks (snd (init SurfaceDetectionService_new)) /\
  default_robot_scan_params__ s' = RobotScanParameters_new /\
  default_surf_detection_params_ s' = SurfaceDetectionParameters_new /\
  default_blending_plan_params_ s' = BlendingPlanParameters_new.
Proof.
  intros Hload Hserve.
  pose proof (init_returns_true SurfaceDetectionService_new) as Htrue.
  split; [exact Htrue|]. split.
  - unfold main. destruct (init SurfaceDetectionService_new) as [ok s1].
    cbn [fst snd] in *. now rewrite Htrue.
  - destruct (serve_all_outcome _ _ _ Hserve) as (-> & -> & -> & _).
    destruct (init_outcome SurfaceDetectionService_new) as (Hinit & _).
    cbv zeta in Hinit. rewrite Hload in Hinit. exact Hinit.
Qed.

(** X4.  The loads of [init()] are joined by [&&]: when the detection
    fails to load its parameters, the scanner, the blending parameters and
    the selection server are not asked to load theirs.  And when any load
    fails, no stage is initialised and the scan callback is not
    registered: [init()] only registers the selection callback on the
    server the loads left. *)
Theorem init_stops_at_failed_load (s : SurfaceDetectionService) :
  let loaded := load_all_parameters (load_publish_flag s) in
  let s' := snd (init s) in
  (fst (SurfaceDetection_load_parameters "~/surface_detection" (surface_detection_ s))
   = false ->
   robot_scan_ s' = robot_scan_ s /\
   blending_plan_params_ s' = blending_plan_params_ s /\
   surface_server_ s'
   = InteractiveSurfaceServer_add_selection_callback (surface_server_ s)) /\
  (fst loaded = false ->
   robot_scan_ s' = robot_scan_ (snd loaded) /\
   surface_detection_ s' = surface_detection_ (snd loaded) /\
   surface_server_ s'
   = InteractiveSurfaceServer_add_selection_callback (surface_server_ (snd loaded))).
Proof.
  cbv zeta. split.
  - intro Hfail.
    assert (Hflag : surface_detection_ (load_publish_flag s) = surface_detection_ s
                    /\ robot_scan_ (load_publish_flag s) = robot_scan_ s
                    /\ blending_plan_params_ (load_publish_flag s)
                       = blending_plan_params_ s
                    /\ surface_server_ (load_publish_flag s) = surface_server_ s)
      by (unfold load_publish_flag; destruct (getParam_bool _ _); cbn; auto).
    destruct Hflag as (Hsd & Hrs & Hbp & Hsrv).
    rewrite <- Hsd in Hfail.
    rewrite (init_after_failed_load s (load_all_parameters_failed _ Hfail)).
    cbn. rewrite Hrs, Hbp, Hsrv. auto.
  - intro Hfail.
    destruct (load_all_parameters (load_publish_flag s)) as [ok sl] eqn:Hload.
    cbn [fst snd] in *. subst ok.
    rewrite (init_after_failed_load s Hload). cbn. auto.
Qed.

(** *** The periodic publisher *)

Lemma run_loop_eq ticks (s : SurfaceDetectionService) :
  run_loop ticks s
  = with_server_and_events (surface_server_ s)
      (if (publish_region_point_cloud_ s && negb (data_empty (region_cloud_msg_ s)))%bool
       then repeat (E_publish_cloud REGION_POINT_CLOUD_TOPIC (region_cloud_msg_ s)) ticks
       else []) s.
Proof.
  revert s; induction ticks as [|ticks IH]; intro s; cbn [run_loop repeat].
  - destruct (_ && _)%bool; now rewrite with_server_and_events_nil.
  - destruct (publish_region_point_cloud_ s) eqn:Hflag; cbn [andb];
      [|now rewrite with_server_and_events_nil].
    rewrite IH. unfold run_tick.
    destruct (data_empty (region_cloud_msg_ s)) eqn:Hempty; cbn [negb].
    + now rewrite Hflag, Hempty.
    + cbn [emit publish_region_point_cloud_ region_cloud_msg_ surface_server_].
      rewrite Hflag, Hempty. cbn [andb negb].
      unfold with_server_and_events, emit; cbn.
      now rewrite <- app_assoc.
Qed.

(** X5.  The loop of [run()] changes no member of the service.  While the
    publish flag is set and the region cloud holds data, every turn
    publishes that same cloud on the region-cloud topic; with the flag
    unset, or with an empty cloud, it publishes nothing, however long it
    runs. *)
Theorem publisher_loop ticks (s : SurfaceDetectionService) :
  run_loop ticks s
  = with_server_and_events (surface_server_ s)
      (if (publish_region_point_cloud_ s && negb (data_empty (region_cloud_msg_ s)))%bool
       then repeat (E_publish_cloud REGION_POINT_CLOUD_TOPIC (region_cloud_msg_ s)) ticks
       else []) s.
Proof. exact (run_loop_eq ticks s). Qed.

(** X6.  After a detection callback whose find failed, the publisher loop
    publishes nothing (a default-constructed cloud holding no data); after
    one whose find succeeded, with the flag set and a cloud that holds
    data, every turn publishes the region-colored cloud of that
    detection. *)
Theorem publisher_after_find req res (s : SurfaceDetectionService) ok res' s' new ticks :
  data_empty PointCloud2_new = true ->
  surface_detection_server_callback req res s = (ok, res', s') ->
  trace s' = trace s ++ new ->
  (In (E_find_surfaces false) new -> run_loop ticks s' = s') /\
  (In (E_find_surfaces true) new ->
   publish_region_point_cloud_ s = true ->
   data_empty (region_cloud_msg_ s') = false ->
   trace (run_loop ticks s')
   = trace s'
     ++ repeat (E_publish_cloud REGION_POINT_CLOUD_TOPIC
                  (SurfaceDetection_get_region_colored_cloud (surface_detection_ s')
                     PointCloud2_new)) ticks).
Proof.
  intros Hnew H Htrace.
  destruct (callback_outcomes _ _ _ H) as (new0 & Ht & Hcases).
  rewrite Ht in Htrace; apply app_inv_head in Htrace; subst new0.
  destruct (callback_defaults _ _ _ H) as (_ & _ & _ & _ & Hflag).
  rewrite run_loop_eq.
  destruct Hcases as [(Hnofind & _)
                     | [(_ & _ & Hnofound & _ & _ & Hcloud & _)
                       | (_ & _ & Hnofail & _ & _ & Hcloud & _)]].
  - split; intro Hin; now apply Hnofind in Hin.
  - split; [|contradiction]. intros _.
    rewrite Hcloud, Hnew, andb_false_r. apply with_server_and_events_nil.
  - split; [contradiction|]. intros _ Hset Hdata.
    rewrite Hflag, Hset, Hdata, Hcloud. reflexivity.
Qed.

(** *** The calls of the detection callback *)

Lemma find_server_events_kinds meshes srv :
  forallb surface_set_event (find_server_events meshes srv) = true.
Proof.
  assert (Hpub : forall during, forallb surface_set_event (selection_publications during)
                                = true)
    by (induction during; cbn; auto).
  unfold find_server_events. rewrite forallb_app, Hpub. cbn [andb forallb surface_set_event].
  generalize (fst (InteractiveSurfaceServer_remove_all_surfaces srv)). clear srv.
  induction meshes as [|m meshes IH]; intro srv; cbn [add_surfaces_events];
    [reflexivity|].
  rewrite forallb_app, Hpub. cbn [andb forallb surface_set_event]. apply IH.
Qed.

(** Brings [H : trace s' = trace s ++ new] to an equation on [new]. *)
Ltac new_events H new :=
  cbn in H; rewrite <- ?app_assoc in H;
  first [ apply app_inv_head in H
        | match type of H with
          | ?t = ?t ++ _ => rewrite <- (app_nil_r t) in H at 1; apply app_inv_head in H
          end ];
  subst new.

(** Opens the detection callback in [H] into its cases: one per action
    and, below, per result of the scan and of the find. *)
Ltac callback_cases H :=
  unfold surface_detection_server_callback in H;
  destruct (Req.action _) eqn:?;
  rewrite ?resolve_robot_scan_params_eq, ?resolve_surface_detection_params_eq in H;
  try scan_cases H;
  try find_cases H;
  injection H as <- <- <-.

(** X7.  The stage calls of the detection callback, in order, for each
    action: none for the two parameter queries, the cached results and an
    unknown action; the preview alone for [PUBLISH_SCAN_PATH]; for a
    scan-bearing action the preview, [clear_results], one [add_cloud] per
    cloud the scan delivers and the scan, followed if the scan reached a
    pose by the calls of a find; for a find the call of the detection
    and, if it succeeded, updates of the surface set.  No action sets a
    selection flag, selects or hides all, or publishes a cloud. *)
Theorem callback_call_sequence req res (s : SurfaceDetectionService) ok res' s' new :
  surface_detection_server_callback req res s = (ok, res', s') ->
  trace s' = trace s ++ new ->
  let find_calls calls :=
    exists found updates,
      calls = E_find_surfaces found :: updates /\
      forallb surface_set_event updates = true /\
      (found = false -> updates = []) in
  match Req.action req with
  | GET_CURRENT_PARAMETERS | GET_DEFAULT_PARAMETERS | RETURN_LATEST_RESULTS
  | OTHER_ACTION => new = []
  | PUBLISH_SCAN_PATH => new = [E_publish_scan_poses ROBOT_SCAN_PATH_PREVIEW_TOPIC]
  | FIND_ONLY | FIND_AND_RETURN => find_calls new
  | SCAN_AND_FIND_ONLY | SCAN_FIND_AND_RETURN =>
      exists clouds n calls,
        new = E_publish_scan_poses ROBOT_SCAN_PATH_PREVIEW_TOPIC :: E_clear_results
              :: map E_add_cloud clouds ++ E_scan false n :: calls /\
        (if (n >? 0)%Z then find_calls calls else calls = [])
  end.
Proof.
  intros H Htrace find_calls; subst find_calls.
  callback_cases H; new_events Htrace new; try reflexivity.
  all: try match goal with
       | |- exists clouds n calls,
              (_ :: _ :: map _ ?c ++ [E_scan false ?k]) ++ ?rest = _ /\ _ =>
           exists c, k, rest; split; [cbn [app]; now rewrite <- app_assoc|]
       | |- exists clouds n calls, _ :: _ :: map _ ?c ++ [E_scan false ?k] = _ /\ _ =>
           exists c, k, []; split; [reflexivity|]
       end.
  all: try match goal with
       | |- if (?k >? 0)%Z then _ else _ => destruct (Z.gtb_spec k 0); try lia
       end.
  all: try reflexivity.
  all: do 2 eexists; split; [reflexivity|]; split;
       [ first [ apply find_server_events_kinds | reflexivity ]
       | first [ discriminate | reflexivity ] ].
Qed.

(** X8.  A scan that reaches no pose, or returns a negative count, fails
    the action.  By then the detection has been through [clear_results]
    and holds the clouds the scan delivered, nothing else was called, and
    the cached result, the region cloud and the selection server are as
    they were. *)
Theorem failed_scan_state req res (s : SurfaceDetectionService) ok res' s' new n :
  surface_detection_server_callback req res s = (ok, res', s') ->
  trace s' = trace s ++ new ->
  In (E_scan false n) new ->
  (n <= 0)%Z ->
  Res.surfaces_found res' = false /\
  markers (Res.surfaces res') = [] /\
  latest_surface_detection_results_ s' = latest_surface_detection_results_ s /\
  region_cloud_msg_ s' = region_cloud_msg_ s /\
  surface_server_ s' = surface_server_ s /\
  exists clouds,
    new = E_publish_scan_poses ROBOT_SCAN_PATH_PREVIEW_TOPIC :: E_clear_results
          :: map E_add_cloud clouds ++ [E_scan false n] /\
    surface_detection_ s'
    = fold_left (fun sd c => SurfaceDetection_add_cloud c sd) clouds
        (SurfaceDetection_clear_results
           (surface_detection_ (resolve_surface_detection_params req s))).
Proof.
  intros H Htrace Hin Hn.
  rewrite resolve_surface_detection_params_eq.
  callback_cases H; new_events Htrace new; in_cases; try lia.
  all: cbn; repeat split; eexists; split; reflexivity.
Qed.

(** X9.  The detection callback returns true for every request.  The
    parameter queries, [RETURN_LATEST_RESULTS] and an unknown action leave
    the service exactly as it was; and the members [robot_scan],
    [surface_detection] and [robot_scan_poses] of the response are written
    by the parameter queries and [RETURN_LATEST_RESULTS] only: after any
    other action they are what the caller passed in. *)
Theorem callback_returns_true req res (s : SurfaceDetectionService) ok res' s' :
  surface_detection_server_callback req res s = (ok, res', s') ->
  ok = true /\
  (touches_scan (Req.action req) = false ->
   touches_detection (Req.action req) = false -> s' = s) /\
  (Req.action req <> GET_CURRENT_PARAMETERS ->
   Req.action req <> GET_DEFAULT_PARAMETERS ->
   Req.action req <> RETURN_LATEST_RESULTS ->
   Res.robot_scan res' = Res.robot_scan res /\
   Res.surface_detection res' = Res.surface_detection res /\
   Res.robot_scan_poses res' = Res.robot_scan_poses res).
Proof.
  intro H. callback_cases H.
  all: split; [reflexivity|]; split;
       [ intros Hs Hd; first [ reflexivity | discriminate Hs | discriminate Hd ]
       | intros H1 H2 H3; first [ now contradiction H1 | now contradiction H2
                                | now contradiction H3 | cbn; auto ] ].
Qed.

(** X10.  What [GET_CURRENT_PARAMETERS] answers after an action, on both
    services: for a group the action touches, the default when the action
    asked for defaults and the value of its request otherwise; for the
    other groups what was current before.  The stage methods are assumed
    not to write [params_]. *)
Theorem current_parameters_round_trip (Hk : StagesKeepParams) req res
    (s : SurfaceDetectionService) ok res' s' req2 res2 res3 :
  surface_detection_server_callback req res s = (ok, res', s') ->
  Req.action req2 = GET_CURRENT_PARAMETERS ->
  let scan_params :=
    if touches_scan (Req.action req)
    then if Req.use_default_parameters req
         then default_robot_scan_params__ s else Req.robot_scan req
    else scan.params_ (robot_scan_ s) in
  let detection_params :=
    if touches_detection (Req.action req)
    then if Req.use_default_parameters req
         then default_surf_detection_params_ s else Req.surface_detection req
    else detection.params_ (surface_detection_ s) in
  let answer := snd (fst (surface_detection_server_callback req2 res2 s')) in
  Res.robot_scan answer = scan_params /\
  Res.surface_detection answer = detection_params /\
  surface_blend_parameters_server_callback PARAM_GET_CURRENT_PARAMETERS res3 s'
  = (true,
     {| BlendRes.surface_detection := detection_params;
        BlendRes.robot_scan := scan_params;
        BlendRes.blending_plan := blending_plan_params_ s |},
     s').
Proof.
  intros H Hact2 scan_params detection_params answer.
  subst scan_params detection_params answer.
  destruct (callback_params Hk _ _ _ H) as (Hscan & Hdet & Hblend).
  assert (Hquery : surface_detection_server_callback req2 res2 s'
                   = (true,
                      Res_set_surface_detection (detection.params_ (surface_detection_ s'))
                        (Res_set_robot_scan (scan.params_ (robot_scan_ s'))
                           (Res_set_surfaces {| markers := [] |}
                              (Res_set_surfaces_found false res2))),
                      s'))
    by (unfold surface_detection_server_callback; now rewrite Hact2).
  rewrite Hquery. cbn. now rewrite Hscan, Hdet, Hblend.
Qed.

(** X11.  A find that fails leaves the surface set of the selection
    server alone: the server is as it was, and the callback has made no
    [remove_all_surfaces] or [add_surface] call and published no selection
    message.  (The region cloud is emptied all the same.) *)
Theorem failed_find_keeps_surface_set req res (s : SurfaceDetectionService)
    ok res' s' new :
  surface_detection_server_callback req res s = (ok, res', s') ->
  trace s' = trace s ++ new ->
  In (E_find_surfaces false) new ->
  surface_server_ s' = surface_server_ s /\
  surface_set_calls new = [] /\
  (forall topic msg, ~ In (E_publish topic msg) new).
Proof.
  intros H Htrace Hin.
  callback_cases H; new_events Htrace new; in_cases.
  all: split; [reflexivity|]; split;
       [ rewrite ?surface_set_calls_app;
         change (surface_set_calls (E_publish_scan_poses ?t :: E_clear_results :: ?l))
           with (surface_set_calls l);
         rewrite ?surface_set_calls_app, ?surface_set_calls_add_cloud; reflexivity
       | intros topic msg Hpub; in_cases ].
Qed.

(** *** What the requests keep *)

Lemma serve_keeps fuel r (s s' : SurfaceDetectionService) :
  serve fuel r s = Returns s' ->
  blending_plan_params_ s' = blending_plan_params_ s /\
  publish_region_point_cloud_ s' = publish_region_point_cloud_ s /\
  (latest_surface_detection_results_ s' = latest_surface_detection_results_ s \/
   Res.surfaces_found (latest_surface_detection_results_ s') = true /\
   Res.robot_scan (latest_surface_detection_results_ s')
   = Res.robot_scan (latest_surface_detection_results_ s)).
Proof.
  destruct r as [req | req | a]; cbn [serve].
  - unfold handle.
    destruct (surface_detection_server_callback req Response_new s)
      as [[ok res'] s1] eqn:H.
    cbn [snd]. intros [= <-].
    destruct (callback_defaults _ _ _ H) as (_ & _ & _ & -> & ->).
    repeat split.
    destruct (callback_outcomes _ _ _ H) as (new & _ & Hcases).
    destruct Hcases as [(_ & _ & Hlatest & _) | [(_ & _ & _ & _ & Hlatest & _)
                                                | (_ & _ & _ & _ & Hlatest & _)]];
      [now left | now left | right; rewrite Hlatest; split; reflexivity].
  - destruct (select_surface_server_callback fuel req s) as [[ok s1]| |] eqn:H;
      try discriminate.
    intros [= <-].
    destruct (select_callback_returns _ _ _ H) as (srv & new & -> & _).
    cbn. auto.
  - destruct a; cbn; intros [= <-]; auto.
Qed.

Lemma serve_all_keeps fuel rs (s s' : SurfaceDetectionService) :
  serve_all fuel rs s = Returns s' ->
  blending_plan_params_ s' = blending_plan_params_ s /\
  publish_region_point_cloud_ s' = publish_region_point_cloud_ s /\
  (latest_surface_detection_results_ s' = latest_surface_detection_results_ s \/
   Res.surfaces_found (latest_surface_detection_results_ s') = true /\
   Res.robot_scan (latest_surface_detection_results_ s')
   = Res.robot_scan (latest_surface_detection_results_ s)).
Proof.
  revert s; induction rs as [|r rs IH]; intro s; cbn [serve_all].
  - intros [= <-]. auto.
  - destruct (serve fuel r s) as [s1| |] eqn:H; try discriminate.
    intro Hrest.
    destruct (serve_keeps _ _ _ H) as (Hb1 & Hf1 & Hl1).
    destruct (IH _ Hrest) as (Hb2 & Hf2 & Hl2).
    split; [congruence|]. split; [congruence|].
    destruct Hl2 as [Hl2 | (Hfound & Hscan)].
    + rewrite Hl2. exact Hl1.
    + right. split; [exact Hfound|].
      rewrite Hscan. destruct Hl1 as [-> | (_ & ->)]; reflexivity.
Qed.

(** X12.  The cached result, from construction and [init()] on and
    through any requests that have been served: either it is still the
    default-constructed response, or it has [surfaces_found = true]; and
    its member [robot_scan] is never written, so it is default-constructed
    in both cases. *)
Theorem cached_result_invariant fuel rs (s : SurfaceDetectionService) :
  serve_all fuel rs (snd (init SurfaceDetectionService_new)) = Returns s ->
  Res.robot_scan (latest_surface_detection_results_ s) = RobotScanParameters_new /\
  (latest_surface_detection_results_ s = Response_new \/
   Res.surfaces_found (latest_surface_detection_results_ s) = true).
Proof.
  intro Hserve.
  destruct (serve_all_keeps _ _ _ Hserve) as (_ & _ & Hlatest).
  destruct (init_outcome SurfaceDetectionService_new) as (_ & Hinit & _).
  cbv zeta in Hinit. rewrite Hinit in Hlatest.
  cbn [latest_surface_detection_results_ SurfaceDetectionService_new] in Hlatest.
  destruct Hlatest as [-> | (Hfound & ->)]; split; auto.
Qed.

Lemma init_blending_plan (s : SurfaceDetectionService) :
  blending_plan_params_ (snd (init s))
  = blending_plan_params_ (snd (load_all_parameters (load_publish_flag s))).
Proof.
  unfold init.
  destruct (load_all_parameters (load_publish_flag s)) as [[|] sl]; cbn [snd];
    [|reflexivity].
  match goal with
  | |- context [init_all_stages ?x] =>
      assert (Hstages : blending_plan_params_ (snd (init_all_stages x))
                        = blending_plan_params_ x)
        by (unfold init_all_stages; stage_results; reflexivity);
      destruct (init_all_stages x) as [[|] si]
  end; cbn in *; exact Hstages.
Qed.

(** X13.  No request writes the current blending-plan parameters: after
    [init()] and any requests that have been served they are the ones the
    loads left, and when the loads succeeded they equal the default
    blending-plan parameters, so the two queries of the blending-parameters
    service answer with the same blending plan. *)
Theorem blending_plan_never_changes (s0 : SurfaceDetectionService) fuel rs s' :
  serve_all fuel rs (snd (init s0)) = Returns s' ->
  let loaded := load_all_parameters (load_publish_flag s0) in
  blending_plan_params_ s' = blending_plan_params_ (snd loaded) /\
  (fst loaded = true ->
   forall res1 res2,
     BlendRes.blending_plan
       (snd (fst (surface_blend_parameters_server_callback
                    PARAM_GET_CURRENT_PARAMETERS res1 s')))
     = BlendRes.blending_plan
         (snd (fst (surface_blend_parameters_server_callback
                      PARAM_GET_DEFAULT_PARAMETERS res2 s')))).
Proof.
  intros Hserve loaded; subst loaded.
  destruct (serve_all_keeps _ _ _ Hserve) as (Hblend & _).
  destruct (serve_all_outcome _ _ _ Hserve) as (_ & _ & Hdefault & _).
  rewrite init_blending_plan in Hblend.
  split; [exact Hblend|].
  intros Hloaded res1 res2. cbn.
  destruct (init_outcome s0) as (Hinit & _). cbv zeta in Hinit.
  rewrite Hloaded in Hinit. destruct Hinit as (_ & _ & Hsaved).
  now rewrite Hblend, Hdefault, Hsaved.
Qed.

(** *** Selection requests *)

(** X14.  [SELECT] and [DESELECT] with an empty list of targets return at
    once: no call is made on the selection server and the service is as it
    was. *)
Theorem select_nothing fuel req (s : SurfaceDetectionService) :
  0 < fuel ->
  SelReq.action req = SELECT \/ SelReq.action req = DESELECT ->
  SelReq.select_surfaces req = [] ->
  select_surface_server_callback fuel req s = Returns (true, s).
Proof.
  intros Hfuel Hact Hnil. unfold select_surface_server_callback.
  destruct fuel as [|fuel]; [lia|].
  destruct Hact as [-> | ->]; rewrite Hnil; reflexivity.
Qed.

(** X15.  A selection request that returns has returned true and has
    written no member of the service but the selection server: scanner,
    detection, current and default parameters, cached result, publish flag
    and region cloud are as they were, and every event it added comes from
    a call on the selection server. *)
Theorem selection_request_frame fuel req (s : SurfaceDetectionService) ok s' :
  select_surface_server_callback fuel req s = Returns (ok, s') ->
  ok = true /\
  robot_scan_ s' = robot_scan_ s /\
  surface_detection_ s' = surface_detection_ s /\
  default_robot_scan_params__ s' = default_robot_scan_params__ s /\
  default_surf_detection_params_ s' = default_surf_detection_params_ s /\
  default_blending_plan_params_ s' = default_blending_plan_params_ s /\
  blending_plan_params_ s' = blending_plan_params_ s /\
  latest_surface_detection_results_ s' = latest_surface_detection_results_ s /\
  publish_region_point_cloud_ s' = publish_region_point_cloud_ s /\
  region_cloud_msg_ s' = region_cloud_msg_ s /\
  exists new,
    trace s' = trace s ++ new /\
    forall e, In e new -> from_surface_server e = true.
Proof.
  intro H.
  assert (Hok : ok = true).
  { unfold select_surface_server_callback in H.
    destruct (SelReq.action req);
      repeat match type of H with
      | context [select_loop ?f ?b ?l ?i ?st] => destruct (select_loop f b l i st)
      end; congruence. }
  destruct (select_callback_returns _ _ _ H) as (srv & new & -> & Hnew).
  cbn. repeat split; auto. exists new. auto.
Qed.

(** X16.  [SELECT_ALL] and [DESELECT_ALL] ignore the list of targets and
    make one [select_all] call; the callback publishes one message per
    run of the selection callback during that call, each with the list
    [get_selected_list] writes into an empty list on the server as it is
    at that moment, and filters or merges none. *)
Theorem select_all_notifies fuel req (s : SurfaceDetectionService) (flag : bool) :
  SelReq.action req = (if flag then SELECT_ALL else DESELECT_ALL) ->
  let r := InteractiveSurfaceServer_select_all flag (surface_server_ s) in
  select_surface_server_callback fuel req s
  = Returns (true,
             with_server_and_events (fst r)
               (map (fun srv =>
                       E_publish SELECTED_SURFACES_CHANGED_TOPIC
                         {| selected_surfaces :=
                              InteractiveSurfaceServer_get_selected_list srv [] |})
                    (snd r)
                ++ [E_select_all flag]) s).
Proof.
  intros Hact r; subst r. unfold select_surface_server_callback. rewrite Hact.
  destruct flag; rewrite surface_server_call_eq; do 2 f_equal;
    unfold emit, with_server_and_events, selection_publications; cbn;
    now rewrite app_assoc.
Qed.

(** *** The cached result after a returning action *)

(** X17.  After a [SCAN_FIND_AND_RETURN] or [FIND_AND_RETURN] whose find
    succeeded, [RETURN_LATEST_RESULTS] answers with the markers and the
    flag of that action's own response; its member [surface_detection]
    holds the detection parameters the action resolved to, when the stages
    do not write [params_]. *)
Theorem return_latest_replays_response req res (s : SurfaceDetectionService)
    ok res' s' new req2 res2 :
  returns_surfaces (Req.action req) = true ->
  surface_detection_server_callback req res s = (ok, res', s') ->
  trace s' = trace s ++ new ->
  In (E_find_surfaces true) new ->
  Req.action req2 = RETURN_LATEST_RESULTS ->
  let latest := snd (fst (surface_detection_server_callback req2 res2 s')) in
  markers (Res.surfaces latest) = markers (Res.surfaces res') /\
  Res.surfaces_found latest = Res.surfaces_found res' /\
  (StagesKeepParams ->
   Res.surface_detection latest
   = if Req.use_default_parameters req
     then default_surf_detection_params_ s else Req.surface_detection req).
Proof.
  intros Hact H Htrace Hfound Hact2 latest; subst latest.
  assert (Hlast : surface_detection_server_callback req2 res2 s'
                  = (true, latest_surface_detection_results_ s', s'))
    by (unfold surface_detection_server_callback; now rewrite Hact2).
  rewrite Hlast; cbn [fst snd]; clear Hlast.
  destruct (callback_outcomes _ _ _ H) as (new0 & Ht & Hcases).
  rewrite Ht in Htrace; apply app_inv_head in Htrace; subst new0.
  destruct Hcases as [(Hnofind & _)
                     | [(_ & _ & Hnofound & _)
                       | (Htouch & _ & _ & _ & Hlatest & _ & _ & _ & Hflag & Hmarkers)]].
  - now apply Hnofind in Hfound.
  - contradiction.
  - assert (Hf : flag_only (Req.action req) = false)
      by (destruct (Req.action req); (discriminate || reflexivity)).
    rewrite Hf in Hmarkers. rewrite Hlatest, Hmarkers, Hflag.
    cbn [result_of_find Res.surfaces_found Res.surfaces Res.surface_detection markers].
    repeat split.
    intro Hk. destruct (callback_params Hk _ _ _ H) as (_ & Hp & _).
    now rewrite Htouch in Hp.
Qed.

End Properties.

(** ** The results on the small implementation *)

#[local] Existing Instance Demo.messages.
#[local] Existing Instance Demo.collaborators.

Lemma Demo_stages_keep_params : @StagesKeepParams Demo.messages Demo.collaborators.
Proof.
  constructor; try reflexivity.
  intros [p [[|c clouds] found]]; reflexivity.
Qed.

(** An override of both groups: the scan goes over one pose. *)
Lemma parameter_resolution_witness :
  let req := Demo.request SCAN_AND_FIND_ONLY false ["pose_x"] 9%Z in
  let r := Demo.detect req Demo.started in
  surface_detection_server_callback req Response_new Demo.started
  = (fst (fst r), snd (fst r), snd r) /\
  scan.params_ (robot_scan_ (snd r)) = ["pose_x"] /\
  detection.params_ (surface_detection_ (snd r)) = 9%Z /\
  blending_plan_params_ (snd r) = blending_plan_params_ Demo.started.
Proof.
  intros req r.
  assert (H : surface_detection_server_callback req Response_new Demo.started
              = (fst (fst r), snd (fst r), snd r))
    by (vm_compute; reflexivity).
  split; [exact H|].
  pose proof (parameter_resolution Demo_stages_keep_params req Response_new
                Demo.started H) as P.
  vm_compute in P |- *. exact P.
Defined.

(** A scan over no pose, from a service that holds a cached result. *)
Lemma scan_failure_skips_find_witness :
  let req := Demo.request SCAN_FIND_AND_RETURN false [] 9%Z in
  let r := Demo.detect req Demo.scanned in
  let new := [E_publish_scan_poses ROBOT_SCAN_PATH_PREVIEW_TOPIC; E_clear_results;
              E_scan false 0] in
  scan_bearing (Req.action req) = true /\
  surface_detection_server_callback req Response_new Demo.scanned
  = (fst (fst r), snd (fst r), snd r) /\
  trace (snd r) = trace Demo.scanned ++ new /\
  In (E_scan false 0) new /\
  (forall found, ~ In (E_find_surfaces found) new) /\
  latest_surface_detection_results_ (snd r)
  = latest_surface_detection_results_ Demo.scanned /\
  Res.surfaces_found (snd (fst r)) = false.
Proof.
  intros req r new.
  assert (Ha : scan_bearing (Req.action req) = true) by (vm_compute; reflexivity).
  assert (H : surface_detection_server_callback req Response_new Demo.scanned
              = (fst (fst r), snd (fst r), snd r))
    by (vm_compute; reflexivity).
  assert (Ht : trace (snd r) = trace Demo.scanned ++ new) by (vm_compute; reflexivity).
  assert (Hin : In (E_scan false 0) new) by (vm_compute; auto).
  repeat (split; [assumption|]).
  pose proof (scan_failure_skips_find req Response_new Demo.scanned new Ha H Ht Hin) as P.
  vm_compute in P |- *. exact P.
Defined.



(** The four actions that run a detection: a scan over the two default
    poses with the payload cleared, a scan over one pose with its marker
    returned, a find on three clouds with the payload cleared, and a find
    on no cloud. *)
Lemma response_surfaces_payload_witness :
  (let req := Demo.request SCAN_AND_FIND_ONLY true [] 0%Z in
   let r := Demo.detect req Demo.started in
   let new :=
         [E_publish_scan_poses ROBOT_SCAN_PATH_PREVIEW_TOPIC; E_clear_results;
          E_add_cloud "pose_a"; E_add_cloud "pose_b"; E_scan false 2;
          E_find_surfaces true; E_remove_all_surfaces; E_add_surface "pose_a";
          E_add_surface "pose_b"] in
   surface_detection_server_callback req Response_new Demo.started
   = (fst (fst r), snd (fst r), snd r) /\
   trace (snd r) = trace Demo.started ++ new /\
   touches_detection (Req.action req) = true /\
   Res.surfaces_found (snd (fst r)) = true /\
   markers (Res.surfaces (snd (fst r))) = []) /\
  (let req := Demo.request SCAN_FIND_AND_RETURN false ["pose_x"] 9%Z in
   let r := Demo.detect req Demo.started in
   let new :=
         [E_publish_scan_poses ROBOT_SCAN_PATH_PREVIEW_TOPIC; E_clear_results;
          E_add_cloud "pose_x"; E_scan false 1; E_find_surfaces true;
          E_remove_all_surfaces; E_add_surface "pose_x"] in
   surface_detection_server_callback req Response_new Demo.started
   = (fst (fst r), snd (fst r), snd r) /\
   trace (snd r) = trace Demo.started ++ new /\
   touches_detection (Req.action req) = true /\
   Res.surfaces_found (snd (fst r)) = true /\
   markers (Res.surfaces (snd (fst r))) = ["pose_x"]) /\
  (let req := Demo.request FIND_ONLY false [] 9%Z in
   let r := Demo.detect req Demo.rescanned in
   let new :=
         [E_find_surfaces true; E_remove_all_surfaces; E_add_surface "pose_a";
          E_add_surface "pose_b"; E_add_surface "pose_c"] in
   surface_detection_server_callback req Response_new Demo.rescanned
   = (fst (fst r), snd (fst r), snd r) /\
   trace (snd r) = trace Demo.rescanned ++ new /\
   touches_detection (Req.action req) = true /\
   Res.surfaces_found (snd (fst r)) = true /\
   markers (Res.surfaces (snd (fst r))) = []) /\
  (let req := Demo.request FIND_AND_RETURN false [] 9%Z in
   let r := Demo.detect req Demo.cleared in
   let new :=
         [E_find_surfaces false] in
   surface_detection_server_callback req Response_new Demo.cleared
   = (fst (fst r), snd (fst r), snd r) /\
   trace (snd r) = trace Demo.cleared ++ new /\
   touches_detection (Req.action req) = true /\
   Res.surfaces_found (snd (fst r)) = false /\
   markers (Res.surfaces (snd (fst r))) = []).
Proof.
  repeat match goal with |- _ /\ _ => split end.
  all: intros req r new.
  all: match goal with
       | r := Demo.detect _ ?st |- _ =>
           assert (H : surface_detection_server_callback req Response_new st
                       = (fst (fst r), snd (fst r), snd r))
             by (vm_compute; reflexivity);
           assert (Ht : trace (snd r) = trace st ++ new) by (vm_compute; reflexivity);
           assert (Ha : touches_detection (Req.action req) = true)
             by (vm_compute; reflexivity);
           split; [exact H|]; split; [exact Ht|]; split; [exact Ha|];
           pose proof (response_surfaces_payload req Response_new st new H Ht Ha) as P
       end.
  all: cbv zeta in P; destruct P as (Hflag & _ & _ & Hempty & Hfull).
  all: vm_compute in Hflag, Hempty, Hfull |- *.
  all: split; [exact Hflag | first [exact (Hempty eq_refl) | exact (Hfull eq_refl)]].
Defined.

(** [FIND_ONLY] on three clouds, then [RETURN_LATEST_RESULTS]. *)
Lemma cache_keeps_markers_of_flag_only_actions_witness :
  let req := Demo.request FIND_ONLY false [] 9%Z in
  let req2 := Demo.request RETURN_LATEST_RESULTS false [] 0%Z in
  let r := Demo.detect req Demo.rescanned in
  let new := [E_find_surfaces true; E_remove_all_surfaces; E_add_surface "pose_a";
              E_add_surface "pose_b"; E_add_surface "pose_c"] in
  flag_only (Req.action req) = true /\
  surface_detection_server_callback req Response_new Demo.rescanned
  = (fst (fst r), snd (fst r), snd r) /\
  trace (snd r) = trace Demo.rescanned ++ new /\
  In (E_find_surfaces true) new /\
  Req.action req2 = RETURN_LATEST_RESULTS /\
  markers (Res.surfaces (snd (fst r))) = [] /\
  Res.surfaces_found (snd (fst (Demo.detect req2 (snd r)))) = true /\
  markers (Res.surfaces (snd (fst (Demo.detect req2 (snd r)))))
  = ["pose_a"; "pose_b"; "pose_c"].
Proof.
  intros req req2 r new.
  assert (Ha : flag_only (Req.action req) = true) by (vm_compute; reflexivity).
  assert (H : surface_detection_server_callback req Response_new Demo.rescanned
              = (fst (fst r), snd (fst r), snd r))
    by (vm_compute; reflexivity).
  assert (Ht : trace (snd r) = trace Demo.rescanned ++ new) by (vm_compute; reflexivity).
  assert (Hin : In (E_find_surfaces true) new) by (vm_compute; auto).
  assert (Ha2 : Req.action req2 = RETURN_LATEST_RESULTS) by (vm_compute; reflexivity).
  repeat (split; [assumption|]).
  pose proof (cache_keeps_markers_of_flag_only_actions req Response_new Demo.rescanned
                new req2 Response_new Ha H Ht Hin Ha2) as P.
  vm_compute in P |- *. exact P.
Defined.

(** [RETURN_LATEST_RESULTS] on a service that holds a cached result. *)
Lemma return_latest_results_idempotent_witness :
  let req := Demo.request RETURN_LATEST_RESULTS false [] 0%Z in
  Req.action req = RETURN_LATEST_RESULTS /\
  surface_detection_server_callback req Response_new Demo.scanned
  = (true, latest_surface_detection_results_ Demo.scanned, Demo.scanned).
Proof.
  intro req.
  assert (Ha : Req.action req = RETURN_LATEST_RESULTS) by (vm_compute; reflexivity).
  split; [exact Ha|].
  pose proof (proj1 (return_latest_results_idempotent req Response_new Demo.scanned Ha))
    as P.
  vm_compute in P |- *. exact P.
Defined.

(** Construction, [init()] and the four requests of [Demo.session]: once
    with every load succeeding, once with the blending parameters failing
    to load. *)
Lemma defaults_never_mutated_witness :
  serve_all 1 Demo.session (snd (init SurfaceDetectionService_new)) = Returns Demo.served /\
  @serve_all Demo.messages Demo.without_overlap 1 Demo.session
    (snd (init SurfaceDetectionService_new)) = Returns Demo.served_unloaded /\
  default_robot_scan_params__ Demo.served = ["pose_a"; "pose_b"] /\
  default_surf_detection_params_ Demo.served = 3%Z /\
  tool_radius (default_blending_plan_params_ Demo.served) = 11%Z /\
  default_robot_scan_params__ Demo.served_unloaded = [] /\
  default_surf_detection_params_ Demo.served_unloaded = 0%Z /\
  tool_radius (default_blending_plan_params_ Demo.served_unloaded) = 0%Z.
Proof.
  assert (H : serve_all 1 Demo.session (snd (init SurfaceDetectionService_new))
              = Returns Demo.served) by (vm_compute; reflexivity).
  assert (H' : @serve_all Demo.messages Demo.without_overlap 1 Demo.session
                 (snd (init SurfaceDetectionService_new))
               = Returns Demo.served_unloaded) by (vm_compute; reflexivity).
  split; [exact H|]. split; [exact H'|].
  pose proof (defaults_never_mutated SurfaceDetectionService_new 1 Demo.session H)
    as (Hsaved & _ & (Hs & Hd & Hb) & _).
  pose proof (@defaults_never_mutated Demo.messages Demo.without_overlap
                SurfaceDetectionService_new 1 Demo.session Demo.served_unloaded H')
    as (_ & Hkept & (Hs' & Hd' & Hb') & _).
  destruct Hsaved as (Hs1 & Hd1 & Hb1); [vm_compute; reflexivity|].
  destruct Hkept as (Hs1' & Hd1' & Hb1'); [vm_compute; reflexivity|].
  rewrite Hs, Hd, Hb, Hs', Hd', Hb', Hs1, Hd1, Hb1, Hs1', Hd1', Hb1'.
  vm_compute. repeat split; reflexivity.
Defined.

(** [DESELECT] of one surface: its flag is cleared, then the loop leaves
    the vector. *)
Lemma select_with_targets_never_returns_witness :
  let req := {| SelReq.action := DESELECT; SelReq.select_surfaces := ["pose_a"] |} in
  (SelReq.action req = SELECT \/ SelReq.action req = DESELECT) /\
  SelReq.select_surfaces req <> [] /\
  select_surface_server_callback 5 req Demo.scanned
  = Undefined (set_selection_flag_call "pose_a" false Demo.scanned).
Proof.
  intro req.
  assert (Ha : SelReq.action req = SELECT \/ SelReq.action req = DESELECT)
    by (right; reflexivity).
  assert (Hne : SelReq.select_surfaces req <> []) by discriminate.
  split; [exact Ha|]. split; [exact Hne|].
  assert (Hmax : (Z.of_nat (List.length (SelReq.select_surfaces req)) <= INT_MAX)%Z)
    by (vm_compute; discriminate).
  assert (Hfuel : List.length (SelReq.select_surfaces req) < 5) by (vm_compute; lia).
  pose proof (proj1 (proj2 (select_with_targets_never_returns 5 req Demo.scanned Ha Hne)
                       Hmax Hfuel)) as P.
  vm_compute in P |- *. exact P.
Defined.

(** [SELECT_ALL] returns, with one notification; the [DESELECT] of one id
    that follows clears the flag of that id, publishes its notification and
    then leaves the vector instead of returning. *)
Example select_all_then_deselect_one :
  exists s,
    serve_all 5
      [ SelectRequest {| SelReq.action := SELECT_ALL; SelReq.select_surfaces := [] |};
        SelectRequest {| SelReq.action := DESELECT; SelReq.select_surfaces := ["pose_a"] |} ]
      Demo.scanned
    = Undefined s /\
    trace s
    = trace Demo.scanned
      ++ [ E_publish SELECTED_SURFACES_CHANGED_TOPIC
             {| selected_surfaces := ["pose_a"; "pose_b"] |};
           E_select_all true;
           E_publish SELECTED_SURFACES_CHANGED_TOPIC
             {| selected_surfaces := ["pose_b"] |};
           E_set_selection_flag "pose_a" false ].
Proof. eexists. split; vm_compute; reflexivity. Qed.

(** One thread alone, for the fifteen statements of its find. *)
Lemma find_alone_replaces_cache_and_cloud_witness :
  nth_error (workers Demo.one_find) 0 = Some (find_entry {| markers := [] |}) /\
  find_statements (shared Demo.one_find) <= 15 /\
  shared (run_schedule (repeat 0 15) Demo.one_find)
  = snd (find_surfaces {| markers := [] |} Demo.rescanned).
Proof.
  assert (Hk : nth_error (workers Demo.one_find) 0 = Some (find_entry {| markers := [] |}))
    by (vm_compute; reflexivity).
  assert (Hn : find_statements (shared Demo.one_find) <= 15) by (vm_compute; lia).
  split; [exact Hk|]. split; [exact Hn|].
  pose proof (proj1 (find_alone_replaces_cache_and_cloud 0 Demo.one_find Hk Hn)) as P.
  vm_compute in P |- *. exact P.
Defined.

(** C9 fails on the code.  With two threads about to run [find_surfaces],
    the schedule that lets each run one statement has both inside the find
    sub-procedure; and a reader scheduled after the thirteenth statement
    of a find finds the cached result replaced and the region cloud not. *)
Lemma concurrent_finds_not_excluded :
  ~ at_most_one_find_in_flight Demo.two_finds /\
  ~ cache_and_cloud_replaced_together Demo.one_find.
Proof.
  split.
  - intro H. specialize (H [0; 1]). vm_compute in H. lia.
  - intro H. destruct (H (repeat 0 13)) as [Hcloud _].
    vm_compute in Hcloud. apply Hcloud; [discriminate | reflexivity].
Qed.

(** C7 fails on the code when a load fails.  With [overlap] not set on
    the parameter server, [init()] still returns true and the four
    requests of [Demo.session] are served, but nothing was saved: the
    scanner and the detection hold the parameters they loaded, while the
    defaults are the constructed ones, before and after the requests, and
    [GET_DEFAULT_PARAMETERS] answers with these. *)
Lemma defaults_not_saved_when_a_load_fails :
  let s0 := @SurfaceDetectionService_new Demo.messages Demo.without_overlap in
  let get_default := Demo.request GET_DEFAULT_PARAMETERS false [] 0%Z in
  fst (init s0) = true /\
  serve_all 1 Demo.session (snd (init s0)) = Returns Demo.served_unloaded /\
  scan.params_ (robot_scan_ (snd (init s0))) = ["pose_a"; "pose_b"] /\
  detection.params_ (surface_detection_ (snd (init s0))) = 3%Z /\
  Res.robot_scan
    (snd (fst (surface_detection_server_callback get_default Response_new
                 Demo.served_unloaded))) = [] /\
  ~ defaults_snapshotted_at_startup s0 (snd (init s0)) /\
  ~ defaults_snapshotted_at_startup s0 Demo.served_unloaded.
Proof.
  intros s0 get_default.
  split; [vm_compute; reflexivity|].
  split; [vm_compute; reflexivity|].
  split; [vm_compute; reflexivity|].
  split; [vm_compute; reflexivity|].
  split; [vm_compute; reflexivity|].
  split; intros (Hscan & _); vm_compute in Hscan; discriminate.
Qed.

(** ** The further properties on the small implementation *)

(** [overlap] is the first key that is not set: [tool_radius] and [margin]
    are read, the other members keep their seven. *)
Lemma load_blending_parameters_first_missing_witness :
  let before := [("tool_radius", @tool_radius Demo.messages); ("margin", margin)] in
  let after := [("approach_spd", @approach_spd Demo.messages);
                ("blending_spd", blending_spd); ("retract_spd", retract_spd);
                ("traverse_spd", traverse_spd); ("discretization", discretization);
                ("safe_traverse_height", safe_traverse_height)] in
  let r := @load_blending_parameters Demo.messages Demo.without_overlap
             "~/blending_plan" Demo.sevens in
  blending_plan_fields = before ++ ("overlap", overlap) :: after /\
  (forall k m, In (k, m) before ->
               @getParam_double Demo.messages Demo.without_overlap "~/blending_plan" k
               <> None) /\
  @getParam_double Demo.messages Demo.without_overlap "~/blending_plan" "overlap" = None /\
  fst r = false /\
  tool_radius (snd r) = 11%Z /\ margin (snd r) = 6%Z /\
  overlap (snd r) = 7%Z /\ safe_traverse_height (snd r) = 7%Z.
Proof.
  intros before after r.
  assert (Hsplit : blending_plan_fields = before ++ ("overlap", overlap) :: after)
    by reflexivity.
  assert (Hset : forall k m, In (k, m) before ->
                 @getParam_double Demo.messages Demo.without_overlap "~/blending_plan" k
                 <> None)
    by (intros k m [H | [H | []]]; injection H as <- <-; vm_compute; discriminate).
  assert (Hkey : @getParam_double Demo.messages Demo.without_overlap
                   "~/blending_plan" "overlap" = None)
    by (vm_compute; reflexivity).
  repeat (split; [assumption|]).
  pose proof (@load_blending_parameters_first_missing Demo.messages Demo.without_overlap
                "~/blending_plan" Demo.sevens before "overlap" overlap after
                Hsplit Hset Hkey) as (Hfalse & _ & _).
  split; [exact Hfalse|].
  vm_compute. repeat split; reflexivity.
Defined.

(** The blending parameters fail to load; the four requests of
    [Demo.session] are served all the same, on default-constructed
    defaults. *)
Lemma failed_load_leaves_constructed_defaults_witness :
  fst (@load_all_parameters Demo.messages Demo.without_overlap
         (load_publish_flag SurfaceDetectionService_new)) = false /\
  @serve_all Demo.messages Demo.without_overlap 1 Demo.session
    (snd (init SurfaceDetectionService_new)) = Returns Demo.served_unloaded /\
  fst (@init Demo.messages Demo.without_overlap SurfaceDetectionService_new) = true /\
  default_robot_scan_params__ Demo.served_unloaded = [] /\
  default_surf_detection_params_ Demo.served_unloaded = 0%Z.
Proof.
  assert (Hload : fst (@load_all_parameters Demo.messages Demo.without_overlap
                         (load_publish_flag SurfaceDetectionService_new)) = false)
    by (vm_compute; reflexivity).
  assert (Hserve : @serve_all Demo.messages Demo.without_overlap 1 Demo.session
                     (snd (init SurfaceDetectionService_new))
                   = Returns Demo.served_unloaded)
    by (vm_compute; reflexivity).
  repeat (split; [assumption|]).
  pose proof (@failed_load_leaves_constructed_defaults Demo.messages Demo.without_overlap
                2 1 Demo.session Demo.served_unloaded Hload Hserve)
    as (Htrue & _ & Hscan & Hdet & _).
  repeat split; assumption.
Defined.

(** The detection fails to load: the scanner keeps its constructed
    parameters. *)
Lemma init_stops_at_failed_load_witness :
  scan.params_
    (robot_scan_ (snd (@init Demo.messages Demo.without_detection
                         SurfaceDetectionService_new)))
  = [].
Proof.
  pose proof (proj1 (@init_stops_at_failed_load Demo.messages Demo.without_detection
                       SurfaceDetectionService_new)) as P.
  cbv zeta in P.
  assert (Hfail : fst (@SurfaceDetection_load_parameters Demo.messages
                         Demo.without_detection "~/surface_detection"
                         (surface_detection_ SurfaceDetectionService_new)) = false)
    by (vm_compute; reflexivity).
  destruct (P Hfail) as (Hscan & _). rewrite Hscan. vm_compute. reflexivity.
Defined.

(** While the cached cloud of two surfaces is there, the publisher
    publishes it every turn; after a find that failed it has nothing to
    publish; after a find on three clouds it publishes the new cloud. *)
Lemma publisher_after_find_witness :
  let failing := Demo.request FIND_ONLY false [] 9%Z in
  let r := Demo.detect failing Demo.cleared in
  let finding := Demo.request FIND_AND_RETURN false [] 9%Z in
  let r2 := Demo.detect finding Demo.rescanned in
  let found := [E_find_surfaces true; E_remove_all_surfaces; E_add_surface "pose_a";
                E_add_surface "pose_b"; E_add_surface "pose_c"] in
  let cloud := E_publish_cloud REGION_POINT_CLOUD_TOPIC in
  data_empty PointCloud2_new = true /\
  surface_detection_server_callback failing Response_new Demo.cleared
  = (fst (fst r), snd (fst r), snd r) /\
  trace (snd r) = trace Demo.cleared ++ [E_find_surfaces false] /\
  surface_detection_server_callback finding Response_new Demo.rescanned
  = (fst (fst r2), snd (fst r2), snd r2) /\
  trace (snd r2) = trace Demo.rescanned ++ found /\
  publish_region_point_cloud_ Demo.rescanned = true /\
  data_empty (region_cloud_msg_ (snd r2)) = false /\
  trace (run_loop 3 Demo.cleared)
  = trace Demo.cleared ++ repeat (cloud ["pose_a"; "pose_b"]) 3 /\
  run_loop 3 (snd r) = snd r /\
  trace (run_loop 3 (snd r2))
  = trace (snd r2) ++ repeat (cloud ["pose_a"; "pose_b"; "pose_c"]) 3.
Proof.
  intros failing r finding r2 found cloud.
  assert (Hnew : data_empty PointCloud2_new = true) by (vm_compute; reflexivity).
  assert (H : surface_detection_server_callback failing Response_new Demo.cleared
              = (fst (fst r), snd (fst r), snd r))
    by (vm_compute; reflexivity).
  assert (Ht : trace (snd r) = trace Demo.cleared ++ [E_find_surfaces false])
    by (vm_compute; reflexivity).
  assert (H2 : surface_detection_server_callback finding Response_new Demo.rescanned
               = (fst (fst r2), snd (fst r2), snd r2))
    by (vm_compute; reflexivity).
  assert (Ht2 : trace (snd r2) = trace Demo.rescanned ++ found)
    by (vm_compute; reflexivity).
  assert (Hset : publish_region_point_cloud_ Demo.rescanned = true)
    by (vm_compute; reflexivity).
  assert (Hdata : data_empty (region_cloud_msg_ (snd r2)) = false)
    by (vm_compute; reflexivity).
  assert (Hbefore : trace (run_loop 3 Demo.cleared)
                    = trace Demo.cleared ++ repeat (cloud ["pose_a"; "pose_b"]) 3)
    by (vm_compute; reflexivity).
  repeat (split; [assumption|]).
  split.
  - apply (proj1 (publisher_after_find failing Response_new Demo.cleared
                    [E_find_surfaces false] 3 Hnew H Ht)).
    vm_compute; auto.
  - assert (Hin : In (E_find_surfaces true) found) by (vm_compute; auto).
    pose proof (proj2 (publisher_after_find finding Response_new Demo.rescanned
                         found 3 Hnew H2 Ht2) Hin Hset Hdata) as P.
    rewrite P. vm_compute. reflexivity.
Defined.

(** A scan over one pose followed by a successful find. *)
Lemma callback_call_sequence_witness :
  let req := Demo.request SCAN_FIND_AND_RETURN false ["pose_x"] 9%Z in
  let r := Demo.detect req Demo.started in
  let new := [E_publish_scan_poses ROBOT_SCAN_PATH_PREVIEW_TOPIC; E_clear_results;
              E_add_cloud "pose_x"; E_scan false 1; E_find_surfaces true;
              E_remove_all_surfaces; E_add_surface "pose_x"] in
  surface_detection_server_callback req Response_new Demo.started
  = (fst (fst r), snd (fst r), snd r) /\
  trace (snd r) = trace Demo.started ++ new /\
  exists clouds n calls,
    new = E_publish_scan_poses ROBOT_SCAN_PATH_PREVIEW_TOPIC :: E_clear_results
          :: map E_add_cloud clouds ++ E_scan false n :: calls.
Proof.
  intros req r new.
  assert (H : surface_detection_server_callback req Response_new Demo.started
              = (fst (fst r), snd (fst r), snd r))
    by (vm_compute; reflexivity).
  assert (Ht : trace (snd r) = trace Demo.started ++ new) by (vm_compute; reflexivity).
  repeat (split; [assumption|]).
  pose proof (callback_call_sequence req Response_new Demo.started new H Ht) as P.
  cbv zeta in P. change (Req.action req) with SCAN_FIND_AND_RETURN in P.
  destruct P as (clouds & n & calls & Hnew & _).
  exists clouds, n, calls. exact Hnew.
Defined.

(** A scan over no pose, from a service that shows two surfaces. *)
Lemma failed_scan_state_witness :
  let req := Demo.request SCAN_AND_FIND_ONLY false [] 9%Z in
  let r := Demo.detect req Demo.scanned in
  let new := [E_publish_scan_poses ROBOT_SCAN_PATH_PREVIEW_TOPIC; E_clear_results;
              E_scan false 0] in
  surface_detection_server_callback req Response_new Demo.scanned
  = (fst (fst r), snd (fst r), snd r) /\
  trace (snd r) = trace Demo.scanned ++ new /\
  In (E_scan false 0) new /\
  (0 <= 0)%Z /\
  region_cloud_msg_ (snd r) = ["pose_a"; "pose_b"] /\
  surface_server_ (snd r) = [("pose_a", (false, true)); ("pose_b", (false, true))].
Proof.
  intros req r new.
  assert (H : surface_detection_server_callback req Response_new Demo.scanned
              = (fst (fst r), snd (fst r), snd r))
    by (vm_compute; reflexivity).
  assert (Ht : trace (snd r) = trace Demo.scanned ++ new) by (vm_compute; reflexivity).
  assert (Hin : In (E_scan false 0) new) by (vm_compute; auto).
  assert (Hn : (0 <= 0)%Z) by lia.
  repeat (split; [assumption|]).
  pose proof (failed_scan_state req Response_new Demo.scanned new H Ht Hin Hn)
    as (_ & _ & _ & Hcloud & Hsrv & _).
  rewrite Hcloud, Hsrv. vm_compute. split; reflexivity.
Defined.

(** An unknown action. *)
Lemma callback_returns_true_witness :
  let req := Demo.request OTHER_ACTION false [] 0%Z in
  let r := Demo.detect req Demo.scanned in
  surface_detection_server_callback req Response_new Demo.scanned
  = (fst (fst r), snd (fst r), snd r) /\
  fst (fst r) = true /\ snd r = Demo.scanned.
Proof.
  intros req r.
  assert (H : surface_detection_server_callback req Response_new Demo.scanned
              = (fst (fst r), snd (fst r), snd r))
    by (vm_compute; reflexivity).
  split; [exact H|].
  pose proof (callback_returns_true req Response_new Demo.scanned H) as (Hok & Hsame & _).
  split; [exact Hok|]. apply Hsame; reflexivity.
Defined.

(** [PUBLISH_SCAN_PATH] with an override, then [GET_CURRENT_PARAMETERS]. *)
Lemma current_parameters_round_trip_witness :
  let req := Demo.request PUBLISH_SCAN_PATH false ["pose_x"] 9%Z in
  let req2 := Demo.request GET_CURRENT_PARAMETERS false [] 0%Z in
  let r := Demo.detect req Demo.started in
  surface_detection_server_callback req Response_new Demo.started
  = (fst (fst r), snd (fst r), snd r) /\
  Req.action req2 = GET_CURRENT_PARAMETERS /\
  Res.robot_scan (snd (fst (Demo.detect req2 (snd r)))) = ["pose_x"] /\
  Res.surface_detection (snd (fst (Demo.detect req2 (snd r)))) = 3%Z.
Proof.
  intros req req2 r.
  assert (H : surface_detection_server_callback req Response_new Demo.started
              = (fst (fst r), snd (fst r), snd r))
    by (vm_compute; reflexivity).
  assert (Ha : Req.action req2 = GET_CURRENT_PARAMETERS) by reflexivity.
  repeat (split; [assumption|]).
  pose proof (current_parameters_round_trip Demo_stages_keep_params req Response_new
                Demo.started req2 Response_new
                (BlendRes.Build_t 0%Z [] Demo.sevens) H Ha)
    as (Hscan & Hdet & _).
  vm_compute in Hscan, Hdet |- *. split; assumption.
Defined.

(** A find on a detection that holds no cloud, while the selection server
    shows two surfaces. *)
Lemma failed_find_keeps_surface_set_witness :
  let req := Demo.request FIND_ONLY false [] 9%Z in
  let r := Demo.detect req Demo.cleared in
  let new := [E_find_surfaces false] in
  surface_detection_server_callback req Response_new Demo.cleared
  = (fst (fst r), snd (fst r), snd r) /\
  trace (snd r) = trace Demo.cleared ++ new /\
  In (E_find_surfaces false) new /\
  surface_server_ (snd r) = [("pose_a", (false, true)); ("pose_b", (false, true))] /\
  region_cloud_msg_ (snd r) = [].
Proof.
  intros req r new.
  assert (H : surface_detection_server_callback req Response_new Demo.cleared
              = (fst (fst r), snd (fst r), snd r))
    by (vm_compute; reflexivity).
  assert (Ht : trace (snd r) = trace Demo.cleared ++ new) by (vm_compute; reflexivity).
  assert (Hin : In (E_find_surfaces false) new) by (vm_compute; auto).
  repeat (split; [assumption|]).
  pose proof (failed_find_keeps_surface_set req Response_new Demo.cleared new H Ht Hin)
    as (Hsrv & _).
  rewrite Hsrv. vm_compute. split; reflexivity.
Defined.

(** The cached result after the four requests of [Demo.session]. *)
Lemma cached_result_invariant_witness :
  serve_all 1 Demo.session (snd (init SurfaceDetectionService_new)) = Returns Demo.served /\
  Res.robot_scan (latest_surface_detection_results_ Demo.served) = [] /\
  Res.surfaces_found (latest_surface_detection_results_ Demo.served) = true.
Proof.
  assert (H : serve_all 1 Demo.session (snd (init SurfaceDetectionService_new))
              = Returns Demo.served) by (vm_compute; reflexivity).
  split; [exact H|].
  pose proof (cached_result_invariant 1 Demo.session H) as (Hscan & _).
  split; [exact Hscan | vm_compute; reflexivity].
Defined.

(** The blending plan after the four requests of [Demo.session]. *)
Lemma blending_plan_never_changes_witness :
  serve_all 1 Demo.session (snd (init SurfaceDetectionService_new)) = Returns Demo.served /\
  blending_plan_params_ Demo.served = default_blending_plan_params_ Demo.served.
Proof.
  assert (H : serve_all 1 Demo.session (snd (init SurfaceDetectionService_new))
              = Returns Demo.served) by (vm_compute; reflexivity).
  split; [exact H|].
  pose proof (blending_plan_never_changes SurfaceDetectionService_new 1 Demo.session H)
    as (Hblend & _).
  cbv zeta in Hblend. rewrite Hblend. vm_compute. reflexivity.
Defined.

(** [SELECT] of nothing. *)
Lemma select_nothing_witness :
  let req := {| SelReq.action := SELECT; SelReq.select_surfaces := [] |} in
  0 < 1 /\
  (SelReq.action req = SELECT \/ SelReq.action req = DESELECT) /\
  SelReq.select_surfaces req = [] /\
  select_surface_server_callback 1 req Demo.scanned = Returns (true, Demo.scanned).
Proof.
  intro req.
  assert (Hfuel : 0 < 1) by lia.
  assert (Ha : SelReq.action req = SELECT \/ SelReq.action req = DESELECT)
    by (left; reflexivity).
  assert (Hnil : SelReq.select_surfaces req = []) by reflexivity.
  repeat (split; [assumption|]).
  exact (select_nothing req Demo.scanned Hfuel Ha Hnil).
Defined.

(** [SELECT_ALL] on two surfaces. *)
Lemma selection_request_frame_witness :
  let req := {| SelReq.action := SELECT_ALL; SelReq.select_surfaces := [] |} in
  select_surface_server_callback 0 req Demo.scanned = Returns (true, Demo.all_selected) /\
  latest_surface_detection_results_ Demo.all_selected
  = latest_surface_detection_results_ Demo.scanned /\
  region_cloud_msg_ Demo.all_selected = region_cloud_msg_ Demo.scanned.
Proof.
  intro req.
  assert (H : select_surface_server_callback 0 req Demo.scanned
              = Returns (true, Demo.all_selected)) by (vm_compute; reflexivity).
  split; [exact H|].
  pose proof (selection_request_frame 0 req Demo.scanned H)
    as (_ & _ & _ & _ & _ & _ & _ & Hlatest & _ & Hcloud & _).
  split; assumption.
Defined.

(** [SELECT_ALL] on two surfaces: one notification, with both names. *)
Lemma select_all_notifies_witness :
  let req := {| SelReq.action := SELECT_ALL; SelReq.select_surfaces := ["pose_b"] |} in
  SelReq.action req = SELECT_ALL /\
  exists s,
    select_surface_server_callback 0 req Demo.scanned = Returns (true, s) /\
    trace s
    = trace Demo.scanned
      ++ [ E_publish SELECTED_SURFACES_CHANGED_TOPIC
             {| selected_surfaces := ["pose_a"; "pose_b"] |};
           E_select_all true ].
Proof.
  intro req.
  assert (Ha : SelReq.action req = (if true then SELECT_ALL else DESELECT_ALL))
    by reflexivity.
  split; [exact Ha|].
  eexists. split; [exact (select_all_notifies 0 req Demo.scanned true Ha)|].
  vm_compute. reflexivity.
Defined.

(** [FIND_AND_RETURN] with a threshold of nine on three clouds, then
    [RETURN_LATEST_RESULTS]. *)
Lemma return_latest_replays_response_witness :
  let req := Demo.request FIND_AND_RETURN false [] 9%Z in
  let req2 := Demo.request RETURN_LATEST_RESULTS false [] 0%Z in
  let r := Demo.detect req Demo.rescanned in
  let new := [E_find_surfaces true; E_remove_all_surfaces; E_add_surface "pose_a";
              E_add_surface "pose_b"; E_add_surface "pose_c"] in
  returns_surfaces (Req.action req) = true /\
  surface_detection_server_callback req Response_new Demo.rescanned
  = (fst (fst r), snd (fst r), snd r) /\
  trace (snd r) = trace Demo.rescanned ++ new /\
  In (E_find_surfaces true) new /\
  Req.action req2 = RETURN_LATEST_RESULTS /\
  markers (Res.surfaces (snd (fst (Demo.detect req2 (snd r)))))
  = ["pose_a"; "pose_b"; "pose_c"] /\
  Res.surface_detection (snd (fst (Demo.detect req2 (snd r)))) = 9%Z.
Proof.
  intros req req2 r new.
  assert (Ha : returns_surfaces (Req.action req) = true) by reflexivity.
  assert (H : surface_detection_server_callback req Response_new Demo.rescanned
              = (fst (fst r), snd (fst r), snd r))
    by (vm_compute; reflexivity).
  assert (Ht : trace (snd r) = trace Demo.rescanned ++ new) by (vm_compute; reflexivity).
  assert (Hin : In (E_find_surfaces true) new) by (vm_compute; auto).
  assert (Ha2 : Req.action req2 = RETURN_LATEST_RESULTS) by reflexivity.
  repeat (split; [assumption|]).
  pose proof (return_latest_replays_response req Response_new Demo.rescanned new
                req2 Response_new Ha H Ht Hin Ha2) as (Hmarkers & _ & Hparams).
  specialize (Hparams Demo_stages_keep_params).
  vm_compute in Hmarkers, Hparams |- *. split; assumption.
Defined.
